(** * deviceMLOps.MLAgent: the RPK plugin parser and the Model D-Bus module

    A shallow embedding of
      - [src/plugin-parser/mlops-plugin-parser.cc]: the package-manager
        plugin that reads [rpk_config.json] and replays its entries against
        the ml-agent interface, and
      - [src/daemon/model-dbus-impl.cc]: the Model interface of the daemon
        (method handlers, handler table, probe/init/exit hooks),
    followed by the properties of the specification that were checked
    against them.

    Conventions.  A [const gchar *] is an [option string]: [None] is the
    NULL pointer, and a string is read through the pointer up to its
    terminator (see [GLib.deref] and [GLib.c_str]).  Calls into the
    collaborators of the code (dlog, pkgmgr-info, the file system, the
    ml-agent interface, the service database, GDBus) are recorded as a
    trace of events, in program order. *)

From Stdlib Require Import List String Ascii ZArith NArith Lia Bool Permutation.
Import ListNotations.

Set Warnings "-register-all".

Local Open Scope Z_scope.

(* ===================================================================== *)
(** ** GLib: C strings and their comparisons                              *)
(* ===================================================================== *)

Module GLib.

(** The byte a [const gchar *] points at, as a [guchar] widened to
    [gint]. *)
Definition code (c : ascii) : Z := Z.of_nat (nat_of_ascii c).

(** [*s]: the terminator is read at the end of the string. *)
Definition deref (s : string) : Z :=
  match s with
  | EmptyString => 0
  | String c _ => code c
  end.

(** The contents of a C string: what lies before the first NUL. *)
Fixpoint c_str (s : string) : string :=
  match s with
  | EmptyString => EmptyString
  | String c r => if code c =? 0 then EmptyString else String c (c_str r)
  end.

(** gstrfuncs.c: [#define ISUPPER(c) ((c) >= 'A' && (c) <= 'Z')] and
    [#define TOLOWER(c) (ISUPPER (c) ? (c) - 'A' + 'a' : (c))]. *)
Definition ISUPPER (c : Z) : bool := (65 <=? c) && (c <=? 90).
Definition TOLOWER (c : Z) : Z := if ISUPPER c then c - 65 + 97 else c.

(** [g_ascii_strcasecmp]: walks both strings while neither is at its
    terminator, returns the difference of the first pair of bytes that
    differ after lowering, else the difference of the bytes it stopped
    at. *)
Fixpoint g_ascii_strcasecmp (s1 s2 : string) : Z :=
  match s1, s2 with
  | String a r1, String b r2 =>
      if negb (code a =? 0) && negb (code b =? 0) then
        let c1 := TOLOWER (code a) in
        let c2 := TOLOWER (code b) in
        if negb (c1 =? c2) then c1 - c2
        else g_ascii_strcasecmp r1 r2
      else deref s1 - deref s2
  | _, _ => deref s1 - deref s2
  end.

(** [strcmp] of the C library, as the byte difference at the first
    position where the strings differ. *)
Fixpoint strcmp (s1 s2 : string) : Z :=
  match s1, s2 with
  | String a r1, String b r2 =>
      if negb (code a =? 0) && (code a =? code b) then strcmp r1 r2
      else deref s1 - deref s2
  | _, _ => deref s1 - deref s2
  end.

(** [g_strcmp0]: [strcmp] that accepts NULL, NULL sorting first. *)
Definition g_strcmp0 (str1 str2 : option string) : Z :=
  match str1, str2 with
  | None, None => 0
  | None, Some _ => -1
  | Some _, None => 1
  | Some a, Some b => strcmp a b
  end.

(** Lower-casing of ASCII letters, the reading of "case-insensitive"
    used in the statements below. *)
Definition ascii_lower (c : ascii) : ascii :=
  let n := nat_of_ascii c in
  if (65 <=? n)%nat && (n <=? 90)%nat then ascii_of_nat (n + 32) else c.

Fixpoint lower (s : string) : string :=
  match s with
  | EmptyString => EmptyString
  | String c r => String (ascii_lower c) (lower r)
  end.

(** Two C strings are equal up to the case of ASCII letters. *)
Definition case_equal (s1 s2 : string) : Prop :=
  lower (c_str s1) = lower (c_str s2).

(** [g_file_test] flags used by the parser. *)
Inductive GFileTest := G_FILE_TEST_IS_REGULAR | G_FILE_TEST_EXISTS.

End GLib.

(* ===================================================================== *)
(** ** json-glib: nodes and the accessors the parser calls                *)
(* ===================================================================== *)

Module Json.

(** A JSON document.  An object keeps its members in the order
    [json_object_get_members] lists them. *)
Inductive JsonNode :=
| JNull
| JBool (b : bool)
| JInt (z : Z)
| JDouble (lexeme : string)
| JString (s : string)
| JArray (elements : list JsonNode)
| JObject (members : list (string * JsonNode)).

Definition JsonArray := list JsonNode.
Definition JsonObject := list (string * JsonNode).

(** [JSON_NODE_HOLDS_ARRAY (node)]; a NULL node has no type and fails
    the test. *)
Definition JSON_NODE_HOLDS_ARRAY (node : option JsonNode) : bool :=
  match node with
  | Some (JArray _) => true
  | _ => false
  end.

(** [json_node_get_array]: NULL unless the node holds an array. *)
Definition json_node_get_array (node : option JsonNode) : option JsonArray :=
  match node with
  | Some (JArray a) => Some a
  | _ => None
  end.

(** [json_node_get_object]: NULL unless the node holds an object. *)
Definition json_node_get_object (node : option JsonNode) : option JsonObject :=
  match node with
  | Some (JObject o) => Some o
  | _ => None
  end.

(** [json_node_get_string]: NULL unless the node holds a string value. *)
Definition json_node_get_string (node : option JsonNode) : option string :=
  match node with
  | Some (JString s) => Some s
  | _ => None
  end.

Definition json_array_get_length (array : JsonArray) : nat := List.length array.

(** [json_array_get_object_element]: the object at [index_], NULL when
    the element is not an object. *)
Definition json_array_get_object_element (array : JsonArray) (index_ : nat)
  : option JsonObject :=
  json_node_get_object (nth_error array index_).

(** [json_array_get_string_element]: the string at [index_], NULL when
    the element is not a string. *)
Definition json_array_get_string_element (array : JsonArray) (index_ : nat)
  : option string :=
  json_node_get_string (nth_error array index_).

Fixpoint lookup (members : JsonObject) (name : string) : option JsonNode :=
  match members with
  | [] => None
  | (k, v) :: rest => if String.eqb k name then Some v else lookup rest name
  end.

(** [json_object_get_member]: NULL for a NULL object or an absent
    member. *)
Definition json_object_get_member (object : option JsonObject) (name : string)
  : option JsonNode :=
  match object with
  | Some o => lookup o name
  | None => None
  end.

(** [json_object_get_string_member]: NULL for a NULL object, an absent
    member and a member that holds no string. *)
Definition json_object_get_string_member (object : option JsonObject)
  (name : string) : option string :=
  json_node_get_string (json_object_get_member object name).

(** [json_object_get_members]: the member names; NULL (the empty GList)
    for a NULL object. *)
Definition json_object_get_members (object : option JsonObject) : list string :=
  match object with
  | Some o => map fst o
  | None => []
  end.

End Json.

(* ===================================================================== *)
(** ** Computations with a state and a trace                              *)
(* ===================================================================== *)

Module Eff.

(** A computation over a state [St] that also emits events of type [E]:
    the result, the state afterwards, and what was emitted, oldest
    first. *)
Definition M (E St A : Type) : Type := St -> A * St * list E.

Definition pure {E St A} (a : A) : M E St A := fun s => (a, s, []).

Definition bind {E St A C} (m : M E St A) (f : A -> M E St C) : M E St C :=
  fun s =>
    let '(a, s1, t1) := m s in
    let '(c, s2, t2) := f a s1 in
    (c, s2, t1 ++ t2).

Definition emit {E St} (e : E) : M E St unit := fun s => (tt, s, [e]).

Definition get {E St} : M E St St := fun s => (s, s, []).

Definition put {E St} (s : St) : M E St unit := fun _ => (tt, s, []).

(** Calls an operation of the state's owner and records the call. *)
Definition call {E St A} (e : E) (op : St -> A * St) : M E St A :=
  fun s => let '(a, s1) := op s in (a, s1, [e]).

(** The same, the recorded event showing what the operation returned. *)
Definition call_with {E St A} (e : A -> E) (op : St -> A * St) : M E St A :=
  fun s => let '(a, s1) := op s in (a, s1, [e a]).

Definition result {E St A} (r : A * St * list E) : A := fst (fst r).
Definition state_of {E St A} (r : A * St * list E) : St := snd (fst r).
Definition trace {E St A} (r : A * St * list E) : list E := snd r.

(** [for (guint i = start; i < start + count; ++i) body (i);] *)
Fixpoint for_loop {E St} (start count : nat) (body : nat -> M E St unit) : M E St unit :=
  match count with
  | O => pure tt
  | S k => bind (body start) (fun _ => for_loop (S start) k body)
  end.

(** Walks a [GList] from its head. *)
Fixpoint g_list_foreach {E St A} (l : list A) (body : A -> M E St unit) : M E St unit :=
  match l with
  | [] => pure tt
  | x :: rest => bind (body x) (fun _ => g_list_foreach rest body)
  end.

End Eff.

Declare Scope eff_scope.
Delimit Scope eff_scope with eff.
Notation "x <- m ;; k" := (Eff.bind m (fun x => k))
  (at level 61, m at next level, right associativity) : eff_scope.
Notation "m ;;; k" := (Eff.bind m (fun _ => k))
  (at level 61, right associativity) : eff_scope.

(* ===================================================================== *)
(** ** The collaborators of the plugin parser                             *)
(* ===================================================================== *)

Module Host.

Import GLib Json.

(** dlog priorities used by the [_D], [_I], [_W], [_E], [_F] macros. *)
Inductive log_priority := DLOG_DEBUG | DLOG_INFO | DLOG_WARN | DLOG_ERROR | DLOG_FATAL.

(** The variadic arguments of a log call. *)
Inductive log_arg :=
| ArgStr (s : option string)
| ArgInt (z : Z)
| ArgUInt (n : N).

(** A package-information handle of pkgmgr-info: what each getter hands
    back, [None] when the getter does not return [PMINFO_R_OK]. *)
Record pkgmgrinfo_pkginfo_h := {
  h_type : option string;
  h_root_path : option string;
  h_res_type : option string;
  h_res_version : option string;
}.

(** What [json_parser_load_from_data] leaves behind: a [GError] (with or
    without a message), or a parser whose root may still be NULL (an empty
    document). *)
Inductive load_result :=
| LoadError (message : option string)
| Loaded (root : option JsonNode).

(** The environment the plugin runs in.  JSON syntax, file-name building
    and JSON printing belong to GLib and json-glib and are taken as they
    are. *)
Record host := {
  pkginfo_db : string -> option pkgmgrinfo_pkginfo_h;
  file_exists : string -> bool;
  file_is_regular : string -> bool;
  file_contents : string -> option string;
  json_parser_new : bool;
  json_parser_load_from_data : string -> load_result;
  g_build_filename : list string -> string;
  json_generator_to_data : JsonNode -> string;
}.

(** mlops-agent-interface.h: the three registration calls, on a backend
    of state [B].  Each returns its status; the register call also hands
    back the version it assigned. *)
Class MlAgent (B : Type) := {
  ml_agent_model_register :
    string -> string -> bool -> string -> string -> B -> (Z * N) * B;
  ml_agent_pipeline_set_description : string -> string -> B -> Z * B;
  ml_agent_resource_add : string -> string -> string -> string -> B -> Z * B;
}.

(** One observable step of the plugin. *)
Inductive event :=
| Dlog (prio : log_priority) (func : string) (fmt : string) (args : list log_arg)
| PkginfoGet (pkgid : string)
| PkginfoGetType
| PkginfoGetRootPath
| PkginfoGetResType
| PkginfoGetResVersion
| PkginfoDestroy
| FileTest (path : string) (tests : list GFileTest)
| FileGetContents (path : string)
| Register (name model : string) (active : bool) (description app_info : string)
| SetPipelineDescription (name pipeline : string)
| AddResource (name path description app_info : string).

(** The plugin's computations: over a backend [B], emitting [event]s. *)
Definition M (B A : Type) : Type := Eff.M event B A.

(** The events of a trace that are calls into the ml-agent interface. *)
Definition is_backend_call (e : event) : bool :=
  match e with
  | Register _ _ _ _ _ | SetPipelineDescription _ _ | AddResource _ _ _ _ => true
  | _ => false
  end.

Definition is_register (e : event) : bool :=
  match e with
  | Register _ _ _ _ _ => true
  | _ => false
  end.


Definition backend_calls (t : list event) : list event := filter is_backend_call t.
Definition register_calls (t : list event) : list event := filter is_register t.

End Host.

(* ===================================================================== *)
(** ** mlops-plugin-parser.cc                                             *)
(* ===================================================================== *)

Module PluginParser.

Import GLib Json Eff Host.
Local Open Scope string_scope.
Local Open Scope eff_scope.

(** The logging macros [_I] and [_E], with the function they expand in. *)
Definition _I {B} (func fmt : string) (args : list log_arg) : M B unit :=
  emit (Dlog DLOG_INFO func fmt args).

Definition _E {B} (func fmt : string) (args : list log_arg) : M B unit :=
  emit (Dlog DLOG_ERROR func fmt args).

(** Struct used to parse metadata tag from xml file. *)
Record _metadata_s := {
  key : option string;
  value : option string;
}.

(** Internal enumeration for data types of json. *)
Inductive mlsvc_json_type_e :=
| MLSVC_JSON_MODEL
| MLSVC_JSON_PIPELINE
| MLSVC_JSON_RESOURCE
| MLSVC_JSON_MAX.

(** [x ? x : (the empty string)] *)
Definition or_empty (s : option string) : string :=
  match s with
  | Some x => x
  | None => EmptyString
  end.

Section Plugin.

Context {B : Type} `{MlAgent B}.
Variable h : host.

(** Make pkg-info json string. *)
Definition _make_pkg_info (pkgid : string) (appid : option string)
  (res_type res_version : string) : string :=
  json_generator_to_data h
    (JObject [ ("is_rpk", JString "T");
               ("pkg_id", JString pkgid);
               ("app_id", JString (or_empty appid));
               ("res_type", JString res_type);
               ("res_version", JString res_version) ]).

(** The body of the loop of [_parse_json] once the object of the round is
    at hand: the switch on [json_type].  [continue] ends the round. *)
Definition _parse_json_object (object : option JsonObject)
  (json_type : mlsvc_json_type_e) (app_info : option string) : M B unit :=
  let fn := "_parse_json" in
  match json_type with
  | MLSVC_JSON_MODEL =>
      let name := json_object_get_string_member object "name" in
      let model := json_object_get_string_member object "model" in
      let desc := json_object_get_string_member object "description" in
      let activate := json_object_get_string_member object "activate" in
      match name, model with
      | Some name, Some model =>
          let active :=
            match activate with
            | Some a => (g_ascii_strcasecmp a "true" =? 0)%Z
            | None => false
            end in
          rv <- call (Register name model active (or_empty desc) (or_empty app_info))
                  (ml_agent_model_register name model active (or_empty desc)
                     (or_empty app_info)) ;;
          let '(ret, version) := rv in
          if (ret =? 0)%Z then
            _I fn "The model with name '%s' is registered as version '%u'."
              [ArgStr (Some name); ArgUInt version]
          else
            _E fn "Failed to register the model with name '%s'." [ArgStr (Some name)]
      | _, _ => _E fn "Failed to get name or model from MLSVC_JSON_MODEL." []
      end
  | MLSVC_JSON_PIPELINE =>
      let name := json_object_get_string_member object "name" in
      let pipe := json_object_get_string_member object "pipeline" in
      match name, pipe with
      | Some name, Some pipe =>
          ret <- call (SetPipelineDescription name pipe)
                   (ml_agent_pipeline_set_description name pipe) ;;
          if (ret =? 0)%Z then
            _I fn "The pipeline description with name '%s' is registered."
              [ArgStr (Some name)]
          else
            _E fn "Failed to register pipeline with name '%s'." [ArgStr (Some name)]
      | _, _ => _E fn "Failed to get name or pipeline from MLSVC_JSON_PIPELINE." []
      end
  | MLSVC_JSON_RESOURCE =>
      let name := json_object_get_string_member object "name" in
      let desc := json_object_get_string_member object "description" in
      let path_node := json_object_get_member object "path" in
      match name with
      | None => _E fn "Failed to get name from MLSVC_JSON_RESOURCE." []
      | Some name =>
          let path_array :=
            if JSON_NODE_HOLDS_ARRAY path_node then json_node_get_array path_node
            else None in
          let path_len :=
            if JSON_NODE_HOLDS_ARRAY path_node then
              match path_array with
              | Some a => json_array_get_length a
              | None => 0%nat
              end
            else 1%nat in
          if (path_len =? 0)%nat then
            _E fn "Failed to get path from MLSVC_JSON_RESOURCE." []
          else
            for_loop 0 path_len (fun pidx =>
              let path :=
                match path_array with
                | Some a => json_array_get_string_element a pidx
                | None => json_node_get_string path_node
                end in
              match path with
              | None =>
                  _E fn "Failed to get path at '%d'th of '%s' from MLSVC_JSON_RESOURCE."
                    [ArgInt (Z.of_nat pidx); ArgStr (Some name)]
              | Some path =>
                  ret <- call (AddResource name path (or_empty desc) (or_empty app_info))
                           (ml_agent_resource_add name path (or_empty desc)
                              (or_empty app_info)) ;;
                  if (ret =? 0)%Z then
                    _I fn "The resource at '%d'th of name '%s' is registered."
                      [ArgInt (Z.of_nat pidx); ArgStr (Some name)]
                  else
                    _E fn "Failed to register the resource with name '%s'."
                      [ArgStr (Some name)]
              end)
      end
  | MLSVC_JSON_MAX =>
      _E fn "Unknown data type '%d', internal error?" [ArgInt 3]
  end.

(** Parse json and update ml-service database via invoking daemon. *)
Definition _parse_json (node : option JsonNode) (json_type : mlsvc_json_type_e)
  (app_info : option string) : M B unit :=
  let fn := "_parse_json" in
  let array := if JSON_NODE_HOLDS_ARRAY node then json_node_get_array node else None in
  if JSON_NODE_HOLDS_ARRAY node && match array with None => true | Some _ => false end then
    _E fn "Failed to get array from json" []
  else
  let json_len := match array with Some a => json_array_get_length a | None => 1%nat end in
  (* Update ML service database. *)
  for_loop 0 json_len (fun i =>
    let object :=
      match array with
      | Some a => json_array_get_object_element a i
      | None => json_node_get_object node
      end in
    _parse_json_object object json_type app_info).

(** The loop of [_get_json_config] over the member names of the top-level
    object; leaves with FALSE at the first name of no known type. *)
Fixpoint _get_json_config_members (object : option JsonObject)
  (app_info : option string) (iter : list string) : M B bool :=
  match iter with
  | [] => pure true
  | name :: next =>
      if (g_ascii_strcasecmp name "model" =? 0)%Z || (g_ascii_strcasecmp name "models" =? 0)%Z then
        _parse_json (json_object_get_member object name) MLSVC_JSON_MODEL app_info ;;;
        _get_json_config_members object app_info next
      else if (g_ascii_strcasecmp name "pipeline" =? 0)%Z
              || (g_ascii_strcasecmp name "pipelines" =? 0)%Z then
        _parse_json (json_object_get_member object name) MLSVC_JSON_PIPELINE app_info ;;;
        _get_json_config_members object app_info next
      else if (g_ascii_strcasecmp name "resource" =? 0)%Z
              || (g_ascii_strcasecmp name "resources" =? 0)%Z then
        _parse_json (json_object_get_member object name) MLSVC_JSON_RESOURCE app_info ;;;
        _get_json_config_members object app_info next
      else
        _E "_get_json_config"
          "Failed to parse configuration file, %s cannot get the valid type from configuration."
          [ArgStr (Some name)] ;;;
        pure false
  end.

(** [g_file_test]: TRUE when any of the requested tests holds. *)
Definition g_file_test (path : string) (tests : list GFileTest) : M B bool :=
  emit (FileTest path tests) ;;;
  pure (existsb (fun t =>
         match t with
         | G_FILE_TEST_EXISTS => file_exists h path
         | G_FILE_TEST_IS_REGULAR => file_is_regular h path
         end) tests).

Definition g_file_get_contents (path : string) : M B (option string) :=
  emit (FileGetContents path) ;;;
  pure (file_contents h path).

(** Internal function to get json configuration file. *)
Definition _get_json_config (json_path : string) (app_info : option string) : M B bool :=
  let fn := "_get_json_config" in
  exists_ <- g_file_test json_path [G_FILE_TEST_EXISTS; G_FILE_TEST_IS_REGULAR] ;;
  if negb exists_ then
    _E fn "The parameter, json_path, is invalid. It should be a valid string." [] ;;;
    pure false
  else
  json_string <- g_file_get_contents json_path ;;
  match json_string with
  | None =>
      _E fn "Failed to read configuration file '%s'." [ArgStr (Some json_path)] ;;;
      pure false
  | Some json_string =>
      if negb (json_parser_new h) then
        _E fn "Failed to parse configuration file, cannot allocate memory for JsonParser. Out of memory?" [] ;;;
        pure false
      else
      match json_parser_load_from_data h json_string with
      | LoadError message =>
          _E fn "Failed to parse configuration file, cannot load json string (%s)."
            [ArgStr (Some (match message with Some m => m | None => "Unknown error" end))] ;;;
          pure false
      | Loaded None =>
          _E fn "Failed to parse configuration file, cannot get the top node from json string." [] ;;;
          pure false
      | Loaded (Some root) =>
          let object := json_node_get_object (Some root) in
          let members := json_object_get_members object in
          _get_json_config_members object app_info members
      end
  end.

(** pkgmgr-info: each call is recorded; a getter that does not return
    [PMINFO_R_OK] yields [None]. *)
Definition pkgmgrinfo_pkginfo_get_pkginfo (pkgid : string)
  : M B (option pkgmgrinfo_pkginfo_h) :=
  emit (PkginfoGet pkgid) ;;; pure (pkginfo_db h pkgid).

Definition pkgmgrinfo_pkginfo_get_type (handle : pkgmgrinfo_pkginfo_h)
  : M B (option string) :=
  emit PkginfoGetType ;;; pure (h_type handle).

Definition pkgmgrinfo_pkginfo_get_root_path (handle : pkgmgrinfo_pkginfo_h)
  : M B (option string) :=
  emit PkginfoGetRootPath ;;; pure (h_root_path handle).

Definition pkgmgrinfo_pkginfo_get_res_type (handle : pkgmgrinfo_pkginfo_h)
  : M B (option string) :=
  emit PkginfoGetResType ;;; pure (h_res_type handle).

Definition pkgmgrinfo_pkginfo_get_res_version (handle : pkgmgrinfo_pkginfo_h)
  : M B (option string) :=
  emit PkginfoGetResVersion ;;; pure (h_res_version handle).

Definition pkgmgrinfo_pkginfo_destroy_pkginfo (handle : pkgmgrinfo_pkginfo_h)
  : M B unit :=
  emit PkginfoDestroy.

(** Handle INSTALL process. Tizen app-installer invoke this function. *)
Definition PKGMGR_MDPARSER_PLUGIN_INSTALL (pkgid : string) (appid : option string)
  (metadata : list _metadata_s) : M B Z :=
  let fn := "PKGMGR_MDPARSER_PLUGIN_INSTALL" in
  _I fn "PKGMGR_MDPARSER_PLUGIN_INSTALL called" [] ;;;
  _I fn "pkgid = %s, appid = %s\n" [ArgStr (Some pkgid); ArgStr appid] ;;;
  (* check metadata key/value *)
  g_list_foreach metadata (fun detail =>
    _I fn "key = %s, value = %s\n" [ArgStr (key detail); ArgStr (value detail)]) ;;;
  handle <- pkgmgrinfo_pkginfo_get_pkginfo pkgid ;;
  match handle with
  | None => _E fn "Failed to get handle." [] ;;; pure (-1)%Z
  | Some handle =>
  (* Check whether the package is rpk *)
  pkg_type <- pkgmgrinfo_pkginfo_get_type handle ;;
  match pkg_type with
  | None =>
      _E fn "Failed to get package type." [] ;;;
      pkgmgrinfo_pkginfo_destroy_pkginfo handle ;;;
      pure (-1)%Z
  | Some pkg_type =>
  _I fn "pkg_type : %s" [ArgStr (Some pkg_type)] ;;;
  if negb (g_strcmp0 (Some pkg_type) (Some "rpk") =? 0)%Z then
    _I fn "pkg_type is not rpk. Skip parsing." [] ;;;
    pkgmgrinfo_pkginfo_destroy_pkginfo handle ;;;
    pure 0%Z
  else
  root_path <- pkgmgrinfo_pkginfo_get_root_path handle ;;
  match root_path with
  | None =>
      _E fn "Failed to get root path." [] ;;;
      pkgmgrinfo_pkginfo_destroy_pkginfo handle ;;;
      pure (-1)%Z
  | Some root_path =>
  _I fn "root path: %s" [ArgStr (Some root_path)] ;;;
  res_type <- pkgmgrinfo_pkginfo_get_res_type handle ;;
  match res_type with
  | None =>
      _E fn "Failed to get res type." [] ;;;
      pkgmgrinfo_pkginfo_destroy_pkginfo handle ;;;
      pure (-1)%Z
  | Some res_type =>
  _I fn "res_type = %s\n" [ArgStr (Some res_type)] ;;;
  res_version <- pkgmgrinfo_pkginfo_get_res_version handle ;;
  match res_version with
  | None =>
      _E fn "Failed to get res version." [] ;;;
      pkgmgrinfo_pkginfo_destroy_pkginfo handle ;;;
      pure (-1)%Z
  | Some res_version =>
  _I fn "res_version = %s\n" [ArgStr (Some res_version)] ;;;
  let app_info := _make_pkg_info pkgid appid res_type res_version in
  _I fn "app_info = %s\n" [ArgStr (Some app_info)] ;;;
  (* check rpk_config.json file *)
  let json_file :=
    g_build_filename h [root_path; "res"; "global"; res_type; "rpk_config.json"] in
  ok <- _get_json_config json_file (Some app_info) ;;
  if negb ok then
    _E fn "Failed to parse the config file %s" [ArgStr (Some json_file)] ;;;
    pkgmgrinfo_pkginfo_destroy_pkginfo handle ;;;
    pure (-1)%Z
  else
    _I fn "PKGMGR_MDPARSER_PLUGIN_INSTALL finished" [] ;;;
    pkgmgrinfo_pkginfo_destroy_pkginfo handle ;;;
    pure 0%Z
  end end end end end.

(** Handle UNINSTALL process. Tizen app-installer invoke this function. *)
Definition PKGMGR_MDPARSER_PLUGIN_UNINSTALL (pkgid : string) (appid : option string)
  (metadata : list _metadata_s) : M B Z :=
  _I "PKGMGR_MDPARSER_PLUGIN_UNINSTALL" "PKGMGR_MDPARSER_PLUGIN_UNINSTALL called" [] ;;;
  pure 0%Z.

(** Handle UPGRADE process. Tizen app-installer invoke this function. *)
Definition PKGMGR_MDPARSER_PLUGIN_UPGRADE (pkgid : string) (appid : option string)
  (metadata : list _metadata_s) : M B Z :=
  _I "PKGMGR_MDPARSER_PLUGIN_UPGRADE" "PKGMGR_MDPARSER_PLUGIN_UPGRADE called" [] ;;;
  PKGMGR_MDPARSER_PLUGIN_UNINSTALL pkgid appid metadata ;;;
  PKGMGR_MDPARSER_PLUGIN_INSTALL pkgid appid metadata ;;;
  pure 0%Z.

(** RECOVERINSTALL is invoked after the INSTALL process failed. *)
Definition PKGMGR_MDPARSER_PLUGIN_RECOVERINSTALL (pkgid : string)
  (appid : option string) (metadata : list _metadata_s) : M B Z :=
  _I "PKGMGR_MDPARSER_PLUGIN_RECOVERINSTALL"
    "PKGMGR_MDPARSER_PLUGIN_RECOVERINSTALL called" [] ;;;
  PKGMGR_MDPARSER_PLUGIN_UNINSTALL pkgid appid metadata.

(** RECOVERUPGRADE is invoked after the UPGRADE process failed. *)
Definition PKGMGR_MDPARSER_PLUGIN_RECOVERUPGRADE (pkgid : string)
  (appid : option string) (metadata : list _metadata_s) : M B Z :=
  _I "PKGMGR_MDPARSER_PLUGIN_RECOVERUPGRADE"
    "PKGMGR_MDPARSER_PLUGIN_RECOVERUPGRADE called" [] ;;;
  PKGMGR_MDPARSER_PLUGIN_UPGRADE pkgid appid metadata.

(** RECOVERUNINSTALL is invoked after the UNINSTALL process failed. *)
Definition PKGMGR_MDPARSER_PLUGIN_RECOVERUNINSTALL (pkgid : string)
  (appid : option string) (metadata : list _metadata_s) : M B Z :=
  _I "PKGMGR_MDPARSER_PLUGIN_RECOVERUNINSTALL"
    "PKGMGR_MDPARSER_PLUGIN_RECOVERUNINSTALL called" [] ;;;
  PKGMGR_MDPARSER_PLUGIN_INSTALL pkgid appid metadata.

(** CLEAN is invoked after the installation process completed. *)
Definition PKGMGR_MDPARSER_PLUGIN_CLEAN (pkgid : string) (appid : option string)
  (metadata : list _metadata_s) : M B Z :=
  _I "PKGMGR_MDPARSER_PLUGIN_CLEAN" "PKGMGR_MDPARSER_PLUGIN_CLEAN called" [] ;;;
  pure 0%Z.

(** UNDO is invoked after the installation process failed. *)
Definition PKGMGR_MDPARSER_PLUGIN_UNDO (pkgid : string) (appid : option string)
  (metadata : list _metadata_s) : M B Z :=
  _I "PKGMGR_MDPARSER_PLUGIN_UNDO" "PKGMGR_MDPARSER_PLUGIN_UNDO called" [] ;;;
  pure 0%Z.

End Plugin.

End PluginParser.

(* ===================================================================== *)
(** ** model-dbus-impl.cc                                                 *)
(* ===================================================================== *)

Module ModelDBus.

Import Eff.
Local Open Scope string_scope.
Local Open Scope eff_scope.

(** errno.h (Linux): function not implemented, invalid argument. *)
Definition ENOSYS : Z := 38.
Definition EINVAL : Z := 22.

(** dbus-interface.h: the names the Model interface is bound to.  The
    header is not among the sources; its constants are taken as given. *)
Record dbus_interface := {
  DBUS_MODEL_INTERFACE : string;
  DBUS_MODEL_PATH : string;
  DBUS_MODEL_I_HANDLER_REGISTER : string;
  DBUS_MODEL_I_HANDLER_UPDATE_DESCRIPTION : string;
  DBUS_MODEL_I_HANDLER_ACTIVATE : string;
  DBUS_MODEL_I_HANDLER_GET : string;
  DBUS_MODEL_I_HANDLER_GET_ACTIVATED : string;
  DBUS_MODEL_I_HANDLER_GET_ALL : string;
  DBUS_MODEL_I_HANDLER_DELETE : string;
}.

(** service-db-util.h: the database operations behind the handlers, on a
    database of state [D].  Each returns its status; an out-parameter the
    operation leaves untouched is [None]. *)
Class ServiceDb (D : Type) := {
  svcdb_model_add :
    string -> string -> bool -> string -> string -> D -> (Z * option N) * D;
  svcdb_model_update_description : string -> N -> string -> D -> Z * D;
  svcdb_model_activate : string -> N -> D -> Z * D;
  svcdb_model_get : string -> N -> D -> (Z * option string) * D;
  svcdb_model_get_activated : string -> D -> (Z * option string) * D;
  svcdb_model_get_all : string -> D -> (Z * option string) * D;
  svcdb_model_delete : string -> N -> bool -> D -> Z * D;
}.

(** A database operation as it was called. *)
Inductive svcdb_call :=
| ModelAdd (name path : string) (is_active : bool) (description app_info : string)
| ModelUpdateDescription (name : string) (version : N) (description : string)
| ModelActivate (name : string) (version : N)
| ModelGet (name : string) (version : N)
| ModelGetActivated (name : string)
| ModelGetAll (name : string)
| ModelDelete (name : string) (version : N) (force : bool).

(** The values a method reply is made of. *)
Inductive reply_value :=
| ReplyUInt (n : N)
| ReplyInt (z : Z)
| ReplyString (s : option string).

(** A pending method call, [GDBusMethodInvocation *]. *)
Definition GDBusMethodInvocation := nat.

(** What a handler does that can be seen from outside: it calls the
    database (the status it got back is noted), and it completes an
    invocation with a reply. *)
Inductive handler_event :=
| Svcdb (op : svcdb_call) (ret : Z)
| Complete (invoc : GDBusMethodInvocation) (method : string) (out : list reply_value).

(** The service object: the handlers connected to it (id and signal) and
    the object path it is exported at. *)
Record MachinelearningServiceModel := {
  connected : list (N * string);
  exported : option string;
}.

Section Handlers.

Context {D : Type} `{ServiceDb D}.

Definition HM (A : Type) : Type := M handler_event D A.

(** The [machinelearning_service_model_complete_*] functions that
    gdbus-codegen generates for the interface: each finishes the pending
    invocation by returning the out-values of its method to the caller. *)
Definition machinelearning_service_model_complete_register
  (obj : MachinelearningServiceModel) (invoc : GDBusMethodInvocation)
  (version : N) (ret : Z) : HM unit :=
  emit (Complete invoc "Register" [ReplyUInt version; ReplyInt ret]).

Definition machinelearning_service_model_complete_update_description
  (obj : MachinelearningServiceModel) (invoc : GDBusMethodInvocation)
  (ret : Z) : HM unit :=
  emit (Complete invoc "UpdateDescription" [ReplyInt ret]).

Definition machinelearning_service_model_complete_activate
  (obj : MachinelearningServiceModel) (invoc : GDBusMethodInvocation)
  (ret : Z) : HM unit :=
  emit (Complete invoc "Activate" [ReplyInt ret]).

Definition machinelearning_service_model_complete_get
  (obj : MachinelearningServiceModel) (invoc : GDBusMethodInvocation)
  (model_info : option string) (ret : Z) : HM unit :=
  emit (Complete invoc "Get" [ReplyString model_info; ReplyInt ret]).

Definition machinelearning_service_model_complete_get_activated
  (obj : MachinelearningServiceModel) (invoc : GDBusMethodInvocation)
  (model_info : option string) (ret : Z) : HM unit :=
  emit (Complete invoc "GetActivated" [ReplyString model_info; ReplyInt ret]).

Definition machinelearning_service_model_complete_get_all
  (obj : MachinelearningServiceModel) (invoc : GDBusMethodInvocation)
  (model_info : option string) (ret : Z) : HM unit :=
  emit (Complete invoc "GetAll" [ReplyString model_info; ReplyInt ret]).

Definition machinelearning_service_model_complete_delete
  (obj : MachinelearningServiceModel) (invoc : GDBusMethodInvocation)
  (ret : Z) : HM unit :=
  emit (Complete invoc "Delete" [ReplyInt ret]).

(** The callback function of Register method *)
Definition gdbus_cb_model_register (obj : MachinelearningServiceModel)
  (invoc : GDBusMethodInvocation) (name path : string) (is_active : bool)
  (description app_info : string) : HM bool :=
  rv <- call_with (fun r => Svcdb (ModelAdd name path is_active description app_info) (fst r))
          (svcdb_model_add name path is_active description app_info) ;;
  let ret := fst rv in
  let version := match snd rv with Some v => v | None => 0%N end in
  machinelearning_service_model_complete_register obj invoc version ret ;;;
  pure true.

(** The callback function of update description method *)
Definition gdbus_cb_model_update_description (obj : MachinelearningServiceModel)
  (invoc : GDBusMethodInvocation) (name : string) (version : N)
  (description : string) : HM bool :=
  ret <- call_with (Svcdb (ModelUpdateDescription name version description))
           (svcdb_model_update_description name version description) ;;
  machinelearning_service_model_complete_update_description obj invoc ret ;;;
  pure true.

(** The callback function of activate method *)
Definition gdbus_cb_model_activate (obj : MachinelearningServiceModel)
  (invoc : GDBusMethodInvocation) (name : string) (version : N) : HM bool :=
  ret <- call_with (Svcdb (ModelActivate name version))
           (svcdb_model_activate name version) ;;
  machinelearning_service_model_complete_activate obj invoc ret ;;;
  pure true.

(** The callback function of get method *)
Definition gdbus_cb_model_get (obj : MachinelearningServiceModel)
  (invoc : GDBusMethodInvocation) (name : string) (version : N) : HM bool :=
  rv <- call_with (fun r => Svcdb (ModelGet name version) (fst r))
          (svcdb_model_get name version) ;;
  let ret := fst rv in
  let model_info := snd rv in
  machinelearning_service_model_complete_get obj invoc model_info ret ;;;
  pure true.

(** The callback function of get activated method *)
Definition gdbus_cb_model_get_activated (obj : MachinelearningServiceModel)
  (invoc : GDBusMethodInvocation) (name : string) : HM bool :=
  rv <- call_with (fun r => Svcdb (ModelGetActivated name) (fst r))
          (svcdb_model_get_activated name) ;;
  let ret := fst rv in
  let model_info := snd rv in
  machinelearning_service_model_complete_get_activated obj invoc model_info ret ;;;
  pure true.

(** The callback function of get all method *)
Definition gdbus_cb_model_get_all (obj : MachinelearningServiceModel)
  (invoc : GDBusMethodInvocation) (name : string) : HM bool :=
  rv <- call_with (fun r => Svcdb (ModelGetAll name) (fst r))
          (svcdb_model_get_all name) ;;
  let ret := fst rv in
  let model_info := snd rv in
  machinelearning_service_model_complete_get_all obj invoc model_info ret ;;;
  pure true.

(** The callback function of delete method *)
Definition gdbus_cb_model_delete (obj : MachinelearningServiceModel)
  (invoc : GDBusMethodInvocation) (name : string) (version : N) (force : bool)
  : HM bool :=
  ret <- call_with (Svcdb (ModelDelete name version force))
           (svcdb_model_delete name version force) ;;
  machinelearning_service_model_complete_delete obj invoc ret ;;;
  pure true.

(** A database operation carried out: its status and the database
    afterwards. *)
Definition svcdb_perform (op : svcdb_call) (d : D) : Z * D :=
  match op with
  | ModelAdd name path is_active description app_info =>
      let '(rv, d') := svcdb_model_add name path is_active description app_info d in
      (fst rv, d')
  | ModelUpdateDescription name version description =>
      svcdb_model_update_description name version description d
  | ModelActivate name version => svcdb_model_activate name version d
  | ModelGet name version =>
      let '(rv, d') := svcdb_model_get name version d in (fst rv, d')
  | ModelGetActivated name =>
      let '(rv, d') := svcdb_model_get_activated name d in (fst rv, d')
  | ModelGetAll name =>
      let '(rv, d') := svcdb_model_get_all name d in (fst rv, d')
  | ModelDelete name version force => svcdb_model_delete name version force d
  end.

(** [struct gdbus_signal_info] of gdbus-util.h.  [cb] is a [GCallback]:
    a handler together with the arguments its signal passes to it. *)
Record gdbus_signal_info := {
  signal_name : string;
  cb_args : Type;
  cb : MachinelearningServiceModel -> GDBusMethodInvocation -> cb_args -> HM bool;
  cb_data : option unit;
  handler_id : N;
}.

Variable ifc : dbus_interface.

(** Event handler list of Model interface *)
Definition handler_infos : list gdbus_signal_info :=
  [ {| signal_name := DBUS_MODEL_I_HANDLER_REGISTER ifc;
       cb := fun obj invoc '(name, path, is_active, description, app_info) =>
               gdbus_cb_model_register obj invoc name path is_active description app_info;
       cb_data := None;
       handler_id := 0 |};
    {| signal_name := DBUS_MODEL_I_HANDLER_UPDATE_DESCRIPTION ifc;
       cb := fun obj invoc '(name, version, description) =>
               gdbus_cb_model_update_description obj invoc name version description;
       cb_data := None;
       handler_id := 0 |};
    {| signal_name := DBUS_MODEL_I_HANDLER_ACTIVATE ifc;
       cb := fun obj invoc '(name, version) =>
               gdbus_cb_model_activate obj invoc name version;
       cb_data := None;
       handler_id := 0 |};
    {| signal_name := DBUS_MODEL_I_HANDLER_GET ifc;
       cb := fun obj invoc '(name, version) =>
               gdbus_cb_model_get obj invoc name version;
       cb_data := None;
       handler_id := 0 |};
    {| signal_name := DBUS_MODEL_I_HANDLER_GET_ACTIVATED ifc;
       cb := fun obj invoc name => gdbus_cb_model_get_activated obj invoc name;
       cb_data := None;
       handler_id := 0 |};
    {| signal_name := DBUS_MODEL_I_HANDLER_GET_ALL ifc;
       cb := fun obj invoc name => gdbus_cb_model_get_all obj invoc name;
       cb_data := None;
       handler_id := 0 |};
    {| signal_name := DBUS_MODEL_I_HANDLER_DELETE ifc;
       cb := fun obj invoc '(name, version, force) =>
               gdbus_cb_model_delete obj invoc name version force;
       cb_data := None;
       handler_id := 0 |} ].

(** What GDBus does when asked: whether a skeleton can be made, the id
    [g_signal_connect] hands out for a signal (0 when it cannot connect),
    and the result of exporting at a path (negative on failure). *)
Record gdbus := {
  skeleton_new_ok : bool;
  g_signal_connect : string -> N;
  export_result : string -> Z;
}.

Variable g : gdbus.

(** The module's globals: [g_gdbus_instance], with the object it points
    to, and the [handler_infos] array, whose [handler_id] fields change. *)
Record module_state := {
  g_gdbus_instance : option MachinelearningServiceModel;
  signal_infos : list gdbus_signal_info;
}.

(** The steps of the module hooks, as seen from outside. *)
Inductive module_event :=
| ml_logd (fmt : string)
| ml_loge (fmt : string) (args : list (string + Z))
| SkeletonNew
| ConnectSignal (num_signals : nat)
| ExportInterface (path : string)
| DisconnectSignal (num_signals : nat)
| ObjectUnref
| GdbusInitialize.

Definition LM (A : Type) : Type := M module_event module_state A.

Definition set_handler_id (info : gdbus_signal_info) (id : N) : gdbus_signal_info :=
  {| signal_name := signal_name info;
     cb_args := cb_args info;
     cb := cb info;
     cb_data := cb_data info;
     handler_id := id |}.

Definition add_handler (instance : MachinelearningServiceModel) (id : N) (sig : string)
  : MachinelearningServiceModel :=
  {| connected := (connected instance ++ [(id, sig)])%list; exported := exported instance |}.

Definition remove_handler (instance : MachinelearningServiceModel) (id : N)
  : MachinelearningServiceModel :=
  {| connected := filter (fun c => negb (fst c =? id)%N) (connected instance);
     exported := exported instance |}.

(** Modelled from the spec: the loop of [gdbus_connect_signal], which is
    not among the sources.  It connects the handlers of the table one
    after the other; [None] as soon as one of them cannot be connected. *)
Fixpoint connect_each (instance : MachinelearningServiceModel)
  (infos : list gdbus_signal_info)
  : option (MachinelearningServiceModel * list gdbus_signal_info) :=
  match infos with
  | [] => Some (instance, [])
  | info :: rest =>
      let id := g_signal_connect g (signal_name info) in
      if (id =? 0)%N then None
      else
        match connect_each (add_handler instance id (signal_name info)) rest with
        | Some (instance', rest') => Some (instance', set_handler_id info id :: rest')
        | None => None
        end
  end.

(** Modelled from the spec: [gdbus_connect_signal] of gdbus-util, which is
    not among the sources.  It registers the operation handlers of the
    table against the service object; when a handler cannot be registered
    the step fails with a negative result and no handler remains
    attached. *)
Definition gdbus_connect_signal (instance : MachinelearningServiceModel)
  (num_signals : nat) (infos : list gdbus_signal_info)
  : Z * MachinelearningServiceModel * list gdbus_signal_info :=
  match connect_each instance (firstn num_signals infos) with
  | Some (instance', connected_infos) =>
      (0, instance', (connected_infos ++ skipn num_signals infos)%list)
  | None => (- EINVAL, instance, infos)
  end.

(** Modelled from the spec: [gdbus_disconnect_signal] of gdbus-util, which
    is not among the sources.  It detaches every registered handler of the
    table from the service object; detaching zero handlers is a no-op. *)
Fixpoint gdbus_disconnect_signal (instance : option MachinelearningServiceModel)
  (num_signals : nat) (infos : list gdbus_signal_info)
  : option MachinelearningServiceModel * list gdbus_signal_info :=
  match num_signals, infos with
  | S n, info :: rest =>
      let instance' :=
        if (0 <? handler_id info)%N
        then option_map (fun i => remove_handler i (handler_id info)) instance
        else instance in
      let '(instance'', rest') := gdbus_disconnect_signal instance' n rest in
      (instance'', set_handler_id info 0 :: rest')
  | _, _ => (instance, infos)
  end.

(** Modelled from the spec: [gdbus_export_interface] of gdbus-util, which
    is not among the sources.  It exports the service object at the given
    object path, or fails with a negative result. *)
Definition gdbus_export_interface (instance : MachinelearningServiceModel)
  (obj_path : string) : Z * MachinelearningServiceModel :=
  let ret := export_result g obj_path in
  if (ret <? 0)%Z then (ret, instance)
  else (ret, {| connected := connected instance; exported := Some obj_path |}).

(** [ARRAY_SIZE (handler_infos)] *)
Definition ARRAY_SIZE_handler_infos : nat := List.length handler_infos.

(** Utility function to get the DBus proxy of Model interface. *)
Definition gdbus_get_model_instance : LM (option MachinelearningServiceModel) :=
  emit SkeletonNew ;;;
  pure (if skeleton_new_ok g then Some {| connected := []; exported := None |} else None).

(** Utility function to release DBus proxy of Model interface:
    [g_clear_object] drops the reference, if there is one, and resets the
    pointer. *)
Definition gdbus_put_model_instance : LM unit :=
  st <- get ;;
  match g_gdbus_instance st with
  | Some _ =>
      emit ObjectUnref ;;;
      put {| g_gdbus_instance := None; signal_infos := signal_infos st |}
  | None => pure tt
  end.

(** The callback function for probing Model Interface module. *)
Definition probe_model_module (data : unit) : LM Z :=
  emit (ml_logd "probe_model_module") ;;;
  instance <- gdbus_get_model_instance ;;
  st <- get ;;
  put {| g_gdbus_instance := instance; signal_infos := signal_infos st |} ;;;
  match instance with
  | None =>
      emit (ml_loge "cannot get a dbus instance for the %s interface\n"
              [inl (DBUS_MODEL_INTERFACE ifc)]) ;;;
      pure (- ENOSYS)
  | Some instance =>
      let out (ret : Z) : LM Z := gdbus_put_model_instance ;;; pure ret in
      let out_disconnect (ret : Z) : LM Z :=
        st <- get ;;
        emit (DisconnectSignal ARRAY_SIZE_handler_infos) ;;;
        let '(instance', infos') :=
          gdbus_disconnect_signal (g_gdbus_instance st) ARRAY_SIZE_handler_infos
            (signal_infos st) in
        put {| g_gdbus_instance := instance'; signal_infos := infos' |} ;;;
        out ret in
      st <- get ;;
      emit (ConnectSignal ARRAY_SIZE_handler_infos) ;;;
      let '(ret, instance', infos') :=
        gdbus_connect_signal instance ARRAY_SIZE_handler_infos (signal_infos st) in
      put {| g_gdbus_instance := Some instance'; signal_infos := infos' |} ;;;
      if (ret <? 0)%Z then
        emit (ml_loge
                "cannot register callbacks as the dbus method invocation handlers\n ret: %d"
                [inr ret]) ;;;
        out (- ENOSYS)
      else
        emit (ExportInterface (DBUS_MODEL_PATH ifc)) ;;;
        let '(ret, instance'') := gdbus_export_interface instance' (DBUS_MODEL_PATH ifc) in
        put {| g_gdbus_instance := Some instance''; signal_infos := infos' |} ;;;
        if (ret <? 0)%Z then
          emit (ml_loge "cannot export the dbus interface '%s' at the object path '%s'\n"
                  [inl (DBUS_MODEL_INTERFACE ifc); inl (DBUS_MODEL_PATH ifc)]) ;;;
          out_disconnect (- ENOSYS)
        else pure 0
  end.

(** The callback function for initializing Model Interface module. *)
Definition init_model_module (data : unit) : LM unit :=
  emit GdbusInitialize.

(** The callback function for exiting Model Interface module. *)
Definition exit_model_module (data : unit) : LM unit :=
  st <- get ;;
  emit (DisconnectSignal ARRAY_SIZE_handler_infos) ;;;
  let '(instance', infos') :=
    gdbus_disconnect_signal (g_gdbus_instance st) ARRAY_SIZE_handler_infos
      (signal_infos st) in
  put {| g_gdbus_instance := instance'; signal_infos := infos' |} ;;;
  gdbus_put_model_instance.

(** [struct module_ops] of modules.h. *)
Record module_ops := {
  name : string;
  probe : unit -> LM Z;
  init : unit -> LM unit;
  exit : unit -> LM unit;
}.

Definition model_ops : module_ops :=
  {| name := "model-interface";
     probe := probe_model_module;
     init := init_model_module;
     exit := exit_model_module |}.

(** Every handler of the table can be connected on this bus. *)
Definition connectable (infos : list gdbus_signal_info) : bool :=
  forallb (fun info => negb (g_signal_connect g (signal_name info) =? 0)%N) infos.

(** The module before the daemon starts: no service object, the handler
    table as it is initialised. *)
Definition initial_state : module_state :=
  {| g_gdbus_instance := None; signal_infos := handler_infos |}.

(** No handler of the table is attached: every [handler_id] is 0 and the
    service object, if there is one, has no handler connected. *)
Definition no_handler_attached (st : module_state) : Prop :=
  Forall (fun info => handler_id info = 0%N) (signal_infos st) /\
  match g_gdbus_instance st with
  | Some instance => connected instance = []
  | None => True
  end.

End Handlers.

End ModelDBus.

(* ===================================================================== *)
(** ** A test bench: a fake backend, a fake database, a small host        *)
(* ===================================================================== *)

Module Bench.

Import GLib Json Eff Host PluginParser ModelDBus.
Local Open Scope string_scope.

(** A backend that counts the models it registered; it refuses the model
    named "broken". *)
#[export] Instance counting_agent : MlAgent nat := {|
  ml_agent_model_register := fun name _ _ _ _ n =>
    if String.eqb name "broken" then ((-1, 0%N), n)
    else ((0, N.of_nat (S n)), S n);
  ml_agent_pipeline_set_description := fun _ _ n => (0, n);
  ml_agent_resource_add := fun _ _ _ _ n => (0, n);
|}.

(** A database that knows the versions it handed out and nothing else. *)
#[export] Instance counting_db : ServiceDb nat := {|
  svcdb_model_add := fun _ _ _ _ _ n => ((0, Some (N.of_nat (S n))), S n);
  svcdb_model_update_description := fun _ _ _ n => (-22, n);
  svcdb_model_activate := fun _ _ n => (0, n);
  svcdb_model_get := fun _ v n =>
    if (N.to_nat v <=? n)%nat then ((0, Some "{}"), n) else ((-22, None), n);
  svcdb_model_get_activated := fun _ n => ((-22, None), n);
  svcdb_model_get_all := fun _ n => ((0, Some "[]"), n);
  svcdb_model_delete := fun _ _ _ n => (0, n);
|}.

Definition ifc : dbus_interface := {|
  DBUS_MODEL_INTERFACE := "org.tizen.machinelearning.service.model";
  DBUS_MODEL_PATH := "/Org/Tizen/MachineLearning/Service/Model";
  DBUS_MODEL_I_HANDLER_REGISTER := "handle_register";
  DBUS_MODEL_I_HANDLER_UPDATE_DESCRIPTION := "handle_update_description";
  DBUS_MODEL_I_HANDLER_ACTIVATE := "handle_activate";
  DBUS_MODEL_I_HANDLER_GET := "handle_get";
  DBUS_MODEL_I_HANDLER_GET_ACTIVATED := "handle_get_activated";
  DBUS_MODEL_I_HANDLER_GET_ALL := "handle_get_all";
  DBUS_MODEL_I_HANDLER_DELETE := "handle_delete";
|}.

(** A bus on which everything works, one that cannot export, and one
    that does not know the delete signal. *)
Definition bench_connect (sig : string) : N :=
  if String.eqb sig "handle_register" then 1
  else if String.eqb sig "handle_update_description" then 2
  else if String.eqb sig "handle_activate" then 3
  else if String.eqb sig "handle_get" then 4
  else if String.eqb sig "handle_get_activated" then 5
  else if String.eqb sig "handle_get_all" then 6
  else if String.eqb sig "handle_delete" then 7
  else 0.

Definition bus_ok : gdbus := {|
  skeleton_new_ok := true;
  g_signal_connect := bench_connect;
  export_result := fun _ => 0;
|}.

Definition bus_no_skeleton : gdbus := {|
  skeleton_new_ok := false;
  g_signal_connect := bench_connect;
  export_result := fun _ => 0;
|}.

Definition bus_no_export : gdbus := {|
  skeleton_new_ok := true;
  g_signal_connect := bench_connect;
  export_result := fun _ => -1;
|}.

Definition bus_no_delete : gdbus := {|
  skeleton_new_ok := true;
  g_signal_connect := fun sig =>
    if String.eqb sig "handle_delete" then 0%N else bench_connect sig;
  export_result := fun _ => 0;
|}.

(** The manifest of the specification's example:
    [{"models": [{"name":"a","model":"/a"},{"name":"b"}]}]. *)
Definition manifest_models : JsonNode :=
  JObject [ ("models",
             JArray [ JObject [("name", JString "a"); ("model", JString "/a")];
                      JObject [("name", JString "b")] ]) ].

(** A manifest with the three categories, the model key last. *)
Definition manifest_full : JsonNode :=
  JObject [ ("Resources",
             JObject [ ("name", JString "r");
                       ("path", JArray [JString "/r/1"; JInt 7; JString "/r/2"]) ]);
            ("pipeline",
             JObject [ ("name", JString "p"); ("pipeline", JString "videotestsrc ! fakesink") ]);
            ("MODEL",
             JObject [ ("name", JString "m"); ("model", JString "/m.tflite");
                       ("activate", JString "True") ]) ].

(** A manifest with a key of no known category after a model. *)
Definition manifest_unknown : JsonNode :=
  JObject [ ("model", JObject [("name", JString "m"); ("model", JString "/m")]);
            ("unknown", JArray []) ].

(** The documents the bench parser knows, by their text. *)
Definition bench_parse (text : string) : load_result :=
  if String.eqb text "models" then Loaded (Some manifest_models)
  else if String.eqb text "full" then Loaded (Some manifest_full)
  else if String.eqb text "unknown" then Loaded (Some manifest_unknown)
  else if String.eqb text "[]" then Loaded (Some (JArray []))
  else if String.eqb text EmptyString then Loaded None
  else LoadError (Some "unexpected character").

Definition bench_print (node : JsonNode) : string :=
  match node with
  | JObject members =>
      String.concat ","
        (map (fun m => fst m ++ "=" ++
                match snd m with JString s => s | _ => EmptyString end) members)
  | _ => EmptyString
  end.

(** One resource package per document and a package of another type. *)
Definition bench_packages (pkgid : string) : option pkgmgrinfo_pkginfo_h :=
  if String.eqb pkgid "org.example.tpk" then
    Some {| h_type := Some "tpk"; h_root_path := None;
            h_res_type := None; h_res_version := None |}
  else if String.eqb pkgid "org.example.noversion" then
    Some {| h_type := Some "rpk"; h_root_path := Some "/opt/models";
            h_res_type := Some "ai"; h_res_version := None |}
  else if String.prefix "rpk." pkgid then
    Some {| h_type := Some "rpk";
            h_root_path := Some ("/opt/" ++ pkgid);
            h_res_type := Some "ai";
            h_res_version := Some "1.0" |}
  else None.

(** The file under [/opt/rpk.NAME/res/global/ai/rpk_config.json] holds
    the text NAME. *)
Definition bench_file (path : string) : option string :=
  if String.eqb path "/opt/rpk.models/res/global/ai/rpk_config.json" then Some "models"
  else if String.eqb path "/opt/rpk.full/res/global/ai/rpk_config.json" then Some "full"
  else if String.eqb path "/opt/rpk.unknown/res/global/ai/rpk_config.json" then Some "unknown"
  else if String.eqb path "/opt/rpk.array/res/global/ai/rpk_config.json" then Some "[]"
  else None.

Definition bench_host : host := {|
  pkginfo_db := bench_packages;
  file_exists := fun p => match bench_file p with Some _ => true | None => false end;
  file_is_regular := fun p => match bench_file p with Some _ => true | None => false end;
  file_contents := bench_file;
  json_parser_new := true;
  json_parser_load_from_data := bench_parse;
  g_build_filename := String.concat "/";
  json_generator_to_data := bench_print;
|}.

End Bench.

(* ===================================================================== *)
(** ** The manifest as the specification reads it                         *)
(* ===================================================================== *)

Module Manifest.

Import GLib Json Eff Host PluginParser.
Local Open Scope string_scope.

(** A top-level key names a category when it is one of the category's two
    spellings, letters compared without regard to case. *)
Definition names_category (name : string) (ty : mlsvc_json_type_e) : Prop :=
  match ty with
  | MLSVC_JSON_MODEL => case_equal name "model" \/ case_equal name "models"
  | MLSVC_JSON_PIPELINE => case_equal name "pipeline" \/ case_equal name "pipelines"
  | MLSVC_JSON_RESOURCE => case_equal name "resource" \/ case_equal name "resources"
  | MLSVC_JSON_MAX => False
  end.

(** One of the six recognized spellings. *)
Definition recognized (name : string) : Prop :=
  names_category name MLSVC_JSON_MODEL \/
  names_category name MLSVC_JSON_PIPELINE \/
  names_category name MLSVC_JSON_RESOURCE.

(** The category the code files a key under, by the tests it makes in the
    order it makes them. *)
Definition category_of (name : string) : option mlsvc_json_type_e :=
  if (g_ascii_strcasecmp name "model" =? 0)%Z || (g_ascii_strcasecmp name "models" =? 0)%Z
  then Some MLSVC_JSON_MODEL
  else if (g_ascii_strcasecmp name "pipeline" =? 0)%Z
          || (g_ascii_strcasecmp name "pipelines" =? 0)%Z
  then Some MLSVC_JSON_PIPELINE
  else if (g_ascii_strcasecmp name "resource" =? 0)%Z
          || (g_ascii_strcasecmp name "resources" =? 0)%Z
  then Some MLSVC_JSON_RESOURCE
  else None.

Definition case_equalb (s1 s2 : string) : bool :=
  String.eqb (lower (c_str s1)) (lower (c_str s2)).

(** The objects a category value stands for: the elements of an array,
    or the value itself. *)
Definition entries (node : option JsonNode) : list (option JsonObject) :=
  match node with
  | Some (JArray a) => map (fun e => json_node_get_object (Some e)) a
  | _ => [json_node_get_object node]
  end.

(** An entry lacks a field its category requires. *)
Definition missing_required (ty : mlsvc_json_type_e) (object : option JsonObject) : Prop :=
  match ty with
  | MLSVC_JSON_MODEL =>
      json_object_get_string_member object "name" = None \/
      json_object_get_string_member object "model" = None
  | MLSVC_JSON_PIPELINE =>
      json_object_get_string_member object "name" = None \/
      json_object_get_string_member object "pipeline" = None
  | MLSVC_JSON_RESOURCE => json_object_get_string_member object "name" = None
  | MLSVC_JSON_MAX => False
  end.

(** The Register call a model entry stands for. *)
Definition model_calls (app_info : option string) (object : option JsonObject)
  : list event :=
  match json_object_get_string_member object "name",
        json_object_get_string_member object "model" with
  | Some name, Some model =>
      [ Register name model
          (match json_object_get_string_member object "activate" with
           | Some a => case_equalb a "true"
           | None => false
           end)
          (or_empty (json_object_get_string_member object "description"))
          (or_empty app_info) ]
  | _, _ => []
  end.

(** A model entry with the two fields its category requires. *)
Definition well_formed_model (o : JsonObject) : Prop :=
  json_object_get_string_member (Some o) "name" <> None /\
  json_object_get_string_member (Some o) "model" <> None.

(** The Register call of a well-formed model entry: its name, its model
    path, its active flag, its description (empty when absent) and the
    application context. *)
Definition register_of (app_info : option string) (o : JsonObject) : event :=
  Register
    (or_empty (json_object_get_string_member (Some o) "name"))
    (or_empty (json_object_get_string_member (Some o) "model"))
    (match json_object_get_string_member (Some o) "activate" with
     | Some a => case_equalb a "true"
     | None => false
     end)
    (or_empty (json_object_get_string_member (Some o) "description"))
    (or_empty app_info).

Definition pipeline_calls (object : option JsonObject) : list event :=
  match json_object_get_string_member object "name",
        json_object_get_string_member object "pipeline" with
  | Some name, Some pipe => [SetPipelineDescription name pipe]
  | _, _ => []
  end.

(** The paths that can be read from the elements of a path array. *)
Definition readable_paths (elements : list JsonNode) : list string :=
  flat_map (fun e => match e with JString s => [s] | _ => [] end) elements.

(** The paths of a resource entry: the readable elements of an array, or
    the one string. *)
Definition paths_of (path_node : option JsonNode) : list string :=
  match path_node with
  | Some (JArray a) => readable_paths a
  | Some (JString s) => [s]
  | _ => []
  end.

(** The AddResource calls a resource entry stands for: one per path. *)
Definition resource_calls (app_info : option string) (object : option JsonObject)
  : list event :=
  match json_object_get_string_member object "name" with
  | Some name =>
      map (fun path =>
             AddResource name path
               (or_empty (json_object_get_string_member object "description"))
               (or_empty app_info))
          (paths_of (json_object_get_member object "path"))
  | None => []
  end.

Definition entry_calls (ty : mlsvc_json_type_e) (app_info : option string)
  (object : option JsonObject) : list event :=
  match ty with
  | MLSVC_JSON_MODEL => model_calls app_info object
  | MLSVC_JSON_PIPELINE => pipeline_calls object
  | MLSVC_JSON_RESOURCE => resource_calls app_info object
  | MLSVC_JSON_MAX => []
  end.

(** The calls a whole manifest stands for: key by key, entry by entry. *)
Definition manifest_calls (app_info : option string) (members : JsonObject)
  (names : list string) : list event :=
  flat_map (fun name =>
    match category_of name with
    | Some ty => flat_map (entry_calls ty app_info) (entries (lookup members name))
    | None => []
    end) names.

(** The file at [json_path] is there, can be read, and parses to
    [root]. *)
Definition manifest_at (h : host) (json_path : string) (root : JsonNode) : Prop :=
  (file_exists h json_path || file_is_regular h json_path = true) /\
  json_parser_new h = true /\
  exists json_string,
    file_contents h json_path = Some json_string /\
    json_parser_load_from_data h json_string = Loaded (Some root).

(** The events of a trace that are not log lines. *)
Definition is_step (e : event) : bool :=
  match e with
  | Dlog _ _ _ _ => false
  | _ => true
  end.

Definition steps (t : list event) : list event := filter is_step t.

End Manifest.

(* ===================================================================== *)
(** ** What can be observed of a run                                      *)
(* ===================================================================== *)

Module Observe.

Import GLib Json Eff Host PluginParser Manifest.
Local Open Scope string_scope.
Local Open Scope list_scope.

Definition is_log (e : event) : bool :=
  match e with
  | Dlog _ _ _ _ => true
  | _ => false
  end.

Definition is_destroy (e : event) : bool :=
  match e with
  | PkginfoDestroy => true
  | _ => false
  end.

(** The events [_parse_json] has any business with: log lines and calls
    into the ml-agent interface. *)
Definition parser_event (e : event) : bool := is_log e || is_backend_call e.

(** The events of [_get_json_config]: those of the parser and the two
    accesses to the file. *)
Definition config_event (e : event) : bool :=
  match e with
  | FileTest _ _ | FileGetContents _ => true
  | _ => parser_event e
  end.

(** A backend call is one of the category: Register for models,
    SetPipelineDescription for pipelines, AddResource for resources. *)
Definition call_of_category (ty : mlsvc_json_type_e) (e : event) : bool :=
  match ty, e with
  | MLSVC_JSON_MODEL, Register _ _ _ _ _ => true
  | MLSVC_JSON_PIPELINE, SetPipelineDescription _ _ => true
  | MLSVC_JSON_RESOURCE, AddResource _ _ _ _ => true
  | _, _ => false
  end.

(** A call that takes an application context was given this one. *)
Definition carries_app_info (app_info : string) (e : event) : Prop :=
  match e with
  | Register _ _ _ _ a => a = app_info
  | AddResource _ _ _ a => a = app_info
  | _ => True
  end.

(** The trace ends with an error line logged by [func]. *)
Definition ends_with_error (func : string) (t : list event) : Prop :=
  exists t0 fmt args, t = t0 ++ [Dlog DLOG_ERROR func fmt args].

(** A pipeline entry with the two fields its category requires, and the
    call it stands for. *)
Definition well_formed_pipeline (o : JsonObject) : Prop :=
  json_object_get_string_member (Some o) "name" <> None /\
  json_object_get_string_member (Some o) "pipeline" <> None.

Definition pipeline_of (o : JsonObject) : event :=
  SetPipelineDescription
    (or_empty (json_object_get_string_member (Some o) "name"))
    (or_empty (json_object_get_string_member (Some o) "pipeline")).

(** The calls one member of the manifest stands for, by its own key and
    value. *)
Definition member_calls (app_info : option string) (member : string * JsonNode)
  : list event :=
  match category_of (fst member) with
  | Some ty => flat_map (entry_calls ty app_info) (entries (Some (snd member)))
  | None => []
  end.

(** What the loop over the member names comes to, without a backend: the
    answer, and the calls made on the way to it. *)
Fixpoint members_outcome (object : option JsonObject) (app_info : option string)
  (names : list string) : bool * list event :=
  match names with
  | [] => (true, [])
  | name :: next =>
      match category_of name with
      | Some ty =>
          let '(ok, calls) := members_outcome object app_info next in
          (ok, flat_map (entry_calls ty app_info)
                 (entries (json_object_get_member object name)) ++ calls)
      | None => (false, [])
      end
  end.

(** What [_get_json_config] comes to on a host, without a backend. *)
Definition config_outcome (h : host) (json_path : string) (app_info : option string)
  : bool * list event :=
  if negb (file_exists h json_path || file_is_regular h json_path) then (false, [])
  else
    match file_contents h json_path with
    | None => (false, [])
    | Some json_string =>
        if negb (json_parser_new h) then (false, [])
        else
          match json_parser_load_from_data h json_string with
          | Loaded (Some root) =>
              let object := json_node_get_object (Some root) in
              members_outcome object app_info (json_object_get_members object)
          | _ => (false, [])
          end
    end.

End Observe.

Module ObserveDBus.

Import ModelDBus.

Definition is_unref (e : module_event) : bool :=
  match e with
  | ObjectUnref => true
  | _ => false
  end.

Definition is_skeleton_new (e : module_event) : bool :=
  match e with
  | SkeletonNew => true
  | _ => false
  end.

End ObserveDBus.

(** A host with some odd files: a directory, a file that cannot be read,
    one that is no JSON, and an empty one. *)
Module OddFiles.

Import Json Host.
Local Open Scope string_scope.

Definition odd_host : host := {|
  pkginfo_db := fun _ => None;
  file_exists := fun p =>
    String.eqb p "/opt/dir" || String.eqb p "/opt/secret.json"
    || String.eqb p "/opt/broken.json" || String.eqb p "/opt/empty.json";
  file_is_regular := fun p =>
    String.eqb p "/opt/secret.json" || String.eqb p "/opt/broken.json"
    || String.eqb p "/opt/empty.json";
  file_contents := fun p =>
    if String.eqb p "/opt/broken.json" then Some "{"
    else if String.eqb p "/opt/empty.json" then Some EmptyString
    else None;
  json_parser_new := true;
  json_parser_load_from_data := fun text =>
    if String.eqb text EmptyString then Loaded None
    else LoadError (Some "unexpected end of input");
  g_build_filename := String.concat "/";
  json_generator_to_data := fun _ => EmptyString;
|}.

End OddFiles.

(* ===================================================================== *)
(** ** Facts about the string comparisons                                 *)
(* ===================================================================== *)

Module GLibFacts.

Import GLib.

Lemma code_inj (a b : ascii) : code a = code b -> a = b.
Proof.
  unfold code. intros E. apply Nat2Z.inj in E.
  rewrite <- (ascii_nat_embedding a), <- (ascii_nat_embedding b).
  now rewrite E.
Qed.

Lemma TOLOWER_code (a : ascii) : TOLOWER (code a) = code (ascii_lower a).
Proof.
  destruct a as [[] [] [] [] [] [] [] []]; vm_compute; reflexivity.
Qed.

Lemma code_zero_lower (a : ascii) : code a <> 0 -> code (ascii_lower a) <> 0.
Proof.
  destruct a as [[] [] [] [] [] [] [] []]; vm_compute; congruence.
Qed.

Lemma c_str_cons (c : ascii) (r : string) :
  c_str (String c r) = if code c =? 0 then EmptyString else String c (c_str r).
Proof. reflexivity. Qed.

(** [g_ascii_strcasecmp] answers 0 exactly on strings that are equal up
    to the case of their letters. *)
Lemma g_ascii_strcasecmp_zero (s1 s2 : string) :
  g_ascii_strcasecmp s1 s2 = 0 <-> case_equal s1 s2.
Proof.
  unfold case_equal. revert s2.
  induction s1 as [|a r1 IH]; intros [|b r2].
  - simpl. split; reflexivity.
  - cbn [g_ascii_strcasecmp deref]. rewrite c_str_cons.
    destruct (Z.eqb_spec (code b) 0) as [E|E]; simpl.
    + rewrite E. split; reflexivity.
    + split; [lia | discriminate].
  - cbn [g_ascii_strcasecmp deref]. rewrite c_str_cons.
    destruct (Z.eqb_spec (code a) 0) as [E|E]; simpl.
    + rewrite E. split; reflexivity.
    + split; [lia | discriminate].
  - cbn [g_ascii_strcasecmp deref]. rewrite !c_str_cons.
    destruct (Z.eqb_spec (code a) 0) as [Ea|Ea];
      destruct (Z.eqb_spec (code b) 0) as [Eb|Eb]; cbn [negb andb lower].
    + rewrite Ea, Eb. split; reflexivity.
    + split; [lia | discriminate].
    + split; [lia | discriminate].
    + rewrite !TOLOWER_code.
      destruct (Z.eqb_spec (code (ascii_lower a)) (code (ascii_lower b))) as [E|E];
        cbn [negb].
      * apply code_inj in E. rewrite IH. rewrite E.
        split; [intros ->; reflexivity | intros Hs; now inversion Hs].
      * split; [lia |].
        intros Hs. inversion Hs as [[Hc Hr]]. rewrite Hc in E. now contradiction E.
Qed.

(** [strcmp] answers 0 exactly on equal strings. *)
Lemma strcmp_zero (s1 s2 : string) : strcmp s1 s2 = 0 <-> c_str s1 = c_str s2.
Proof.
  revert s2. induction s1 as [|a r1 IH]; intros [|b r2].
  - simpl. split; reflexivity.
  - cbn [strcmp deref]. rewrite c_str_cons.
    destruct (Z.eqb_spec (code b) 0) as [E|E]; simpl.
    + rewrite E. split; reflexivity.
    + split; [lia | discriminate].
  - cbn [strcmp deref]. rewrite c_str_cons.
    destruct (Z.eqb_spec (code a) 0) as [E|E]; simpl.
    + rewrite E. split; reflexivity.
    + split; [lia | discriminate].
  - cbn [strcmp deref]. rewrite !c_str_cons.
    destruct (Z.eqb_spec (code a) 0) as [Ea|Ea]; cbn [negb andb].
    + rewrite Ea. destruct (Z.eqb_spec (code b) 0) as [Eb|Eb].
      * rewrite Eb. split; reflexivity.
      * split; [lia | discriminate].
    + destruct (Z.eqb_spec (code a) (code b)) as [E|E].
      * rewrite <- E. destruct (Z.eqb_spec (code a) 0) as [|_]; [contradiction|].
        apply code_inj in E. subst b. rewrite IH.
        split; [intros ->; reflexivity | intros Hs; now inversion Hs].
      * split; [lia |].
        destruct (Z.eqb_spec (code b) 0); [discriminate|].
        intros Hs. inversion Hs. subst. now contradiction E.
Qed.

(** The test the code makes, in the words of the specification. *)
Lemma strcasecmp_eqb_true (s1 s2 : string) :
  (g_ascii_strcasecmp s1 s2 =? 0) = true <-> case_equal s1 s2.
Proof. rewrite Z.eqb_eq. apply g_ascii_strcasecmp_zero. Qed.

Lemma strcasecmp_eqb_false (s1 s2 : string) :
  (g_ascii_strcasecmp s1 s2 =? 0) = false <-> ~ case_equal s1 s2.
Proof. rewrite Z.eqb_neq. now rewrite g_ascii_strcasecmp_zero. Qed.

End GLibFacts.

(* ===================================================================== *)
(** ** Facts about computations                                           *)
(* ===================================================================== *)

Module EffFacts.

Import Eff.

Section Laws.

Context {E St : Type}.

Lemma result_bind {A C} (m : M E St A) (f : A -> M E St C) (s : St) :
  result (bind m f s) = result (f (result (m s)) (state_of (m s))).
Proof.
  unfold bind, result, state_of.
  destruct (m s) as [[a s1] t1]. simpl. destruct (f a s1) as [[c s2] t2]. reflexivity.
Qed.

Lemma state_bind {A C} (m : M E St A) (f : A -> M E St C) (s : St) :
  state_of (bind m f s) = state_of (f (result (m s)) (state_of (m s))).
Proof.
  unfold bind, result, state_of.
  destruct (m s) as [[a s1] t1]. simpl. destruct (f a s1) as [[c s2] t2]. reflexivity.
Qed.

Lemma trace_bind {A C} (m : M E St A) (f : A -> M E St C) (s : St) :
  trace (bind m f s) = trace (m s) ++ trace (f (result (m s)) (state_of (m s))).
Proof.
  unfold bind, result, state_of, trace.
  destruct (m s) as [[a s1] t1]. simpl. destruct (f a s1) as [[c s2] t2]. reflexivity.
Qed.

Lemma bind_ext {A C} (m : M E St A) (f f' : A -> M E St C) (s : St) :
  (forall a s', f a s' = f' a s') -> bind m f s = bind m f' s.
Proof.
  intros Hf. unfold bind. destruct (m s) as [[a s1] t1]. now rewrite Hf.
Qed.

(** A loop over the indices of a list whose body only looks at the
    element is a walk over the list. *)
Lemma for_loop_nth {A} (body : option A -> M E St unit) (l pre : list A) (s : St) :
  for_loop (List.length pre) (List.length l) (fun i => body (nth_error (pre ++ l) i)) s
  = g_list_foreach l (fun x => body (Some x)) s.
Proof.
  revert pre s. induction l as [|x l IH]; intros pre s.
  - reflexivity.
  - cbn [List.length for_loop g_list_foreach].
    rewrite nth_error_app2 by apply Nat.le_refl. rewrite Nat.sub_diag. cbn [nth_error].
    apply bind_ext. intros _ s'.
    specialize (IH (pre ++ [x]) s').
    rewrite length_app in IH. cbn [List.length] in IH. rewrite Nat.add_1_r in IH.
    rewrite <- app_assoc in IH. exact IH.
Qed.

Lemma foreach_app {A} (body : A -> M E St unit) (l1 l2 : list A) (s : St) :
  g_list_foreach (l1 ++ l2) body s
  = bind (g_list_foreach l1 body) (fun _ => g_list_foreach l2 body) s.
Proof.
  revert s. induction l1 as [|x l1 IH]; intros s.
  - cbn [app g_list_foreach]. unfold bind, pure.
    destruct (g_list_foreach l2 body s) as [[[] s2] t2]. reflexivity.
  - cbn [app g_list_foreach]. unfold bind at 1 2 3.
    destruct (body x s) as [[u s1] t1]. rewrite IH. unfold bind.
    destruct (g_list_foreach l1 body s1) as [[u1 s2] t2].
    destruct (g_list_foreach l2 body s2) as [[u2 s3] t3].
    now rewrite app_assoc.
Qed.

(** What a filter keeps of the trace of a loop, when it keeps of every
    round something that does not depend on the state. *)
Lemma for_loop_filter (keep : E -> bool) (kept : nat -> list E)
  (count start : nat) (body : nat -> M E St unit) :
  (forall i s, filter keep (trace (body i s)) = kept i) ->
  forall s, filter keep (trace (for_loop start count body s))
            = flat_map kept (seq start count).
Proof.
  intros Hb. revert start. induction count as [|n IH]; intros start s.
  - reflexivity.
  - cbn [for_loop seq flat_map]. rewrite trace_bind, filter_app, Hb, IH. reflexivity.
Qed.

Lemma foreach_filter {A} (keep : E -> bool) (kept : A -> list E)
  (body : A -> M E St unit) (l : list A) :
  (forall x s, filter keep (trace (body x s)) = kept x) ->
  forall s, filter keep (trace (g_list_foreach l body s)) = flat_map kept l.
Proof.
  intros Hb. induction l as [|x l IH]; intros s.
  - reflexivity.
  - cbn [g_list_foreach flat_map]. rewrite trace_bind, filter_app, Hb, IH. reflexivity.
Qed.

End Laws.

Lemma flat_map_nth {A C} (f : option A -> list C) (l pre : list A) :
  flat_map (fun i => f (nth_error (pre ++ l) i)) (seq (List.length pre) (List.length l))
  = flat_map (fun x => f (Some x)) l.
Proof.
  revert pre. induction l as [|x l IH]; intros pre.
  - reflexivity.
  - cbn [List.length seq flat_map].
    rewrite nth_error_app2 by apply Nat.le_refl. rewrite Nat.sub_diag. cbn [nth_error].
    f_equal.
    specialize (IH (pre ++ [x])).
    rewrite length_app in IH. cbn [List.length] in IH. rewrite Nat.add_1_r in IH.
    rewrite <- app_assoc in IH. exact IH.
Qed.

End EffFacts.

(* ===================================================================== *)
(** ** Facts about the plugin parser                                      *)
(* ===================================================================== *)

Module PluginFacts.

Import GLib Json Eff Host PluginParser Manifest GLibFacts EffFacts.
Local Open Scope string_scope.
Local Open Scope list_scope.

Lemma case_equalb_test (s1 s2 : string) :
  (g_ascii_strcasecmp s1 s2 =? 0)%Z = case_equalb s1 s2.
Proof.
  unfold case_equalb.
  destruct (String.eqb_spec (lower (c_str s1)) (lower (c_str s2))) as [E|E].
  - now apply strcasecmp_eqb_true.
  - now apply strcasecmp_eqb_false.
Qed.

Lemma case_equalb_true (s1 s2 : string) : case_equalb s1 s2 = true <-> case_equal s1 s2.
Proof. unfold case_equalb, case_equal. apply String.eqb_eq. Qed.

(** Evaluates the lowered contents of the string literals in sight. *)
Ltac eval_literals :=
  unfold case_equal in *;
  repeat match goal with
  | H : context [lower (c_str (String ?c ?r))] |- _ =>
      let v := eval vm_compute in (lower (c_str (String c r))) in
      change (lower (c_str (String c r))) with v in H
  | |- context [lower (c_str (String ?c ?r))] =>
      let v := eval vm_compute in (lower (c_str (String c r))) in
      change (lower (c_str (String c r))) with v
  end.

(** The six spellings are told apart by the tests of the code. *)
Lemma category_of_names (name : string) (ty : mlsvc_json_type_e) :
  category_of name = Some ty <-> names_category name ty.
Proof.
  unfold category_of. rewrite !case_equalb_test.
  destruct (case_equalb name "model") eqn:E1; [apply case_equalb_true in E1|].
  { destruct ty; cbn; split; try discriminate; try tauto;
      intros [X|X]; eval_literals; congruence. }
  destruct (case_equalb name "models") eqn:E2; [apply case_equalb_true in E2|].
  { destruct ty; cbn; split; try discriminate; try tauto;
      intros [X|X]; eval_literals; congruence. }
  destruct (case_equalb name "pipeline") eqn:E3; [apply case_equalb_true in E3|].
  { destruct ty; cbn; split; try discriminate; try tauto;
      intros [X|X]; eval_literals; congruence. }
  destruct (case_equalb name "pipelines") eqn:E4; [apply case_equalb_true in E4|].
  { destruct ty; cbn; split; try discriminate; try tauto;
      intros [X|X]; eval_literals; congruence. }
  destruct (case_equalb name "resource") eqn:E5; [apply case_equalb_true in E5|].
  { destruct ty; cbn; split; try discriminate; try tauto;
      intros [X|X]; eval_literals; congruence. }
  destruct (case_equalb name "resources") eqn:E6; [apply case_equalb_true in E6|].
  { destruct ty; cbn; split; try discriminate; try tauto;
      intros [X|X]; eval_literals; congruence. }
  cbn [orb].
  assert (N1 : ~ case_equal name "model") by (rewrite <- case_equalb_true; congruence).
  assert (N2 : ~ case_equal name "models") by (rewrite <- case_equalb_true; congruence).
  assert (N3 : ~ case_equal name "pipeline") by (rewrite <- case_equalb_true; congruence).
  assert (N4 : ~ case_equal name "pipelines") by (rewrite <- case_equalb_true; congruence).
  assert (N5 : ~ case_equal name "resource") by (rewrite <- case_equalb_true; congruence).
  assert (N6 : ~ case_equal name "resources") by (rewrite <- case_equalb_true; congruence).
  destruct ty; cbn; split; try discriminate; tauto.
Qed.

Lemma category_of_recognized (name : string) :
  category_of name <> None <-> recognized name.
Proof.
  unfold recognized. rewrite <- !category_of_names.
  destruct (category_of name) as [[]|] eqn:E; split; try congruence; try tauto.
  - intros _. apply category_of_names in E. contradiction.
  - intros [X|[X|X]]; discriminate.
Qed.

Lemma category_of_unrecognized (name : string) :
  category_of name = None <-> ~ recognized name.
Proof.
  rewrite <- category_of_recognized. destruct (category_of name); split; try congruence.
  intros X. contradiction X. discriminate.
Qed.

Section Parser.

Context {B : Type} `{MlAgent B}.

Lemma trace_emit (e : event) (b : B) : trace (emit e b) = [e].
Proof. reflexivity. Qed.

Lemma state_emit (e : event) (b : B) : state_of (emit e b) = b.
Proof. reflexivity. Qed.

Lemma trace_call {A} (e : event) (op : B -> A * B) (b : B) : trace (call e op b) = [e].
Proof. unfold call, trace. now destruct (op b). Qed.

Lemma backend_calls_app (t1 t2 : list event) :
  backend_calls (t1 ++ t2) = backend_calls t1 ++ backend_calls t2.
Proof. apply filter_app. Qed.

(** A backend call followed by log lines leaves that one call. *)
Lemma call_then_log_calls {A} (e : event) (op : B -> A * B) (k : A -> M B unit) (b : B) :
  (forall a s, backend_calls (trace (k a s)) = []) ->
  backend_calls (trace (bind (call e op) k b)) = backend_calls [e].
Proof.
  intros Hk. rewrite trace_bind, backend_calls_app, trace_call, Hk. apply app_nil_r.
Qed.

Lemma readable_paths_calls (f : string -> event) (a : list JsonNode) :
  flat_map (fun x => match json_node_get_string (Some x) with
                     | Some p => [f p]
                     | None => []
                     end) a
  = map f (readable_paths a).
Proof.
  unfold readable_paths. induction a as [|x a IH]; [reflexivity|].
  cbn [flat_map]. rewrite map_app, IH. now destruct x.
Qed.

(** The calls one round of [_parse_json] makes are those its entry stands
    for. *)
Lemma parse_json_object_calls (object : option JsonObject) (ty : mlsvc_json_type_e)
  (app_info : option string) (b : B) :
  backend_calls (trace (_parse_json_object object ty app_info b))
  = entry_calls ty app_info object.
Proof.
  destruct ty; unfold _parse_json_object; cbn [entry_calls].
  - unfold model_calls.
    destruct (json_object_get_string_member object "name") as [name|]; [|reflexivity].
    destruct (json_object_get_string_member object "model") as [model|]; [|reflexivity].
    rewrite call_then_log_calls.
    + destruct (json_object_get_string_member object "activate");
        [rewrite case_equalb_test|]; reflexivity.
    + intros [ret version] s. now destruct (ret =? 0)%Z.
  - unfold pipeline_calls.
    destruct (json_object_get_string_member object "name") as [name|]; [|reflexivity].
    destruct (json_object_get_string_member object "pipeline") as [pipe|]; [|reflexivity].
    rewrite call_then_log_calls; [reflexivity|].
    intros ret s. now destruct (ret =? 0)%Z.
  - unfold resource_calls.
    destruct (json_object_get_string_member object "name") as [name|]; [|reflexivity].
    set (desc := or_empty (json_object_get_string_member object "description")).
    assert (Hbody : forall (path : option string) (pidx : nat) (s : B),
      backend_calls (trace (
        match path with
        | None =>
            _E "_parse_json"
              "Failed to get path at '%d'th of '%s' from MLSVC_JSON_RESOURCE."
              [ArgInt (Z.of_nat pidx); ArgStr (Some name)]
        | Some path =>
            bind (call (AddResource name path desc (or_empty app_info))
                    (ml_agent_resource_add name path desc (or_empty app_info)))
              (fun ret =>
                 if (ret =? 0)%Z then
                   _I "_parse_json" "The resource at '%d'th of name '%s' is registered."
                     [ArgInt (Z.of_nat pidx); ArgStr (Some name)]
                 else
                   _E "_parse_json" "Failed to register the resource with name '%s'."
                     [ArgStr (Some name)])
        end s))
      = match path with
        | Some p => [AddResource name p desc (or_empty app_info)]
        | None => []
        end).
    { intros [path|] pidx s; [|reflexivity].
      rewrite call_then_log_calls; [reflexivity|].
      intros ret s'. now destruct (ret =? 0)%Z. }
    destruct (json_object_get_member object "path") as [[| | | | p | a | o]|];
      cbn [JSON_NODE_HOLDS_ARRAY json_node_get_array paths_of map Nat.eqb for_loop];
      try (rewrite trace_bind, backend_calls_app, Hbody; reflexivity).
    unfold json_array_get_length.
    destruct a as [|x a]; [reflexivity|]. cbn [List.length Nat.eqb].
    unfold backend_calls.
    rewrite (for_loop_filter is_backend_call
               (fun i => match json_array_get_string_element (x :: a) i with
                         | Some p => [AddResource name p desc (or_empty app_info)]
                         | None => []
                         end)).
    + unfold json_array_get_string_element.
      pose proof (flat_map_nth
                    (fun e => match json_node_get_string e with
                              | Some p => [AddResource name p desc (or_empty app_info)]
                              | None => []
                              end) (x :: a) []) as Hn.
      cbn [app List.length] in Hn. rewrite Hn.
      apply (readable_paths_calls (fun p => AddResource name p desc (or_empty app_info))).
    + intros i s. apply Hbody.
  - reflexivity.
Qed.

(** Over an array, [_parse_json] walks the elements in order. *)
Lemma parse_json_array (a : list JsonNode) (ty : mlsvc_json_type_e)
  (app_info : option string) (b : B) :
  _parse_json (Some (JArray a)) ty app_info b
  = g_list_foreach a
      (fun e => _parse_json_object (json_node_get_object (Some e)) ty app_info) b.
Proof.
  unfold _parse_json. cbn [JSON_NODE_HOLDS_ARRAY json_node_get_array andb].
  unfold json_array_get_length, json_array_get_object_element.
  apply (for_loop_nth
           (fun e => _parse_json_object (json_node_get_object e) ty app_info) a []).
Qed.

(** The calls of [_parse_json] are those of the entries of its node. *)
Lemma parse_json_calls (node : option JsonNode) (ty : mlsvc_json_type_e)
  (app_info : option string) (b : B) :
  backend_calls (trace (_parse_json node ty app_info b))
  = flat_map (entry_calls ty app_info) (entries node).
Proof.
  assert (Hone : forall n, JSON_NODE_HOLDS_ARRAY n = false ->
            backend_calls (trace (_parse_json n ty app_info b))
            = flat_map (entry_calls ty app_info) [json_node_get_object n]).
  { intros n Hn. unfold _parse_json. rewrite Hn. cbn [andb for_loop flat_map].
    rewrite trace_bind, backend_calls_app, parse_json_object_calls. reflexivity. }
  destruct node as [[| | | | | a |]|]; try (apply Hone; reflexivity).
  rewrite parse_json_array. cbn [entries].
  unfold backend_calls. rewrite flat_map_concat_map, map_map, <- flat_map_concat_map.
  apply foreach_filter. intros e s. apply parse_json_object_calls.
Qed.

(** A key of a known category has its value parsed under that category,
    and the loop goes on. *)
Lemma members_step (object : option JsonObject) (app_info : option string)
  (name : string) (next : list string) (ty : mlsvc_json_type_e) (b : B) :
  category_of name = Some ty ->
  _get_json_config_members object app_info (name :: next) b
  = bind (_parse_json (json_object_get_member object name) ty app_info)
      (fun _ => _get_json_config_members object app_info next) b.
Proof.
  unfold category_of. cbn [_get_json_config_members].
  destruct ((g_ascii_strcasecmp name "model" =? 0)%Z
            || (g_ascii_strcasecmp name "models" =? 0)%Z)%bool;
    [intros [= <-]; reflexivity|].
  destruct ((g_ascii_strcasecmp name "pipeline" =? 0)%Z
            || (g_ascii_strcasecmp name "pipelines" =? 0)%Z)%bool;
    [intros [= <-]; reflexivity|].
  destruct ((g_ascii_strcasecmp name "resource" =? 0)%Z
            || (g_ascii_strcasecmp name "resources" =? 0)%Z)%bool;
    [intros [= <-]; reflexivity|].
  discriminate.
Qed.

(** A key of no known category ends the loop with FALSE. *)
Lemma members_stop (object : option JsonObject) (app_info : option string)
  (name : string) (next : list string) (b : B) :
  category_of name = None ->
  _get_json_config_members object app_info (name :: next) b
  = (false, b,
     [Dlog DLOG_ERROR "_get_json_config"
        "Failed to parse configuration file, %s cannot get the valid type from configuration."
        [ArgStr (Some name)]]).
Proof.
  unfold category_of. cbn [_get_json_config_members].
  destruct ((g_ascii_strcasecmp name "model" =? 0)%Z
            || (g_ascii_strcasecmp name "models" =? 0)%Z)%bool; [discriminate|].
  destruct ((g_ascii_strcasecmp name "pipeline" =? 0)%Z
            || (g_ascii_strcasecmp name "pipelines" =? 0)%Z)%bool; [discriminate|].
  destruct ((g_ascii_strcasecmp name "resource" =? 0)%Z
            || (g_ascii_strcasecmp name "resources" =? 0)%Z)%bool; [discriminate|].
  reflexivity.
Qed.

(** When every key is recognized the loop answers TRUE, having made the
    calls the manifest stands for. *)
Lemma members_recognized (members : JsonObject) (app_info : option string)
  (names : list string) :
  Forall recognized names ->
  forall b : B,
    result (_get_json_config_members (Some members) app_info names b) = true /\
    backend_calls (trace (_get_json_config_members (Some members) app_info names b))
    = manifest_calls app_info members names.
Proof.
  induction 1 as [|name names Hn _ IH]; intros b.
  - split; reflexivity.
  - apply category_of_recognized in Hn.
    destruct (category_of name) as [ty|] eqn:E; [|congruence].
    rewrite (members_step _ _ _ _ ty) by exact E.
    rewrite result_bind, trace_bind, backend_calls_app, parse_json_calls.
    unfold manifest_calls at 1. cbn [flat_map]. rewrite E.
    cbn [json_object_get_member].
    split; [apply IH | f_equal; apply IH].
Qed.

(** At the first key of no known category the loop answers FALSE; what it
    did for the keys before stays done, the keys after are not looked
    at. *)
Lemma members_unrecognized (object : option JsonObject) (app_info : option string)
  (pre post : list string) (bad : string) :
  Forall recognized pre ->
  ~ recognized bad ->
  forall b : B,
    let r := _get_json_config_members object app_info (pre ++ bad :: post) b in
    let r0 := _get_json_config_members object app_info pre b in
    result r = false /\
    state_of r = state_of r0 /\
    backend_calls (trace r) = backend_calls (trace r0).
Proof.
  intros Hpre Hbad. apply category_of_unrecognized in Hbad.
  induction Hpre as [|name names Hn _ IH]; intros b.
  - cbn [app]. rewrite members_stop by exact Hbad. repeat split; reflexivity.
  - cbn zeta in *. apply category_of_recognized in Hn.
    destruct (category_of name) as [ty|] eqn:E; [|congruence].
    rewrite <- app_comm_cons.
    rewrite !(members_step _ _ _ _ ty) by exact E.
    rewrite !result_bind, !state_bind, !trace_bind, !backend_calls_app.
    destruct (IH (state_of (_parse_json (json_object_get_member object name) ty app_info b)))
      as (R & S & T).
    repeat split; [exact R | exact S | now rewrite T].
Qed.

(** With the manifest in place, [_get_json_config] tests and reads the
    file and then runs the loop over the members of the root. *)
Lemma get_json_config_loaded (h : host) (json_path : string) (root : JsonNode)
  (app_info : option string) (b : B) :
  manifest_at h json_path root ->
  let object := json_node_get_object (Some root) in
  let r := _get_json_config_members object app_info (json_object_get_members object) b in
  _get_json_config h json_path app_info b
  = (result r, state_of r,
     [FileTest json_path [G_FILE_TEST_EXISTS; G_FILE_TEST_IS_REGULAR];
      FileGetContents json_path] ++ trace r).
Proof.
  intros (Hf & Hp & text & Hc & Hl). cbn zeta.
  unfold _get_json_config, g_file_test, g_file_get_contents, bind, emit, pure.
  cbn [existsb]. rewrite orb_false_r, Hf. cbn [negb]. rewrite Hc, Hp. cbn [negb].
  rewrite Hl. unfold result, state_of, trace.
  destruct (_get_json_config_members _ _ _ b) as [[ok b'] t]. reflexivity.
Qed.

Lemma get_json_config_run (h : host) (json_path : string) (members : JsonObject)
  (app_info : option string) (b : B) :
  manifest_at h json_path (JObject members) ->
  let r := _get_json_config_members (Some members) app_info (map fst members) b in
  let c := _get_json_config h json_path app_info b in
  result c = result r /\ state_of c = state_of r /\
  backend_calls (trace c) = backend_calls (trace r).
Proof.
  intros Hm. cbv zeta. rewrite (get_json_config_loaded h json_path _ app_info b Hm).
  repeat split; reflexivity.
Qed.

End Parser.

End PluginFacts.

(* ===================================================================== *)
(** ** The plugin parser against its specification                        *)
(* ===================================================================== *)

Module PluginParserSpec.

Import GLib Json Eff Host PluginParser Manifest GLibFacts EffFacts PluginFacts.
Local Open Scope string_scope.
Local Open Scope list_scope.

Section Claims.

Context {B : Type} `{MlAgent B}.

(** A manifest whose keys are all recognized parses with TRUE, whatever
    its entries are, and the calls made are those it stands for. *)
Lemma valid_manifest_parses (h : host) (json_path : string) (members : JsonObject)
  (app_info : option string) (b : B) :
  manifest_at h json_path (JObject members) ->
  Forall recognized (map fst members) ->
  result (_get_json_config h json_path app_info b) = true /\
  backend_calls (trace (_get_json_config h json_path app_info b))
  = manifest_calls app_info members (map fst members).
Proof.
  intros Hm Hk.
  destruct (get_json_config_run h json_path members app_info b Hm) as (-> & _ & ->).
  apply (members_recognized members app_info _ Hk b).
Qed.

(** An entry that lacks a required field costs one log line: no call is
    made and the backend is left as it was. *)
Lemma skipped_entry (ty : mlsvc_json_type_e) (object : option JsonObject)
  (app_info : option string) (b : B) :
  missing_required ty object ->
  state_of (_parse_json_object object ty app_info b) = b /\
  backend_calls (trace (_parse_json_object object ty app_info b)) = [].
Proof.
  destruct ty; cbn [missing_required]; unfold _parse_json_object.
  - intros [E|E]; rewrite E;
      [|destruct (json_object_get_string_member object "name")]; split; reflexivity.
  - intros [E|E]; rewrite E;
      [|destruct (json_object_get_string_member object "name")]; split; reflexivity.
  - intros E. rewrite E. split; reflexivity.
  - contradiction.
Qed.

(** C1: Continue-on-error.  (1) A manifest that is structurally valid (it
    is there, it parses to an object, every key is recognized) parses with
    TRUE whatever its entries look like.  (2) An entry that lacks a field
    its category requires issues no backend call and leaves the backend
    untouched, and the array it sits in is processed as if the entry were
    not there: same calls, same backend afterwards.  (3) The manifest
    [{"models": [{"name":"a","model":"/a"},{"name":"b"}]}] yields exactly
    one call, the Register of "a", and parses with TRUE. *)
Theorem malformed_entry_is_skipped :
  (forall (h : host) (json_path : string) (members : JsonObject)
          (app_info : option string) (b : B),
     manifest_at h json_path (JObject members) ->
     Forall recognized (map fst members) ->
     result (_get_json_config h json_path app_info b) = true) /\
  (forall (ty : mlsvc_json_type_e) (pre post : list JsonNode) (e : JsonNode)
          (app_info : option string) (b : B),
     missing_required ty (json_node_get_object (Some e)) ->
     let r1 := _parse_json_object (json_node_get_object (Some e)) ty app_info b in
     let r := _parse_json (Some (JArray (pre ++ e :: post))) ty app_info b in
     let r' := _parse_json (Some (JArray (pre ++ post))) ty app_info b in
     backend_calls (trace r1) = [] /\ state_of r1 = b /\
     backend_calls (trace r) = backend_calls (trace r') /\
     state_of r = state_of r') /\
  (forall (h : host) (json_path : string) (app_info : option string) (b : B),
     manifest_at h json_path Bench.manifest_models ->
     let r := _get_json_config h json_path app_info b in
     result r = true /\
     backend_calls (trace r) = [Register "a" "/a" false EmptyString (or_empty app_info)]).
Proof.
  split; [|split].
  - intros h json_path members app_info b Hm Hk.
    apply (valid_manifest_parses h json_path members app_info b Hm Hk).
  - intros ty pre post e app_info b Hmiss. cbn zeta.
    destruct (skipped_entry ty _ app_info b Hmiss) as [S1 T1].
    repeat split; [exact T1 | exact S1 | |].
    + rewrite !parse_json_calls. cbn [entries].
      rewrite !map_app, !flat_map_app. cbn [map flat_map].
      rewrite <- (parse_json_object_calls _ ty app_info b), T1. reflexivity.
    + rewrite !parse_json_array, !foreach_app, !state_bind.
      cbn [g_list_foreach]. rewrite state_bind.
      now rewrite (proj1 (skipped_entry ty _ app_info _ Hmiss)).
  - intros h json_path app_info b Hm. cbn zeta.
    assert (Hk : Forall recognized ["models"]).
    { apply Forall_cons; [|apply Forall_nil]. left. right. reflexivity. }
    destruct (valid_manifest_parses h json_path _ app_info b Hm Hk) as [R T].
    split; [exact R|]. rewrite T. reflexivity.
Qed.

Lemma register_calls_of_backend_calls (t : list event) :
  register_calls t = filter is_register (backend_calls t).
Proof.
  unfold register_calls, backend_calls. induction t as [|e t IH]; [reflexivity|].
  cbn [filter]. destruct e; cbn [is_register is_backend_call filter]; now rewrite ?IH.
Qed.

(** Pipeline and resource entries never register a model. *)
Lemma no_register_outside_models (ty : mlsvc_json_type_e) (app_info : option string)
  (es : list (option JsonObject)) :
  ty <> MLSVC_JSON_MODEL ->
  filter is_register (flat_map (entry_calls ty app_info) es) = [].
Proof.
  intros Hty. induction es as [|o es IH]; [reflexivity|].
  cbn [flat_map]. rewrite filter_app, IH, app_nil_r.
  destruct ty; [congruence | | | reflexivity]; cbn [entry_calls].
  - unfold pipeline_calls.
    destruct (json_object_get_string_member o "name"); [|reflexivity].
    now destruct (json_object_get_string_member o "pipeline").
  - unfold resource_calls.
    destruct (json_object_get_string_member o "name"); [|reflexivity].
    induction (paths_of (json_object_get_member o "path")); [reflexivity|assumption].
Qed.

Lemma no_register_in_other_keys (app_info : option string) (members : JsonObject)
  (names : list string) :
  Forall (fun k => names_category k MLSVC_JSON_PIPELINE \/
                   names_category k MLSVC_JSON_RESOURCE) names ->
  filter is_register (manifest_calls app_info members names) = [].
Proof.
  induction 1 as [|k names Hk _ IH]; [reflexivity|].
  unfold manifest_calls in *. cbn [flat_map]. rewrite filter_app, IH, app_nil_r.
  destruct Hk as [Hk|Hk]; apply category_of_names in Hk; rewrite Hk;
    apply no_register_outside_models; discriminate.
Qed.

Lemma lookup_middle (pre post : JsonObject) (key : string) (node : JsonNode) :
  ~ In key (map fst pre) ->
  lookup (pre ++ (key, node) :: post) key = Some node.
Proof.
  induction pre as [|[k v] pre IH]; cbn [app lookup map fst In].
  - intros _. now rewrite String.eqb_refl.
  - intros Hn. destruct (String.eqb_spec k key) as [->|_]; [tauto|].
    apply IH. tauto.
Qed.

Lemma well_formed_model_calls (app_info : option string) (objs : list JsonObject) :
  Forall well_formed_model objs ->
  flat_map (model_calls app_info) (map Some objs) = map (register_of app_info) objs.
Proof.
  induction 1 as [|o objs [Hn Hm] _ IH]; [reflexivity|].
  cbn [map flat_map]. rewrite IH. unfold model_calls, register_of.
  destruct (json_object_get_string_member (Some o) "name"); [|congruence].
  destruct (json_object_get_string_member (Some o) "model"); [|congruence].
  reflexivity.
Qed.

Lemma filter_register_of (app_info : option string) (objs : list JsonObject) :
  filter is_register (map (register_of app_info) objs) = map (register_of app_info) objs.
Proof. induction objs as [|o objs IH]; [reflexivity|]. cbn. now rewrite IH. Qed.

(** C2: One Register call per model entry.  Take a valid manifest with
    one model key (in any of its spellings) placed anywhere among keys of
    the other two categories, whose value holds N well-formed model
    entries, as an array of N objects or, for N = 1, as a bare object.
    Then the parse succeeds and the Register calls it issues are exactly
    those of the N entries, in order, each with the entry's name, model
    path, active flag and description (empty when absent): N calls,
    wherever the model key stands. *)
Theorem model_entries_registered
  (h : host) (json_path : string) (app_info : option string) (b : B)
  (pre post : JsonObject) (key : string) (node : JsonNode) (objs : list JsonObject) :
  manifest_at h json_path (JObject (pre ++ (key, node) :: post)) ->
  names_category key MLSVC_JSON_MODEL ->
  Forall (fun k => names_category k MLSVC_JSON_PIPELINE \/
                   names_category k MLSVC_JSON_RESOURCE) (map fst (pre ++ post)) ->
  node = JArray (map JObject objs) \/ (exists o, node = JObject o /\ objs = [o]) ->
  Forall well_formed_model objs ->
  let r := _get_json_config h json_path app_info b in
  result r = true /\
  register_calls (trace r) = map (register_of app_info) objs /\
  List.length (register_calls (trace r)) = List.length objs.
Proof.
  intros Hm Hkey Hothers Hnode Hwf. cbn zeta.
  rewrite map_app in Hothers. apply Forall_app in Hothers. destruct Hothers as [Hpre Hpost].
  assert (Hrec : Forall recognized (map fst (pre ++ (key, node) :: post))).
  { rewrite map_app. cbn [map fst]. apply Forall_app. split; [|apply Forall_cons].
    - eapply Forall_impl; [|exact Hpre]. unfold recognized. tauto.
    - unfold recognized. tauto.
    - eapply Forall_impl; [|exact Hpost]. unfold recognized. tauto. }
  destruct (valid_manifest_parses h json_path _ app_info b Hm Hrec) as [R T].
  assert (Hnotin : ~ In key (map fst pre)).
  { intros Hin. rewrite Forall_forall in Hpre. specialize (Hpre key Hin).
    apply category_of_names in Hkey.
    destruct Hpre as [X|X]; apply category_of_names in X; congruence. }
  assert (Hcalls : register_calls (trace (_get_json_config h json_path app_info b))
                   = map (register_of app_info) objs).
  { rewrite register_calls_of_backend_calls, T.
    rewrite map_app. cbn [map fst]. unfold manifest_calls.
    rewrite flat_map_app. cbn [flat_map]. rewrite !filter_app.
    fold (manifest_calls app_info (pre ++ (key, node) :: post) (map fst pre)).
    fold (manifest_calls app_info (pre ++ (key, node) :: post) (map fst post)).
    rewrite !no_register_in_other_keys by assumption.
    apply category_of_names in Hkey. rewrite Hkey.
    rewrite (lookup_middle pre post key node Hnotin). cbn [app]. rewrite app_nil_r.
    cbn [entry_calls].
    assert (He : entries (Some node) = map Some objs).
    { destruct Hnode as [->|(o & -> & ->)]; cbn [entries json_node_get_object map];
        [|reflexivity].
      rewrite map_map. reflexivity. }
    rewrite He.
    replace (flat_map (entry_calls MLSVC_JSON_MODEL app_info) (map Some objs))
      with (flat_map (model_calls app_info) (map Some objs)) by reflexivity.
    rewrite well_formed_model_calls by assumption. apply filter_register_of. }
  split; [exact R|]. split; [exact Hcalls|].
  rewrite Hcalls. apply length_map.
Qed.








(** A value that is one object, bare or as the only element of an array,
    is one round of the loop of [_parse_json]. *)
Lemma parse_json_single (node : JsonNode) (object : JsonObject)
  (ty : mlsvc_json_type_e) (app_info : option string) (b : B) :
  node = JObject object \/ node = JArray [JObject object] ->
  _parse_json (Some node) ty app_info b
  = bind (_parse_json_object (Some object) ty app_info) (fun _ => pure tt) b.
Proof. intros [->| ->]; reflexivity. Qed.



(** Logging the metadata list changes nothing and calls nobody. *)
Lemma metadata_logged (metadata : list _metadata_s) (b : B) :
  exists t,
    g_list_foreach metadata (fun detail =>
      _I "PKGMGR_MDPARSER_PLUGIN_INSTALL" "key = %s, value = %s\n"
        [ArgStr (key detail); ArgStr (value detail)]) b = (tt, b, t) /\
    steps t = [] /\ backend_calls t = [].
Proof.
  induction metadata as [|d metadata (t & Ht & Hs & Hc)].
  - exists []. repeat split.
  - eexists. cbn [g_list_foreach]. unfold bind. cbn. rewrite Ht.
    split; [reflexivity|]. cbn. split; assumption.
Qed.

(** Runs INSTALL up to the first test that the hypotheses do not
    decide. *)
Ltac run_install metadata b :=
  let tm := fresh "tm" in
  let Hmd := fresh "Hmd" in
  let Hms := fresh "Hms" in
  let Hmc := fresh "Hmc" in
  let md := fresh "md" in
  destruct (metadata_logged metadata b) as (tm & Hmd & Hms & Hmc);
  unfold PKGMGR_MDPARSER_PLUGIN_INSTALL;
  set (md := g_list_foreach metadata _) in *; clearbody md;
  cbv beta iota zeta delta [bind emit pure _I _E pkgmgrinfo_pkginfo_get_pkginfo
    pkgmgrinfo_pkginfo_get_type pkgmgrinfo_pkginfo_get_root_path
    pkgmgrinfo_pkginfo_get_res_type pkgmgrinfo_pkginfo_get_res_version
    pkgmgrinfo_pkginfo_destroy_pkginfo];
  rewrite Hmd.

(** Reads off the result, the backend, the calls and the steps of a run
    that has been carried out. *)
Ltac read_run :=
  unfold result, state_of, trace; cbn [fst snd];
  unfold steps, backend_calls in *;
  repeat (rewrite ?filter_app; cbn [filter is_step is_backend_call app]);
  repeat match goal with
  | H : filter _ ?t = [] |- _ => rewrite H
  end;
  rewrite ?app_nil_r.

Lemma is_rpk_test (ty : string) :
  (g_strcmp0 (Some ty) (Some "rpk") =? 0)%Z = true <-> c_str ty = "rpk".
Proof. rewrite Z.eqb_eq. cbn [g_strcmp0]. apply strcmp_zero. Qed.

(** With the package resolved as a resource package, INSTALL is the parse
    of the manifest at the conventional path, wrapped in the five
    metadata steps and the release of the handle. *)
Lemma install_resolved (h : host) (pkgid : string) (appid : option string)
  (metadata : list _metadata_s) (b : B) (handle : pkgmgrinfo_pkginfo_h)
  (ty root_path res_type res_version : string) :
  pkginfo_db h pkgid = Some handle ->
  h_type handle = Some ty ->
  c_str ty = "rpk" ->
  h_root_path handle = Some root_path ->
  h_res_type handle = Some res_type ->
  h_res_version handle = Some res_version ->
  let app_info := _make_pkg_info h pkgid appid res_type res_version in
  let json_file :=
    g_build_filename h [root_path; "res"; "global"; res_type; "rpk_config.json"] in
  let p := _get_json_config h json_file (Some app_info) b in
  let r := PKGMGR_MDPARSER_PLUGIN_INSTALL h pkgid appid metadata b in
  result r = (if result p then 0 else -1)%Z /\
  state_of r = state_of p /\
  backend_calls (trace r) = backend_calls (trace p) /\
  steps (trace r)
  = [PkginfoGet pkgid; PkginfoGetType; PkginfoGetRootPath; PkginfoGetResType;
     PkginfoGetResVersion] ++ steps (trace p) ++ [PkginfoDestroy].
Proof.
  intros Hdb Hty Hrpk Hroot Hrt Hrv. cbv zeta.
  apply is_rpk_test in Hrpk.
  set (p := _get_json_config h _ _ b).
  run_install metadata b.
  rewrite Hdb, Hty, Hrpk. cbv beta iota delta [negb].
  rewrite Hroot, Hrt, Hrv. cbv beta iota. fold p.
  destruct p as [[ok b'] t].
  destruct ok; cbv beta iota delta [negb]; read_run; repeat split; reflexivity.
Qed.

(** The first thing the parse does is to test the file it was given. *)
Lemma get_json_config_tests_path (h : host) (json_path : string)
  (app_info : option string) (b : B) :
  exists rest,
    steps (trace (_get_json_config h json_path app_info b))
    = FileTest json_path [G_FILE_TEST_EXISTS; G_FILE_TEST_IS_REGULAR] :: rest.
Proof.
  unfold _get_json_config. rewrite trace_bind.
  unfold g_file_test at 1. rewrite trace_bind. cbn [trace emit snd app].
  unfold steps. cbn [filter is_step]. eexists. reflexivity.
Qed.

Lemma first_unrecognized (names : list string) :
  Exists (fun k => ~ recognized k) names ->
  exists pre bad post,
    names = pre ++ bad :: post /\ Forall recognized pre /\ ~ recognized bad.
Proof.
  induction names as [|k names IH]; intros Hex; [inversion Hex|].
  destruct (category_of k) as [ty|] eqn:E.
  - assert (Hk : recognized k) by (apply category_of_recognized; congruence).
    inversion Hex as [? ? Hbad|? ? Hrest]; subst; [contradiction|].
    destruct (IH Hrest) as (pre & bad & post & -> & Hpre & Hbad).
    exists (k :: pre), bad, post. repeat split; [constructor|]; assumption.
  - exists [], k, names. repeat split; [constructor|].
    now apply category_of_unrecognized.
Qed.

(** C3: An unrecognized top-level key fails the parse.  (1) If some key
    of the manifest object is none of the six spellings, letters compared
    without regard to case, the parse returns FALSE; the calls it made are
    those of the keys that stand before the first such key, which are not
    undone, and nothing is done for the keys after it.  (2) INSTALL of a
    resource package that carries such a manifest returns -1. *)
Theorem unrecognized_key_fails :
  (forall (h : host) (json_path : string) (members : JsonObject)
          (app_info : option string) (b : B),
     manifest_at h json_path (JObject members) ->
     Exists (fun k => ~ recognized k) (map fst members) ->
     let r := _get_json_config h json_path app_info b in
     result r = false /\
     exists pre bad post,
       map fst members = pre ++ bad :: post /\
       Forall recognized pre /\ ~ recognized bad /\
       backend_calls (trace r) = manifest_calls app_info members pre) /\
  (forall (h : host) (pkgid : string) (appid : option string)
          (metadata : list _metadata_s) (b : B) (handle : pkgmgrinfo_pkginfo_h)
          (ty root_path res_type res_version : string) (members : JsonObject),
     pkginfo_db h pkgid = Some handle ->
     h_type handle = Some ty ->
     c_str ty = "rpk" ->
     h_root_path handle = Some root_path ->
     h_res_type handle = Some res_type ->
     h_res_version handle = Some res_version ->
     manifest_at h
       (g_build_filename h [root_path; "res"; "global"; res_type; "rpk_config.json"])
       (JObject members) ->
     Exists (fun k => ~ recognized k) (map fst members) ->
     result (PKGMGR_MDPARSER_PLUGIN_INSTALL h pkgid appid metadata b) = (-1)%Z).
Proof.
  assert (Hparse : forall (h : host) (json_path : string) (members : JsonObject)
            (app_info : option string) (b : B),
     manifest_at h json_path (JObject members) ->
     Exists (fun k => ~ recognized k) (map fst members) ->
     let r := _get_json_config h json_path app_info b in
     result r = false /\
     exists pre bad post,
       map fst members = pre ++ bad :: post /\
       Forall recognized pre /\ ~ recognized bad /\
       backend_calls (trace r) = manifest_calls app_info members pre).
  { intros h json_path members app_info b Hm Hex. cbn zeta.
    destruct (first_unrecognized _ Hex) as (pre & bad & post & Hsplit & Hpre & Hbad).
    destruct (get_json_config_run h json_path members app_info b Hm) as (-> & _ & ->).
    rewrite Hsplit.
    destruct (members_unrecognized (Some members) app_info pre post bad Hpre Hbad b)
      as (R & _ & T).
    destruct (members_recognized members app_info pre Hpre b) as [_ T0].
    split; [exact R|]. exists pre, bad, post.
    repeat split; try assumption.
    rewrite T. exact T0. }
  split; [exact Hparse|].
  intros h pkgid appid metadata b handle ty root_path res_type res_version members
    Hdb Hty Hrpk Hroot Hrt Hrv Hm Hex.
  destruct (install_resolved h pkgid appid metadata b handle ty root_path res_type
              res_version Hdb Hty Hrpk Hroot Hrt Hrv) as [R _].
  rewrite R.
  destruct (Hparse h _ members
              (Some (_make_pkg_info h pkgid appid res_type res_version)) b Hm Hex)
    as [-> _].
  reflexivity.
Qed.

(** C5: The INSTALL entry point.  (1) When the package's type is not
    "rpk", INSTALL returns 0 after the two steps that led there, issues no
    registration call and leaves the backend alone.  (2) When the handle,
    the type, the root path, the resource type or the resource version
    cannot be resolved, INSTALL returns -1 and no later step is taken
    (only the handle, once there is one, is released).  (3) Otherwise it
    parses the manifest at root/res/global/resourceType/rpk_config.json,
    as [g_build_filename] joins them, that file being the first thing
    looked at after the metadata, and it returns 0 exactly when this parse
    returns TRUE, and -1 when it does not. *)
Theorem install_follows_the_metadata
  (h : host) (pkgid : string) (appid : option string)
  (metadata : list _metadata_s) (b : B) :
  let r := PKGMGR_MDPARSER_PLUGIN_INSTALL h pkgid appid metadata b in
  (forall handle ty,
     pkginfo_db h pkgid = Some handle ->
     h_type handle = Some ty ->
     c_str ty <> "rpk" ->
     result r = 0%Z /\ backend_calls (trace r) = [] /\ state_of r = b /\
     steps (trace r) = [PkginfoGet pkgid; PkginfoGetType; PkginfoDestroy]) /\
  (pkginfo_db h pkgid = None ->
   result r = (-1)%Z /\ state_of r = b /\ steps (trace r) = [PkginfoGet pkgid]) /\
  (forall handle,
     pkginfo_db h pkgid = Some handle ->
     h_type handle = None ->
     result r = (-1)%Z /\ state_of r = b /\
     steps (trace r) = [PkginfoGet pkgid; PkginfoGetType; PkginfoDestroy]) /\
  (forall handle ty,
     pkginfo_db h pkgid = Some handle ->
     h_type handle = Some ty ->
     c_str ty = "rpk" ->
     (h_root_path handle = None ->
      result r = (-1)%Z /\ state_of r = b /\
      steps (trace r)
      = [PkginfoGet pkgid; PkginfoGetType; PkginfoGetRootPath; PkginfoDestroy]) /\
     (forall root_path,
        h_root_path handle = Some root_path ->
        (h_res_type handle = None ->
         result r = (-1)%Z /\ state_of r = b /\
         steps (trace r)
         = [PkginfoGet pkgid; PkginfoGetType; PkginfoGetRootPath; PkginfoGetResType;
            PkginfoDestroy]) /\
        (forall res_type,
           h_res_type handle = Some res_type ->
           (h_res_version handle = None ->
            result r = (-1)%Z /\ state_of r = b /\
            steps (trace r)
            = [PkginfoGet pkgid; PkginfoGetType; PkginfoGetRootPath; PkginfoGetResType;
               PkginfoGetResVersion; PkginfoDestroy]) /\
           (forall res_version,
              h_res_version handle = Some res_version ->
              let json_file :=
                g_build_filename h
                  [root_path; "res"; "global"; res_type; "rpk_config.json"] in
              let p :=
                _get_json_config h json_file
                  (Some (_make_pkg_info h pkgid appid res_type res_version)) b in
              (result r = 0%Z <-> result p = true) /\
              (result p = false -> result r = (-1)%Z) /\
              state_of r = state_of p /\
              backend_calls (trace r) = backend_calls (trace p) /\
              exists rest,
                steps (trace p)
                = FileTest json_file [G_FILE_TEST_EXISTS; G_FILE_TEST_IS_REGULAR] :: rest /\
                steps (trace r)
                = [PkginfoGet pkgid; PkginfoGetType; PkginfoGetRootPath;
                   PkginfoGetResType; PkginfoGetResVersion]
                  ++ steps (trace p) ++ [PkginfoDestroy])))).
Proof.
  cbv zeta. split; [|split; [|split]].
  - intros handle ty Hdb Hty Hnot.
    assert (Hcmp : (g_strcmp0 (Some ty) (Some "rpk") =? 0)%Z = false).
    { destruct (g_strcmp0 (Some ty) (Some "rpk") =? 0)%Z eqn:E; [|reflexivity].
      apply is_rpk_test in E. contradiction. }
    run_install metadata b. rewrite Hdb, Hty, Hcmp. cbv beta iota delta [negb].
    read_run. repeat split; reflexivity.
  - intros Hdb. run_install metadata b. rewrite Hdb. cbv beta iota.
    read_run. repeat split; reflexivity.
  - intros handle Hdb Hty. run_install metadata b. rewrite Hdb, Hty. cbv beta iota.
    read_run. repeat split; reflexivity.
  - intros handle ty Hdb Hty Hrpk. split.
    { intros Hroot. apply is_rpk_test in Hrpk.
      run_install metadata b. rewrite Hdb, Hty, Hrpk. cbv beta iota delta [negb].
      rewrite Hroot. cbv beta iota. read_run. repeat split; reflexivity. }
    intros root_path Hroot. split.
    { intros Hrt. apply is_rpk_test in Hrpk.
      run_install metadata b. rewrite Hdb, Hty, Hrpk. cbv beta iota delta [negb].
      rewrite Hroot, Hrt. cbv beta iota. read_run. repeat split; reflexivity. }
    intros res_type Hrt. split.
    { intros Hrv. apply is_rpk_test in Hrpk.
      run_install metadata b. rewrite Hdb, Hty, Hrpk. cbv beta iota delta [negb].
      rewrite Hroot, Hrt, Hrv. cbv beta iota. read_run. repeat split; reflexivity. }
    intros res_version Hrv.
    destruct (install_resolved h pkgid appid metadata b handle ty root_path res_type
                res_version Hdb Hty Hrpk Hroot Hrt Hrv) as (R & S & C & T).
    rewrite R.
    destruct (get_json_config_tests_path h
                (g_build_filename h [root_path; "res"; "global"; res_type; "rpk_config.json"])
                (Some (_make_pkg_info h pkgid appid res_type res_version)) b)
      as [rest Hrest].
    repeat split; try assumption.
    + destruct (result (_get_json_config h _ _ b)); [reflexivity | discriminate].
    + destruct (result (_get_json_config h _ _ b)); [reflexivity | discriminate].
    + intros ->. reflexivity.
    + exists rest. split; [exact Hrest | exact T].
Qed.

(** C10: UPGRADE and RECOVERUPGRADE.  UPGRADE logs that it was called,
    runs UNINSTALL (which only logs and returns 0) and then INSTALL on the
    same arguments, and returns 0 whatever INSTALL returned;
    RECOVERUPGRADE logs that it was called and is UPGRADE from there on:
    same result, same backend, the same events after its own log line. *)
Theorem upgrade_always_succeeds
  (h : host) (pkgid : string) (appid : option string)
  (metadata : list _metadata_s) (b : B) :
  let u := PKGMGR_MDPARSER_PLUGIN_UNINSTALL pkgid appid metadata b in
  let i := PKGMGR_MDPARSER_PLUGIN_INSTALL h pkgid appid metadata (state_of u) in
  let up := PKGMGR_MDPARSER_PLUGIN_UPGRADE h pkgid appid metadata b in
  let rec := PKGMGR_MDPARSER_PLUGIN_RECOVERUPGRADE h pkgid appid metadata b in
  result u = 0%Z /\ state_of u = b /\
  result up = 0%Z /\
  state_of up = state_of i /\
  trace up
  = Dlog DLOG_INFO "PKGMGR_MDPARSER_PLUGIN_UPGRADE"
      "PKGMGR_MDPARSER_PLUGIN_UPGRADE called" [] :: trace u ++ trace i /\
  result rec = result up /\
  state_of rec = state_of up /\
  trace rec
  = Dlog DLOG_INFO "PKGMGR_MDPARSER_PLUGIN_RECOVERUPGRADE"
      "PKGMGR_MDPARSER_PLUGIN_RECOVERUPGRADE called" [] :: trace up.
Proof.
  cbv zeta. unfold PKGMGR_MDPARSER_PLUGIN_RECOVERUPGRADE, PKGMGR_MDPARSER_PLUGIN_UPGRADE.
  rewrite !result_bind, !state_bind, !trace_bind.
  cbn [_I emit pure result state_of trace fst snd app].
  rewrite !app_nil_r. repeat split; reflexivity.
Qed.

(** A root that holds no object has no members to walk: the parse reads
    the file, calls nobody and answers TRUE. *)
Lemma non_object_root_parses (h : host) (json_path : string) (root : JsonNode)
  (app_info : option string) (b : B) :
  manifest_at h json_path root ->
  json_node_get_object (Some root) = None ->
  _get_json_config h json_path app_info b
  = (true, b,
     [FileTest json_path [G_FILE_TEST_EXISTS; G_FILE_TEST_IS_REGULAR];
      FileGetContents json_path]).
Proof.
  intros Hm Hroot. rewrite (get_json_config_loaded h json_path root app_info b Hm).
  rewrite Hroot. reflexivity.
Qed.

End Claims.

(** *** The claims on the bench *)

Import Bench.

(** Shows that a bench file is in place and parses to the document at
    hand. *)
Ltac in_place text :=
  split; [reflexivity | split; [reflexivity | exists text; split; reflexivity]].

Lemma malformed_entry_is_skipped_witness :
  let path := "/opt/rpk.models/res/global/ai/rpk_config.json" in
  let r := _get_json_config bench_host path (Some "ctx") 0%nat in
  let good := JObject [("name", JString "a"); ("model", JString "/a")] in
  let bad := JObject [("name", JString "b")] in
  (result r = true /\ backend_calls (trace r) = [Register "a" "/a" false EmptyString "ctx"]) /\
  result r = true /\
  (backend_calls (trace (_parse_json (Some (JArray [good; bad])) MLSVC_JSON_MODEL None 0%nat))
   = backend_calls (trace (_parse_json (Some (JArray [good])) MLSVC_JSON_MODEL None 0%nat)) /\
   state_of (_parse_json (Some (JArray [good; bad])) MLSVC_JSON_MODEL None 0%nat)
   = state_of (_parse_json (Some (JArray [good])) MLSVC_JSON_MODEL None 0%nat)).
Proof.
  cbv zeta.
  destruct (@malformed_entry_is_skipped nat counting_agent) as (P1 & P2 & P3).
  split; [|split].
  - apply (P3 bench_host _ (Some "ctx") 0%nat). in_place "models".
  - apply (P1 bench_host _
             [("models",
               JArray [ JObject [("name", JString "a"); ("model", JString "/a")];
                        JObject [("name", JString "b")] ])]
             (Some "ctx") 0%nat).
    + in_place "models".
    + apply Forall_cons; [|apply Forall_nil]. left. right. reflexivity.
  - apply (P2 MLSVC_JSON_MODEL
             [JObject [("name", JString "a"); ("model", JString "/a")]] []
             (JObject [("name", JString "b")]) None 0%nat).
    right. reflexivity.
Defined.

Lemma model_entries_registered_witness :
  let r := _get_json_config bench_host "/opt/rpk.full/res/global/ai/rpk_config.json"
             (Some "ctx") 0%nat in
  result r = true /\
  register_calls (trace r) = [Register "m" "/m.tflite" true EmptyString "ctx"] /\
  List.length (register_calls (trace r)) = 1%nat.
Proof.
  apply (@model_entries_registered nat counting_agent bench_host
           "/opt/rpk.full/res/global/ai/rpk_config.json" (Some "ctx") 0%nat
           [ ("Resources",
              JObject [ ("name", JString "r");
                        ("path", JArray [JString "/r/1"; JInt 7; JString "/r/2"]) ]);
             ("pipeline",
              JObject [ ("name", JString "p");
                        ("pipeline", JString "videotestsrc ! fakesink") ]) ]
           [] "MODEL"
           (JObject [ ("name", JString "m"); ("model", JString "/m.tflite");
                      ("activate", JString "True") ])
           [ [ ("name", JString "m"); ("model", JString "/m.tflite");
               ("activate", JString "True") ] ]).
  - in_place "full".
  - left. reflexivity.
  - apply Forall_cons; [right; right; reflexivity|].
    apply Forall_cons; [left; left; reflexivity|]. apply Forall_nil.
  - right. eexists. split; reflexivity.
  - apply Forall_cons; [|apply Forall_nil]. split; discriminate.
Defined.

Lemma unrecognized_key_fails_witness :
  result (_get_json_config bench_host "/opt/rpk.unknown/res/global/ai/rpk_config.json"
            None 0%nat) = false /\
  result (PKGMGR_MDPARSER_PLUGIN_INSTALL bench_host "rpk.unknown" None [] 0%nat) = (-1)%Z.
Proof.
  destruct (@unrecognized_key_fails nat counting_agent) as (P1 & P2).
  assert (Hbad : Exists (fun k => ~ recognized k) ["model"; "unknown"]).
  { apply Exists_cons_tl. apply Exists_cons_hd.
    apply category_of_unrecognized. reflexivity. }
  split.
  - apply (P1 bench_host "/opt/rpk.unknown/res/global/ai/rpk_config.json"
             [ ("model", JObject [("name", JString "m"); ("model", JString "/m")]);
               ("unknown", JArray []) ] None 0%nat).
    + in_place "unknown".
    + exact Hbad.
  - apply (P2 bench_host "rpk.unknown" None [] 0%nat
             {| h_type := Some "rpk"; h_root_path := Some "/opt/rpk.unknown";
                h_res_type := Some "ai"; h_res_version := Some "1.0" |}
             "rpk" "/opt/rpk.unknown" "ai" "1.0"
             [ ("model", JObject [("name", JString "m"); ("model", JString "/m")]);
               ("unknown", JArray []) ]);
      try reflexivity.
    + in_place "unknown".
    + exact Hbad.
Defined.


Lemma install_follows_the_metadata_witness :
  (let r := PKGMGR_MDPARSER_PLUGIN_INSTALL bench_host "org.example.tpk" None [] 0%nat in
   result r = 0%Z /\ backend_calls (trace r) = [] /\ state_of r = 0%nat /\
   steps (trace r) = [PkginfoGet "org.example.tpk"; PkginfoGetType; PkginfoDestroy]) /\
  (let r := PKGMGR_MDPARSER_PLUGIN_INSTALL bench_host "org.example.noversion" None []
              0%nat in
   result r = (-1)%Z /\ state_of r = 0%nat /\
   steps (trace r)
   = [PkginfoGet "org.example.noversion"; PkginfoGetType; PkginfoGetRootPath;
      PkginfoGetResType; PkginfoGetResVersion; PkginfoDestroy]) /\
  (result (PKGMGR_MDPARSER_PLUGIN_INSTALL bench_host "rpk.models" None [] 0%nat) = 0%Z <->
   result (_get_json_config bench_host "/opt/rpk.models/res/global/ai/rpk_config.json"
             (Some "is_rpk=T,pkg_id=rpk.models,app_id=,res_type=ai,res_version=1.0")
             0%nat) = true).
Proof.
  split; [|split].
  - destruct (@install_follows_the_metadata nat counting_agent bench_host
                "org.example.tpk" None [] 0%nat) as (P & _).
    apply (P {| h_type := Some "tpk"; h_root_path := None;
                h_res_type := None; h_res_version := None |} "tpk");
      [reflexivity | reflexivity | discriminate].
  - destruct (@install_follows_the_metadata nat counting_agent bench_host
                "org.example.noversion" None [] 0%nat) as (_ & _ & _ & P).
    destruct (P {| h_type := Some "rpk"; h_root_path := Some "/opt/models";
                   h_res_type := Some "ai"; h_res_version := None |} "rpk"
                eq_refl eq_refl eq_refl) as (_ & P1).
    destruct (P1 "/opt/models" eq_refl) as (_ & P2).
    destruct (P2 "ai" eq_refl) as (P3 & _).
    apply P3. reflexivity.
  - destruct (@install_follows_the_metadata nat counting_agent bench_host
                "rpk.models" None [] 0%nat) as (_ & _ & _ & P).
    destruct (P {| h_type := Some "rpk"; h_root_path := Some "/opt/rpk.models";
                   h_res_type := Some "ai"; h_res_version := Some "1.0" |} "rpk"
                eq_refl eq_refl eq_refl) as (_ & P1).
    destruct (P1 "/opt/rpk.models" eq_refl) as (_ & P2).
    destruct (P2 "ai" eq_refl) as (_ & P3).
    destruct (P3 "1.0" eq_refl) as (P4 & _).
    exact P4.
Defined.


(** C10, on the bench: the re-install of a package whose resource
    version cannot be read fails, and the upgrade still reports 0. *)
Example upgrade_hides_install_failure :
  result (PKGMGR_MDPARSER_PLUGIN_INSTALL bench_host "org.example.noversion" None []
            0%nat) = (-1)%Z /\
  result (PKGMGR_MDPARSER_PLUGIN_UPGRADE bench_host "org.example.noversion" None []
            0%nat) = 0%Z /\
  result (PKGMGR_MDPARSER_PLUGIN_RECOVERUPGRADE bench_host "org.example.noversion" None []
            0%nat) = 0%Z.
Proof. repeat split; reflexivity. Qed.

(** C7: A manifest whose top-level value is not an object.  The file of
    the bench package "rpk.array" holds [[]]: valid JSON, the root an
    array.  [json_node_get_object] hands back NULL for it, the member
    list is empty, the loop does not run, and the parse answers TRUE, not
    FALSE; no registration call is made, and INSTALL reports success. *)
Theorem array_root_is_accepted :
  let path := "/opt/rpk.array/res/global/ai/rpk_config.json" in
  manifest_at bench_host path (JArray []) /\
  _get_json_config bench_host path None 0%nat
  = (true, 0%nat,
     [FileTest path [G_FILE_TEST_EXISTS; G_FILE_TEST_IS_REGULAR]; FileGetContents path]) /\
  backend_calls (trace (_get_json_config bench_host path None 0%nat)) = [] /\
  result (PKGMGR_MDPARSER_PLUGIN_INSTALL bench_host "rpk.array" None [] 0%nat) = 0%Z.
Proof.
  cbv zeta. split; [in_place "[]"|]. repeat split; reflexivity.
Qed.

End PluginParserSpec.

(* ===================================================================== *)
(** ** The Model D-Bus module against its specification                   *)
(* ===================================================================== *)

Module ModelDBusSpec.

Import Eff ModelDBus.
Local Open Scope string_scope.
Local Open Scope list_scope.

Section Claims.

Context {D : Type} `{ServiceDb D}.
Variable ifc : dbus_interface.

(** C6 (as amended): The handler table.  The table of the Model
    interface binds seven handlers, one per signal name of the interface,
    in the order Register, UpdateDescription, Activate, Get, GetActivated,
    GetAll, Delete.  Whatever the arguments and the database, a handler
    of the table carries out exactly one database operation, then
    completes its invocation once, with the payload followed by the
    status that operation returned, unchanged, and answers TRUE; the
    database is left as that one operation left it. *)
Theorem handlers_complete_once :
  List.length (handler_infos ifc) = 7%nat /\
  map signal_name (handler_infos ifc)
  = [ DBUS_MODEL_I_HANDLER_REGISTER ifc; DBUS_MODEL_I_HANDLER_UPDATE_DESCRIPTION ifc;
      DBUS_MODEL_I_HANDLER_ACTIVATE ifc; DBUS_MODEL_I_HANDLER_GET ifc;
      DBUS_MODEL_I_HANDLER_GET_ACTIVATED ifc; DBUS_MODEL_I_HANDLER_GET_ALL ifc;
      DBUS_MODEL_I_HANDLER_DELETE ifc ] /\
  forall info : gdbus_signal_info,
    In info (handler_infos ifc) ->
    forall (obj : MachinelearningServiceModel) (invoc : GDBusMethodInvocation)
           (args : cb_args info) (d : D),
    exists (op : svcdb_call) (method : string) (payload : list reply_value),
      cb info obj invoc args d
      = (true, snd (svcdb_perform op d),
         [ Svcdb op (fst (svcdb_perform op d));
           Complete invoc method (payload ++ [ReplyInt (fst (svcdb_perform op d))]) ]).
Proof.
  split; [reflexivity|]. split; [reflexivity|].
  intros info Hin obj invoc.
  cbn [handler_infos In] in Hin.
  destruct Hin as [<-|[<-|[<-|[<-|[<-|[<-|[<-|[]]]]]]]]; cbn [cb cb_args].
  - intros [[[[name path] is_active] description] app_info] d.
    exists (ModelAdd name path is_active description app_info), "Register".
    unfold gdbus_cb_model_register, svcdb_perform, bind, call_with, pure,
      machinelearning_service_model_complete_register, emit.
    destruct (svcdb_model_add name path is_active description app_info d)
      as [[ret version] d'].
    exists [ReplyUInt (match version with Some v => v | None => 0%N end)]. reflexivity.
  - intros [[name version] description] d.
    exists (ModelUpdateDescription name version description), "UpdateDescription", [].
    unfold gdbus_cb_model_update_description, svcdb_perform, bind, call_with, pure,
      machinelearning_service_model_complete_update_description, emit.
    destruct (svcdb_model_update_description name version description d) as [ret d'].
    reflexivity.
  - intros [name version] d.
    exists (ModelActivate name version), "Activate", [].
    unfold gdbus_cb_model_activate, svcdb_perform, bind, call_with, pure,
      machinelearning_service_model_complete_activate, emit.
    destruct (svcdb_model_activate name version d) as [ret d']. reflexivity.
  - intros [name version] d.
    exists (ModelGet name version), "Get".
    unfold gdbus_cb_model_get, svcdb_perform, bind, call_with, pure,
      machinelearning_service_model_complete_get, emit.
    destruct (svcdb_model_get name version d) as [[ret model_info] d'].
    exists [ReplyString model_info]. reflexivity.
  - intros name d.
    exists (ModelGetActivated name), "GetActivated".
    unfold gdbus_cb_model_get_activated, svcdb_perform, bind, call_with, pure,
      machinelearning_service_model_complete_get_activated, emit.
    destruct (svcdb_model_get_activated name d) as [[ret model_info] d'].
    exists [ReplyString model_info]. reflexivity.
  - intros name d.
    exists (ModelGetAll name), "GetAll".
    unfold gdbus_cb_model_get_all, svcdb_perform, bind, call_with, pure,
      machinelearning_service_model_complete_get_all, emit.
    destruct (svcdb_model_get_all name d) as [[ret model_info] d'].
    exists [ReplyString model_info]. reflexivity.
  - intros [[name version] force] d.
    exists (ModelDelete name version force), "Delete", [].
    unfold gdbus_cb_model_delete, svcdb_perform, bind, call_with, pure,
      machinelearning_service_model_complete_delete, emit.
    destruct (svcdb_model_delete name version force d) as [ret d']. reflexivity.
Qed.

Lemma initial_ids_zero :
  Forall (fun info => handler_id info = 0%N) (handler_infos (D:=D) ifc).
Proof. repeat constructor. Qed.

Section Probe.

Variable g : gdbus.

Lemma connect_each_connectable (infos : list (@gdbus_signal_info D)) :
  forall instance,
    if connectable g infos
    then exists instance' infos', connect_each g instance infos = Some (instance', infos')
    else connect_each g instance infos = None.
Proof.
  induction infos as [|info infos IH]; intros instance.
  - cbn. eexists _, _. reflexivity.
  - cbn [connectable forallb connect_each].
    destruct (g_signal_connect g (signal_name info) =? 0)%N; cbn [negb andb];
      [reflexivity|].
    specialize (IH (add_handler instance (g_signal_connect g (signal_name info))
                      (signal_name info))).
    fold (connectable g infos). destruct (connectable g infos).
    + destruct IH as (instance' & infos' & ->). eexists _, _. reflexivity.
    + now rewrite IH.
Qed.

Lemma connect_each_length (infos : list (@gdbus_signal_info D)) :
  forall instance instance' infos',
    connect_each g instance infos = Some (instance', infos') ->
    List.length infos' = List.length infos.
Proof.
  induction infos as [|info infos IH]; intros instance instance' infos'.
  - cbn. intros [= _ <-]. reflexivity.
  - cbn [connect_each].
    destruct (g_signal_connect g (signal_name info) =? 0)%N; [discriminate|].
    destruct (connect_each g _ infos) as [[i t]|] eqn:E; [|discriminate].
    intros [= _ <-]. cbn [List.length]. f_equal. eapply IH. exact E.
Qed.

(** Disconnecting the whole table leaves every [handler_id] at 0. *)
Lemma disconnect_clears_ids (infos : list (@gdbus_signal_info D)) :
  forall instance,
    Forall (fun info => handler_id info = 0%N)
      (snd (gdbus_disconnect_signal instance (List.length infos) infos)).
Proof.
  induction infos as [|info infos IH]; intros instance.
  - constructor.
  - cbn [List.length gdbus_disconnect_signal].
    match goal with
    | |- context [gdbus_disconnect_signal ?i _ infos] => specialize (IH i);
        destruct (gdbus_disconnect_signal i (List.length infos) infos) as [i' r']
    end.
    cbn [snd] in *. constructor; [reflexivity | exact IH].
Qed.

(** Disconnecting does not release the object. *)
Lemma disconnect_keeps_instance (infos : list (@gdbus_signal_info D)) :
  forall (n : nat) instance,
    exists instance',
      fst (gdbus_disconnect_signal (Some instance) n infos) = Some instance'.
Proof.
  induction infos as [|info infos IH]; intros n instance.
  - destruct n; eexists; reflexivity.
  - destruct n as [|n]; [eexists; reflexivity|].
    cbn [gdbus_disconnect_signal].
    destruct (0 <? handler_id info)%N; cbn [option_map].
    + destruct (IH n (remove_handler instance (handler_id info))) as [i' Hi].
      destruct (gdbus_disconnect_signal _ n infos) as [i'' r'].
      cbn [fst] in *. eexists. exact Hi.
    + destruct (IH n instance) as [i' Hi].
      destruct (gdbus_disconnect_signal _ n infos) as [i'' r'].
      cbn [fst] in *. eexists. exact Hi.
Qed.

(** The ways out of [probe_model_module], from the state the module
    starts in. *)
Lemma probe_run :
  let n := List.length (handler_infos ifc) in
  let fresh := {| connected := []; exported := None |} in
  probe_model_module ifc g tt (initial_state ifc)
  = if skeleton_new_ok g then
      match connect_each g fresh (handler_infos ifc) with
      | None =>
          ((- ENOSYS)%Z,
           {| g_gdbus_instance := None; signal_infos := handler_infos ifc |},
           [ ml_logd "probe_model_module"; SkeletonNew; ConnectSignal n;
             ml_loge
               "cannot register callbacks as the dbus method invocation handlers\n ret: %d"
               [inr (- EINVAL)%Z];
             ObjectUnref ])
      | Some (instance, infos) =>
          if (export_result g (DBUS_MODEL_PATH ifc) <? 0)%Z then
            ((- ENOSYS)%Z,
             {| g_gdbus_instance := None;
                signal_infos := snd (gdbus_disconnect_signal (Some instance) n infos) |},
             [ ml_logd "probe_model_module"; SkeletonNew; ConnectSignal n;
               ExportInterface (DBUS_MODEL_PATH ifc);
               ml_loge "cannot export the dbus interface '%s' at the object path '%s'\n"
                 [inl (DBUS_MODEL_INTERFACE ifc); inl (DBUS_MODEL_PATH ifc)];
               DisconnectSignal n; ObjectUnref ])
          else
            (0%Z,
             {| g_gdbus_instance :=
                  Some {| connected := connected instance;
                          exported := Some (DBUS_MODEL_PATH ifc) |};
                signal_infos := infos |},
             [ ml_logd "probe_model_module"; SkeletonNew; ConnectSignal n;
               ExportInterface (DBUS_MODEL_PATH ifc) ])
      end
    else
      ((- ENOSYS)%Z,
       {| g_gdbus_instance := None; signal_infos := handler_infos ifc |},
       [ ml_logd "probe_model_module"; SkeletonNew;
         ml_loge "cannot get a dbus instance for the %s interface\n"
           [inl (DBUS_MODEL_INTERFACE ifc)] ]).
Proof.
  cbv zeta.
  unfold probe_model_module, initial_state, gdbus_get_model_instance,
    gdbus_put_model_instance, ARRAY_SIZE_handler_infos, gdbus_connect_signal,
    gdbus_export_interface.
  cbv beta iota zeta delta [bind emit pure get put g_gdbus_instance signal_infos].
  destruct (skeleton_new_ok g); [|reflexivity].
  rewrite firstn_all, skipn_all.
  destruct (connect_each g _ (handler_infos ifc)) as [[instance infos]|].
  - cbv beta iota zeta. change (0 <? 0)%Z with false. cbv beta iota zeta.
    rewrite (app_nil_r infos).
    destruct (export_result g (DBUS_MODEL_PATH ifc) <? 0)%Z eqn:He;
      cbv beta iota zeta; rewrite He; cbv beta iota zeta; [|reflexivity].
    destruct (disconnect_keeps_instance infos (List.length (handler_infos ifc)) instance)
      as [i' Hi].
    destruct (gdbus_disconnect_signal (Some instance) _ infos) as [i'' t'].
    cbn [fst] in Hi. subst i''. reflexivity.
  - change (- EINVAL <? 0)%Z with true. reflexivity.
Qed.

(** C8: Probe unwinds on failure.  Started from the state the module is
    registered in, [probe_model_module] returns 0 exactly when the service
    object is acquired, every handler of the table is registered and the
    object is exported.  In every other case it returns -ENOSYS and leaves
    [g_gdbus_instance] NULL and no handler of the table attached: when the
    object cannot be acquired nothing else is tried; when the handlers
    cannot be registered (the registration step itself leaving none
    attached) the object is released; when the export fails the handlers
    are disconnected and then the object is released. *)
Theorem probe_unwinds_on_failure :
  let r := probe_model_module ifc g tt (initial_state ifc) in
  let path := DBUS_MODEL_PATH ifc in
  let acquired := skeleton_new_ok g in
  let registered := connectable g (handler_infos ifc) in
  let exported_ok := negb (export_result g path <? 0)%Z in
  (result r = 0%Z <-> acquired && registered && exported_ok = true) /\
  (acquired && registered && exported_ok = false ->
   result r = (- ENOSYS)%Z /\
   g_gdbus_instance (state_of r) = None /\
   no_handler_attached (state_of r)) /\
  (acquired = false ->
   exists msg, trace r = [ml_logd "probe_model_module"; SkeletonNew; msg]) /\
  (acquired = true -> registered = false ->
   exists msg,
     trace r = [ml_logd "probe_model_module"; SkeletonNew; ConnectSignal 7; msg;
                ObjectUnref]) /\
  (acquired = true -> registered = true -> exported_ok = false ->
   exists msg,
     trace r = [ml_logd "probe_model_module"; SkeletonNew; ConnectSignal 7;
                ExportInterface path; msg; DisconnectSignal 7; ObjectUnref]).
Proof.
  cbv zeta. rewrite probe_run. cbv zeta.
  pose proof initial_ids_zero as Hzero.
  pose proof (connect_each_connectable (handler_infos ifc)
                {| connected := []; exported := None |}) as Hc.
  destruct (skeleton_new_ok g).
  2:{ cbn [andb result state_of trace fst snd g_gdbus_instance].
      repeat split; try discriminate.
      - exact Hzero.
      - intros _. eexists. reflexivity. }
  destruct (connectable g (handler_infos ifc)).
  2:{ rewrite Hc. cbn [andb result state_of trace fst snd g_gdbus_instance].
      repeat split; try discriminate.
      - exact Hzero.
      - intros _ _. eexists. reflexivity. }
  destruct Hc as (instance & infos & Hc). rewrite Hc.
  destruct (export_result g (DBUS_MODEL_PATH ifc) <? 0)%Z;
    cbn [andb negb result state_of trace fst snd g_gdbus_instance].
  - repeat split; try discriminate.
    + cbn [signal_infos].
      rewrite <- (connect_each_length _ _ _ _ Hc). apply disconnect_clears_ids.
    + intros _ _ _. eexists. reflexivity.
  - repeat split; try discriminate; reflexivity.
Qed.

End Probe.

End Claims.

(** *** The claims on the bench *)

Import Bench.

(** C6: the table is seven handlers long, not nine. *)
Lemma handler_table_is_not_nine_long :
  List.length (handler_infos (D:=nat) Bench.ifc) <> 9%nat.
Proof. discriminate. Qed.

Lemma handlers_complete_once_witness :
  exists (op : svcdb_call) (method : string) (payload : list reply_value),
    gdbus_cb_model_get {| connected := []; exported := None |} 5%nat "mobilenet" 3%N 1%nat
    = (true, snd (svcdb_perform op 1%nat),
       [ Svcdb op (fst (svcdb_perform op 1%nat));
         Complete 5%nat method (payload ++ [ReplyInt (fst (svcdb_perform op 1%nat))]) ]).
Proof.
  destruct (@handlers_complete_once nat counting_db Bench.ifc) as (_ & _ & P).
  apply (P {| signal_name := "handle_get";
              cb := fun obj invoc '(name, version) =>
                      gdbus_cb_model_get obj invoc name version;
              cb_data := None;
              handler_id := 0 |}
           (or_intror (or_intror (or_intror (or_introl eq_refl))))
           {| connected := []; exported := None |} 5%nat ("mobilenet", 3%N) 1%nat).
Defined.

Lemma probe_unwinds_on_failure_witness :
  (let r := probe_model_module Bench.ifc bus_no_export tt (initial_state (D:=nat) Bench.ifc) in
   result r = (-38)%Z /\ g_gdbus_instance (state_of r) = None /\
   no_handler_attached (state_of r)) /\
  (let r := probe_model_module Bench.ifc bus_no_delete tt (initial_state (D:=nat) Bench.ifc) in
   result r = (-38)%Z /\ g_gdbus_instance (state_of r) = None /\
   no_handler_attached (state_of r)) /\
  (let r := probe_model_module Bench.ifc bus_no_skeleton tt (initial_state (D:=nat) Bench.ifc) in
   result r = (-38)%Z /\ g_gdbus_instance (state_of r) = None /\
   no_handler_attached (state_of r)) /\
  result (probe_model_module Bench.ifc bus_ok tt (initial_state (D:=nat) Bench.ifc)) = 0%Z.
Proof.
  split; [|split; [|split]].
  - destruct (@probe_unwinds_on_failure nat counting_db Bench.ifc bus_no_export)
      as (_ & P & _).
    apply P. reflexivity.
  - destruct (@probe_unwinds_on_failure nat counting_db Bench.ifc bus_no_delete)
      as (_ & P & _).
    apply P. reflexivity.
  - destruct (@probe_unwinds_on_failure nat counting_db Bench.ifc bus_no_skeleton)
      as (_ & P & _).
    apply P. reflexivity.
  - destruct (@probe_unwinds_on_failure nat counting_db Bench.ifc bus_ok) as (P & _).
    apply P. reflexivity.
Defined.

End ModelDBusSpec.

(* ===================================================================== *)
(** ** Further properties of the plugin parser                            *)
(* ===================================================================== *)

Module PluginParserMore.

Import GLib Json Eff Host PluginParser Manifest Observe GLibFacts EffFacts PluginFacts.
Local Open Scope string_scope.
Local Open Scope list_scope.

Section Traces.

Context {E St : Type}.
Variable P : E -> Prop.

Lemma bind_forall {A C} (m : Eff.M E St A) (f : A -> Eff.M E St C) (s : St) :
  Forall P (trace (m s)) ->
  (forall a s', Forall P (trace (f a s'))) ->
  Forall P (trace (bind m f s)).
Proof. intros Hm Hf. rewrite trace_bind. apply Forall_app. split; [exact Hm | apply Hf]. Qed.

Lemma for_loop_forall (body : nat -> Eff.M E St unit) :
  (forall i s, Forall P (trace (body i s))) ->
  forall count start s, Forall P (trace (for_loop start count body s)).
Proof.
  intros Hb. induction count as [|n IH]; intros start s.
  - constructor.
  - cbn [for_loop]. apply bind_forall; [apply Hb | intros _ s'; apply IH].
Qed.

End Traces.

(** The length of what a filter keeps of a loop that leaves one such
    event per round. *)
Lemma for_loop_count {E St : Type} (keep : E -> bool) (body : nat -> Eff.M E St unit) :
  (forall i s, List.length (filter keep (trace (body i s))) = 1%nat) ->
  forall count start s,
    List.length (filter keep (trace (for_loop start count body s))) = count.
Proof.
  intros Hb. induction count as [|n IH]; intros start s.
  - reflexivity.
  - cbn [for_loop]. rewrite trace_bind, filter_app, length_app, Hb, IH. reflexivity.
Qed.

(** Carries out [_get_json_config] up to the loop over the members. *)
Ltac run_config :=
  unfold _get_json_config, g_file_test, g_file_get_contents;
  cbv beta iota zeta delta [bind emit pure _E existsb];
  rewrite ?orb_false_r.

Section Parser.

Context {B : Type} `{MlAgent B}.

(** A backend call followed by one of two log lines. *)
Lemma call_then_log_events {A} (e : event) (op : B -> A * B) (k : A -> M B unit) (b : B) :
  is_backend_call e = true ->
  (forall a s, exists l, is_log l = true /\ trace (k a s) = [l]) ->
  exists l, is_log l = true /\ trace (bind (call e op) k b) = [e; l].
Proof.
  intros He Hk. rewrite trace_bind, trace_call.
  destruct (Hk (result (call e op b)) (state_of (call e op b))) as (l & Hl & ->).
  exists l. split; [exact Hl | reflexivity].
Qed.

Lemma parse_json_object_events (object : option JsonObject) (ty : mlsvc_json_type_e)
  (app_info : option string) (b : B) :
  Forall (fun e => parser_event e = true) (trace (_parse_json_object object ty app_info b)).
Proof.
  assert (Hlog : forall (A : Type) (e : event) (op : B -> A * B) (k : A -> M B unit) s,
            is_backend_call e = true ->
            (forall a s', exists l, is_log l = true /\ trace (k a s') = [l]) ->
            Forall (fun e => parser_event e = true) (trace (bind (call e op) k s))).
  { intros A e op k s He Hk.
    destruct (call_then_log_events e op k s He Hk) as (l & Hl & ->).
    repeat constructor; unfold parser_event; [now rewrite He, orb_true_r | now rewrite Hl]. }
  destruct ty; unfold _parse_json_object.
  - destruct (json_object_get_string_member object "name") as [name|];
      [|repeat constructor].
    destruct (json_object_get_string_member object "model") as [model|];
      [|repeat constructor].
    apply Hlog; [reflexivity|].
    intros [ret version] s'. destruct (ret =? 0)%Z; eexists; (split; [|reflexivity]); reflexivity.
  - destruct (json_object_get_string_member object "name") as [name|];
      [|repeat constructor].
    destruct (json_object_get_string_member object "pipeline") as [pipe|];
      [|repeat constructor].
    apply Hlog; [reflexivity|].
    intros ret s'. destruct (ret =? 0)%Z; eexists; (split; [|reflexivity]); reflexivity.
  - destruct (json_object_get_string_member object "name") as [name|];
      [|repeat constructor].
    match goal with
    | |- context [if ?c then _ else _] => destruct c
    end; [repeat constructor|].
    apply for_loop_forall. intros pidx s.
    match goal with
    | |- context [match ?p with Some _ => _ | None => _ end] => destruct p as [path|]
    end; [|repeat constructor].
    apply Hlog; [reflexivity|].
    intros ret s'. destruct (ret =? 0)%Z; eexists; (split; [|reflexivity]); reflexivity.
  - repeat constructor.
Qed.

Lemma parse_json_events (node : option JsonNode) (ty : mlsvc_json_type_e)
  (app_info : option string) (b : B) :
  Forall (fun e => parser_event e = true) (trace (_parse_json node ty app_info b)).
Proof.
  unfold _parse_json.
  match goal with
  | |- context [if ?c then _ else _] => destruct c
  end; [repeat constructor|].
  apply for_loop_forall. intros i s. apply parse_json_object_events.
Qed.

Lemma members_events (object : option JsonObject) (app_info : option string)
  (names : list string) :
  forall b : B,
    Forall (fun e => parser_event e = true)
      (trace (_get_json_config_members object app_info names b)).
Proof.
  induction names as [|name names IH]; intros b; [constructor|].
  destruct (category_of name) as [ty|] eqn:E.
  - rewrite (members_step _ _ _ _ ty) by exact E.
    apply bind_forall; [apply parse_json_events | intros _ s'; apply IH].
  - rewrite members_stop by exact E. repeat constructor.
Qed.

(** The loop over the members comes to what [members_outcome] says,
    whatever the backend answers. *)
Lemma members_run_outcome (object : option JsonObject) (app_info : option string)
  (names : list string) :
  forall b : B,
    let r := _get_json_config_members object app_info names b in
    result r = fst (members_outcome object app_info names) /\
    backend_calls (trace r) = snd (members_outcome object app_info names).
Proof.
  induction names as [|name names IH]; intros b; cbn zeta; [split; reflexivity|].
  cbn [members_outcome].
  destruct (category_of name) as [ty|] eqn:E.
  - rewrite (members_step _ _ _ _ ty) by exact E.
    rewrite result_bind, trace_bind, backend_calls_app, parse_json_calls.
    destruct (IH (state_of (_parse_json (json_object_get_member object name) ty
                              app_info b))) as [R T].
    destruct (members_outcome object app_info names) as [ok calls].
    cbn [fst snd] in *. split; [exact R | now rewrite T].
  - rewrite members_stop by exact E. split; reflexivity.
Qed.

(** [_get_json_config] comes to what [config_outcome] says. *)
Lemma get_json_config_outcome (h : host) (json_path : string)
  (app_info : option string) (b : B) :
  let r := _get_json_config h json_path app_info b in
  result r = fst (config_outcome h json_path app_info) /\
  backend_calls (trace r) = snd (config_outcome h json_path app_info).
Proof.
  cbn zeta. unfold config_outcome. run_config.
  destruct (file_exists h json_path || file_is_regular h json_path)%bool;
    cbv beta iota delta [negb]; [|split; reflexivity].
  destruct (file_contents h json_path) as [text|]; cbv beta iota; [|split; reflexivity].
  destruct (json_parser_new h); cbv beta iota delta [negb]; [|split; reflexivity].
  destruct (json_parser_load_from_data h text) as [msg|[root|]]; cbv beta iota;
    try (split; reflexivity).
  destruct (members_run_outcome (json_node_get_object (Some root)) app_info
              (json_object_get_members (json_node_get_object (Some root))) b) as [R T].
  destruct (_get_json_config_members _ _ _ b) as [[ok b'] t].
  unfold result, trace in *. cbn [fst snd] in *. split; [exact R|].
  unfold backend_calls in *. cbn [app filter is_backend_call]. exact T.
Qed.

End Parser.

(** X1: The answer of the parse and the calls it makes do not depend on
    the backend.  On the same host, for the same path and application
    context, two runs against any two backends, in any states, return the
    same answer and issue the same backend calls in the same order: what
    a registration call returns changes neither the calls that follow nor
    the answer. *)
Theorem parse_ignores_backend_answers
  {B1 B2 : Type} {agent1 : MlAgent B1} {agent2 : MlAgent B2}
  (h : host) (json_path : string) (app_info : option string) (b1 : B1) (b2 : B2) :
  result (_get_json_config h json_path app_info b1)
  = result (_get_json_config h json_path app_info b2) /\
  backend_calls (trace (_get_json_config h json_path app_info b1))
  = backend_calls (trace (_get_json_config h json_path app_info b2)).
Proof.
  destruct (get_json_config_outcome h json_path app_info b1) as [R1 T1].
  destruct (get_json_config_outcome h json_path app_info b2) as [R2 T2].
  split; congruence.
Qed.

Section Failures.

Context {B : Type} `{MlAgent B}.

Lemma members_failure_logged (object : option JsonObject) (app_info : option string)
  (names : list string) :
  forall b : B,
    result (_get_json_config_members object app_info names b) = false ->
    ends_with_error "_get_json_config"
      (trace (_get_json_config_members object app_info names b)).
Proof.
  induction names as [|name names IH]; intros b; [discriminate|].
  destruct (category_of name) as [ty|] eqn:E.
  - rewrite (members_step _ _ _ _ ty) by exact E.
    rewrite result_bind, trace_bind. intros Hr.
    destruct (IH _ Hr) as (t0 & fmt & args & ->).
    eexists (_ ++ t0), fmt, args. apply app_assoc.
  - rewrite members_stop by exact E. intros _. eexists [], _, _. reflexivity.
Qed.

(** X2: No silent failure.  Whenever [_get_json_config] answers FALSE,
    the last thing it did was to log an error line of its own: every
    FALSE is accounted for in the log. *)
Theorem parse_failure_is_logged (h : host) (json_path : string)
  (app_info : option string) (b : B) :
  result (_get_json_config h json_path app_info b) = false ->
  ends_with_error "_get_json_config" (trace (_get_json_config h json_path app_info b)).
Proof.
  run_config.
  destruct (file_exists h json_path || file_is_regular h json_path)%bool;
    cbv beta iota delta [negb]; [|intros _; eexists [_], _, _; reflexivity].
  destruct (file_contents h json_path) as [text|]; cbv beta iota;
    [|intros _; eexists [_; _], _, _; reflexivity].
  destruct (json_parser_new h); cbv beta iota delta [negb];
    [|intros _; eexists [_; _], _, _; reflexivity].
  destruct (json_parser_load_from_data h text) as [msg|[root|]]; cbv beta iota;
    try (intros _; eexists [_; _], _, _; reflexivity).
  pose proof (members_failure_logged (json_node_get_object (Some root)) app_info
                (json_object_get_members (json_node_get_object (Some root))) b) as Hm.
  destruct (_get_json_config_members _ _ _ b) as [[ok b'] t].
  unfold result, trace in *. cbn [fst snd] in *. intros Hr.
  destruct (Hm Hr) as (t0 & fmt & args & ->).
  eexists (_ :: _ :: t0), fmt, args. reflexivity.
Qed.

(** X3: The failures before the manifest is looked at.  (1) A path at
    which there is nothing fails the file test: FALSE, the file is not
    read, the backend is not touched.  (2) A path that exists passes the
    test even when it is no regular file, the test asking for either; if
    the contents cannot be had (a directory, an unreadable file) the
    failure is the one of reading.  (3) Contents that are no JSON give
    FALSE with the parser's message, or "Unknown error" when it has none.
    (4) An empty document, which leaves the parser without a root, gives
    FALSE.  In each case exactly one error line is logged and no backend
    call is made. *)
Theorem parse_fails_before_the_manifest
  (h : host) (json_path : string) (app_info : option string) (b : B) :
  let r := _get_json_config h json_path app_info b in
  let tested := FileTest json_path [G_FILE_TEST_EXISTS; G_FILE_TEST_IS_REGULAR] in
  let error := Dlog DLOG_ERROR "_get_json_config" in
  (file_exists h json_path = false -> file_is_regular h json_path = false ->
   r = (false, b,
        [tested;
         error "The parameter, json_path, is invalid. It should be a valid string." []])) /\
  (file_exists h json_path = true -> file_contents h json_path = None ->
   r = (false, b,
        [tested; FileGetContents json_path;
         error "Failed to read configuration file '%s'." [ArgStr (Some json_path)]])) /\
  (forall text message,
     file_exists h json_path = true -> file_contents h json_path = Some text ->
     json_parser_new h = true ->
     json_parser_load_from_data h text = LoadError message ->
     r = (false, b,
          [tested; FileGetContents json_path;
           error "Failed to parse configuration file, cannot load json string (%s)."
             [ArgStr (Some (match message with
                            | Some m => m
                            | None => "Unknown error"
                            end))]])) /\
  (forall text,
     file_exists h json_path = true -> file_contents h json_path = Some text ->
     json_parser_new h = true ->
     json_parser_load_from_data h text = Loaded None ->
     r = (false, b,
          [tested; FileGetContents json_path;
           error "Failed to parse configuration file, cannot get the top node from json string."
             []])).
Proof.
  cbv zeta. repeat split.
  - intros He Hr. run_config. rewrite He, Hr. reflexivity.
  - intros He Hc. run_config. rewrite He, Hc. reflexivity.
  - intros text message He Hc Hp Hl. run_config. rewrite He, Hc, Hp. cbn. rewrite Hl.
    reflexivity.
  - intros text He Hc Hp Hl. run_config. rewrite He, Hc, Hp. cbn. rewrite Hl.
    reflexivity.
Qed.

End Failures.

Section Entries.

Context {B : Type} `{MlAgent B}.

Lemma entry_calls_of_category (ty : mlsvc_json_type_e) (app_info : option string)
  (object : option JsonObject) :
  Forall (fun e => call_of_category ty e = true) (entry_calls ty app_info object).
Proof.
  destruct ty; cbn [entry_calls]; [| | |constructor].
  - unfold model_calls.
    destruct (json_object_get_string_member object "name"); [|constructor].
    destruct (json_object_get_string_member object "model"); repeat constructor.
  - unfold pipeline_calls.
    destruct (json_object_get_string_member object "name"); [|constructor].
    destruct (json_object_get_string_member object "pipeline"); repeat constructor.
  - unfold resource_calls.
    destruct (json_object_get_string_member object "name"); [|constructor].
    induction (paths_of (json_object_get_member object "path")); repeat constructor.
    assumption.
Qed.

(** X4: Calls stay within their category.  Whatever the value under a
    key looks like, parsing it as models issues no backend call but
    Register, as pipelines none but SetPipelineDescription, as resources
    none but AddResource. *)
Theorem calls_stay_in_category (node : option JsonNode) (ty : mlsvc_json_type_e)
  (app_info : option string) (b : B) :
  Forall (fun e => call_of_category ty e = true)
    (backend_calls (trace (_parse_json node ty app_info b))).
Proof.
  rewrite parse_json_calls.
  induction (entries node) as [|o es IH]; [constructor|].
  cbn [flat_map]. apply Forall_app. split; [apply entry_calls_of_category | exact IH].
Qed.

Lemma null_object_is_logged (ty : mlsvc_json_type_e) (app_info : option string) (b : B) :
  exists fmt args,
    _parse_json_object None ty app_info b = (tt, b, [Dlog DLOG_ERROR "_parse_json" fmt args]).
Proof. destruct ty; eexists _, _; reflexivity. Qed.

(** X5: Values that are no objects.  (1) A category value that is
    neither an array nor an object (a string, a number, a boolean, null)
    is gone through once, as an entry without fields: one error line, no
    backend call, the backend untouched.  (2) An empty array is gone
    through zero times: nothing is logged and nothing is called.  (3) In
    an array, every element that is no object costs one error line and no
    call: an array of such elements leaves as many error lines as it has
    elements and the backend untouched. *)
Theorem values_without_objects_are_skipped
  (ty : mlsvc_json_type_e) (app_info : option string) (b : B) :
  (forall node : JsonNode,
     JSON_NODE_HOLDS_ARRAY (Some node) = false ->
     json_node_get_object (Some node) = None ->
     exists fmt args,
       _parse_json (Some node) ty app_info b
       = (tt, b, [Dlog DLOG_ERROR "_parse_json" fmt args])) /\
  _parse_json (Some (JArray [])) ty app_info b = (tt, b, []) /\
  (forall elements : list JsonNode,
     Forall (fun e => json_node_get_object (Some e) = None) elements ->
     let r := _parse_json (Some (JArray elements)) ty app_info b in
     state_of r = b /\
     backend_calls (trace r) = [] /\
     Forall (fun e => exists fmt args, e = Dlog DLOG_ERROR "_parse_json" fmt args) (trace r) /\
     List.length (trace r) = List.length elements).
Proof.
  split; [|split].
  - intros node Harr Hobj. unfold _parse_json. rewrite Harr, Hobj.
    cbn [andb for_loop]. destruct (null_object_is_logged ty app_info b) as (fmt & args & E).
    exists fmt, args. unfold bind. rewrite E. reflexivity.
  - reflexivity.
  - intros elements Hnone. cbn zeta. rewrite parse_json_array.
    revert b. induction Hnone as [|e elements He _ IH]; intros b.
    + repeat split; constructor.
    + cbn [g_list_foreach]. rewrite He.
      destruct (null_object_is_logged ty app_info b) as (fmt & args & E).
      rewrite state_bind, trace_bind, E.
      cbn [result state_of trace fst snd app]. destruct (IH b) as (S & C & L & N).
      repeat split.
      * exact S.
      * exact C.
      * constructor; [eexists _, _; reflexivity | exact L].
      * cbn [List.length]. now rewrite N.
Qed.

Lemma well_formed_pipeline_calls (objs : list JsonObject) :
  Forall well_formed_pipeline objs ->
  flat_map pipeline_calls (map Some objs) = map pipeline_of objs.
Proof.
  induction 1 as [|o objs [Hn Hp] _ IH]; [reflexivity|].
  cbn [map flat_map]. rewrite IH. unfold pipeline_calls, pipeline_of.
  destruct (json_object_get_string_member (Some o) "name"); [|congruence].
  destruct (json_object_get_string_member (Some o) "pipeline"); [|congruence].
  reflexivity.
Qed.

(** X6: One SetPipelineDescription call per pipeline entry.  A pipeline
    value that is an array of N objects with a [name] and a [pipeline]
    string, or one such object, gives exactly the N calls
    SetPipelineDescription (name, pipeline), in the order of the entries;
    the application context plays no part in them. *)
Theorem pipeline_entries_are_set (objs : list JsonObject)
  (app_info : option string) (b : B) :
  Forall well_formed_pipeline objs ->
  backend_calls (trace (_parse_json (Some (JArray (map JObject objs)))
                          MLSVC_JSON_PIPELINE app_info b))
  = map pipeline_of objs /\
  (forall o, objs = [o] ->
     backend_calls (trace (_parse_json (Some (JObject o)) MLSVC_JSON_PIPELINE app_info b))
     = [pipeline_of o]).
Proof.
  intros Hwf. split.
  - rewrite parse_json_calls. cbn [entries]. rewrite map_map.
    change (map (fun x => json_node_get_object (Some (JObject x))) objs)
      with (map Some objs).
    now apply well_formed_pipeline_calls.
  - intros o ->. rewrite parse_json_calls. cbn [entries json_node_get_object].
    apply (well_formed_pipeline_calls [o] Hwf).
Qed.

(** One round of the loop over a resource entry with a name and a
    string for a path: the call, then the line that tells how it went. *)
Lemma resource_round_with_one_path (object : JsonObject) (name path : string)
  (app_info : option string) (b : B) :
  json_object_get_string_member (Some object) "name" = Some name ->
  json_object_get_member (Some object) "path" = Some (JString path) ->
  exists l,
    is_log l = true /\
    trace (_parse_json_object (Some object) MLSVC_JSON_RESOURCE app_info b)
    = [AddResource name path
         (or_empty (json_object_get_string_member (Some object) "description"))
         (or_empty app_info); l].
Proof.
  intros Hname Hpath. unfold _parse_json_object. rewrite Hname, Hpath.
  cbn [JSON_NODE_HOLDS_ARRAY json_node_get_string Nat.eqb for_loop].
  rewrite trace_bind.
  match goal with
  | |- context [trace (bind (call ?e ?op) ?k b)] =>
      destruct (call_then_log_events e op k b eq_refl) as (l & Hl & ->)
  end.
  - intros ret s. destruct (ret =? 0)%Z; eexists; (split; [|reflexivity]); reflexivity.
  - exists l. split; [exact Hl | reflexivity].
Qed.

(** X7: A resource with one path.  When the value [_parse_json] is given
    for the resource category is an entry with a [name] whose [path] is a
    string, be the entry the value itself or the only element of an
    array, the whole run is one call, AddResource with that name and
    path, the entry's description (empty when absent) and the application
    context (empty when there is none), followed by the one log line that
    tells how the call went; in an array, the entry adds exactly this
    call to those of the entries around it. *)
Theorem resource_with_one_path (object : JsonObject) (name path : string)
  (app_info : option string) (b : B) :
  json_object_get_string_member (Some object) "name" = Some name ->
  json_object_get_member (Some object) "path" = Some (JString path) ->
  let add :=
    AddResource name path
      (or_empty (json_object_get_string_member (Some object) "description"))
      (or_empty app_info) in
  (forall node : JsonNode,
     node = JObject object \/ node = JArray [JObject object] ->
     exists l,
       is_log l = true /\
       trace (_parse_json (Some node) MLSVC_JSON_RESOURCE app_info b) = [add; l]) /\
  (forall (pre post : list JsonNode) (b1 b2 : B),
     backend_calls
       (trace (_parse_json (Some (JArray (pre ++ JObject object :: post)))
                 MLSVC_JSON_RESOURCE app_info b))
     = backend_calls (trace (_parse_json (Some (JArray pre)) MLSVC_JSON_RESOURCE
                               app_info b1))
       ++ [add]
       ++ backend_calls (trace (_parse_json (Some (JArray post)) MLSVC_JSON_RESOURCE
                                  app_info b2))).
Proof.
  intros Hname Hpath. cbv zeta.
  set (add := AddResource name path
                (or_empty (json_object_get_string_member (Some object) "description"))
                (or_empty app_info)).
  split.
  - intros node Hnode.
    rewrite (PluginParserSpec.parse_json_single node object) by exact Hnode.
    rewrite trace_bind.
    destruct (resource_round_with_one_path object name path app_info b Hname Hpath)
      as (l & Hl & ->).
    exists l. split; [exact Hl | reflexivity].
  - intros pre post b1 b2. rewrite !parse_json_calls. cbn [entries].
    rewrite map_app, flat_map_app. cbn [map flat_map json_node_get_object].
    do 2 f_equal.
    change (entry_calls MLSVC_JSON_RESOURCE app_info (Some object) = [add]).
    cbn [entry_calls]. unfold resource_calls. rewrite Hname, Hpath. reflexivity.
Qed.

(** X8: A key names one category, and the code files it there.  No key
    is a spelling of two categories, and a key that is a spelling of a
    category, in whatever case, has its value parsed under exactly that
    category before the loop goes on: for pipelines and resources as for
    models. *)
Theorem key_is_filed_under_its_category :
  (forall (name : string) (ty1 ty2 : mlsvc_json_type_e),
     names_category name ty1 -> names_category name ty2 -> ty1 = ty2) /\
  (forall (object : option JsonObject) (app_info : option string) (name : string)
          (next : list string) (ty : mlsvc_json_type_e) (b : B),
     names_category name ty ->
     _get_json_config_members object app_info (name :: next) b
     = bind (_parse_json (json_object_get_member object name) ty app_info)
         (fun _ => _get_json_config_members object app_info next) b).
Proof.
  split.
  - intros name ty1 ty2 H1 H2.
    apply category_of_names in H1. apply category_of_names in H2. congruence.
  - intros object app_info name next ty b Hty.
    apply members_step. now apply category_of_names.
Qed.

Lemma lookup_in (members : JsonObject) :
  NoDup (map fst members) ->
  forall key value, In (key, value) members -> lookup members key = Some value.
Proof.
  induction members as [|[k v] members IH]; intros Hnd key value Hin; [destruct Hin|].
  cbn [map fst] in Hnd. inversion Hnd as [|? ? Hnot Hnd']; subst.
  cbn [lookup]. destruct Hin as [[= -> ->]|Hin].
  - now rewrite String.eqb_refl.
  - destruct (String.eqb_spec k key) as [->|_]; [|now apply IH].
    contradiction Hnot. apply (in_map fst) in Hin. exact Hin.
Qed.

(** X9: Calls follow the order of the manifest.  For a manifest whose
    member names are distinct and all recognized, the backend calls are
    those of the first member's value, then those of the second, and so
    on in the order of the members, whatever their categories; within a
    member, entry by entry. *)
Theorem calls_follow_member_order (h : host) (json_path : string)
  (members : JsonObject) (app_info : option string) (b : B) :
  manifest_at h json_path (JObject members) ->
  NoDup (map fst members) ->
  Forall recognized (map fst members) ->
  backend_calls (trace (_get_json_config h json_path app_info b))
  = flat_map (member_calls app_info) members.
Proof.
  intros Hm Hnd Hrec.
  destruct (get_json_config_run h json_path members app_info b Hm) as (_ & _ & ->).
  destruct (members_recognized members app_info _ Hrec b) as [_ ->].
  pose proof (lookup_in members Hnd) as Hlook.
  assert (Hgen : forall part,
            (forall key value, In (key, value) part -> lookup members key = Some value) ->
            manifest_calls app_info members (map fst part)
            = flat_map (member_calls app_info) part).
  { induction part as [|[k v] part IH]; intros Hpart; [reflexivity|].
    unfold manifest_calls in *. cbn [map flat_map fst]. unfold member_calls at 1.
    cbn [fst snd]. rewrite (Hpart k v (or_introl eq_refl)).
    rewrite IH; [reflexivity|]. intros key value Hin. apply Hpart. now right. }
  apply Hgen. exact Hlook.
Qed.

Lemma entry_leaves_one_log (object : option JsonObject) (ty : mlsvc_json_type_e)
  (app_info : option string) (b : B) :
  ty <> MLSVC_JSON_RESOURCE ->
  List.length (filter is_log (trace (_parse_json_object object ty app_info b))) = 1%nat.
Proof.
  intros Hty. destruct ty; [| |congruence|reflexivity]; unfold _parse_json_object.
  - destruct (json_object_get_string_member object "name") as [name|]; [|reflexivity].
    destruct (json_object_get_string_member object "model") as [model|]; [|reflexivity].
    match goal with
    | |- context [trace (bind (call ?e ?op) ?k b)] =>
        destruct (call_then_log_events e op k b eq_refl) as (l & Hl & ->)
    end.
    + intros [ret version] s.
      destruct (ret =? 0)%Z; eexists; (split; [|reflexivity]); reflexivity.
    + cbn [filter is_log]. now rewrite Hl.
  - destruct (json_object_get_string_member object "name") as [name|]; [|reflexivity].
    destruct (json_object_get_string_member object "pipeline") as [pipe|]; [|reflexivity].
    match goal with
    | |- context [trace (bind (call ?e ?op) ?k b)] =>
        destruct (call_then_log_events e op k b eq_refl) as (l & Hl & ->)
    end.
    + intros ret s.
      destruct (ret =? 0)%Z; eexists; (split; [|reflexivity]); reflexivity.
    + cbn [filter is_log]. now rewrite Hl.
Qed.

(** X10: Every model and pipeline entry shows in the log.  Parsing a
    model or pipeline value leaves exactly one log line per entry, be the
    entry registered, refused by the backend, or skipped for a missing
    field: the number of log lines is the number of entries. *)
Theorem every_entry_is_logged (node : option JsonNode) (ty : mlsvc_json_type_e)
  (app_info : option string) (b : B) :
  ty = MLSVC_JSON_MODEL \/ ty = MLSVC_JSON_PIPELINE ->
  List.length (filter is_log (trace (_parse_json node ty app_info b)))
  = List.length (entries node).
Proof.
  intros Hty.
  assert (Hnot : ty <> MLSVC_JSON_RESOURCE) by (destruct Hty; subst; discriminate).
  assert (Hone : forall n, JSON_NODE_HOLDS_ARRAY n = false ->
            List.length (filter is_log (trace (_parse_json n ty app_info b))) = 1%nat).
  { intros n Hn. unfold _parse_json. rewrite Hn. cbn [andb].
    apply for_loop_count. intros i s. now apply entry_leaves_one_log. }
  destruct node as [[| | | | | a |]|]; try (apply Hone; reflexivity).
  unfold _parse_json. cbn [JSON_NODE_HOLDS_ARRAY json_node_get_array andb entries].
  rewrite length_map. apply for_loop_count. intros i s. now apply entry_leaves_one_log.
Qed.

End Entries.

(** Carries out INSTALL up to the first test the hypotheses leave
    open, the metadata list being logged as [Hmd] says. *)
Ltac unfold_install Hmd :=
  unfold PKGMGR_MDPARSER_PLUGIN_INSTALL;
  match goal with
  | |- context [g_list_foreach ?md ?body] =>
      let m := fresh "md" in
      set (m := g_list_foreach md body) in *; clearbody m
  end;
  cbv beta iota zeta delta [bind emit pure _I _E pkgmgrinfo_pkginfo_get_pkginfo
    pkgmgrinfo_pkginfo_get_type pkgmgrinfo_pkginfo_get_root_path
    pkgmgrinfo_pkginfo_get_res_type pkgmgrinfo_pkginfo_get_res_version
    pkgmgrinfo_pkginfo_destroy_pkginfo];
  rewrite Hmd.

(** Reads off a run that stopped before the manifest. *)
Ltac read_stopped Hms Hmc :=
  cbv beta iota delta [negb];
  unfold result, state_of, trace; cbn [fst snd];
  unfold steps, backend_calls in *;
  repeat (rewrite ?filter_app; cbn [filter is_step is_backend_call app]);
  rewrite ?Hms, ?Hmc; cbn [app].

Section Install.

Context {B : Type} `{MlAgent B}.

Lemma get_json_config_events (h : host) (json_path : string)
  (app_info : option string) (b : B) :
  Forall (fun e => config_event e = true) (trace (_get_json_config h json_path app_info b)).
Proof.
  run_config.
  destruct (file_exists h json_path || file_is_regular h json_path)%bool;
    cbv beta iota delta [negb]; [|repeat constructor].
  destruct (file_contents h json_path) as [text|]; cbv beta iota; [|repeat constructor].
  destruct (json_parser_new h); cbv beta iota delta [negb]; [|repeat constructor].
  destruct (json_parser_load_from_data h text) as [msg|[root|]]; cbv beta iota;
    try (repeat constructor).
  pose proof (members_events (json_node_get_object (Some root)) app_info
                (json_object_get_members (json_node_get_object (Some root))) b) as Hm.
  destruct (_get_json_config_members _ _ _ b) as [[ok b'] t].
  unfold trace in *. cbn [snd app] in *.
  constructor; [reflexivity|]. constructor; [reflexivity|].
  eapply Forall_impl; [|exact Hm]. intros e He.
  destruct e; try discriminate; reflexivity.
Qed.

Lemma config_never_destroys (h : host) (json_path : string)
  (app_info : option string) (b : B) :
  filter is_destroy (steps (trace (_get_json_config h json_path app_info b))) = [].
Proof.
  pose proof (get_json_config_events h json_path app_info b) as He.
  induction He as [|e t Hc _ IH]; [reflexivity|].
  unfold steps in *. cbn [filter].
  destruct e; try discriminate; cbn [is_step filter is_destroy]; exact IH.
Qed.

(** The two ways INSTALL can go: it stops before the manifest, having
    called no backend, or it resolves the package and parses. *)
Lemma install_shape (h : host) (pkgid : string) (appid : option string)
  (metadata : list _metadata_s) (b : B) :
  let r := PKGMGR_MDPARSER_PLUGIN_INSTALL h pkgid appid metadata b in
  (backend_calls (trace r) = [] /\ state_of r = b /\
   (result r = 0 \/ result r = -1)%Z /\
   (pkginfo_db h pkgid = None /\ steps (trace r) = [PkginfoGet pkgid] \/
    pkginfo_db h pkgid <> None /\
    exists getters,
      steps (trace r) = (PkginfoGet pkgid :: getters) ++ [PkginfoDestroy] /\
      filter is_destroy getters = [])) \/
  (exists handle root_path res_type res_version,
     pkginfo_db h pkgid = Some handle /\
     h_root_path handle = Some root_path /\
     h_res_type handle = Some res_type /\
     h_res_version handle = Some res_version /\
     let p :=
       _get_json_config h
         (g_build_filename h [root_path; "res"; "global"; res_type; "rpk_config.json"])
         (Some (_make_pkg_info h pkgid appid res_type res_version)) b in
     result r = (if result p then 0 else -1)%Z /\
     state_of r = state_of p /\
     backend_calls (trace r) = backend_calls (trace p) /\
     steps (trace r)
     = [PkginfoGet pkgid; PkginfoGetType; PkginfoGetRootPath; PkginfoGetResType;
        PkginfoGetResVersion] ++ steps (trace p) ++ [PkginfoDestroy]).
Proof.
  cbv zeta.
  destruct (PluginParserSpec.metadata_logged metadata b) as (tm & Hmd & Hms & Hmc).
  destruct (pkginfo_db h pkgid) as [handle|] eqn:Hdb.
  2:{ left. unfold_install Hmd. rewrite Hdb. read_stopped Hms Hmc.
      repeat split; try reflexivity; [now right | now left]. }
  destruct (h_type handle) as [ty|] eqn:Hty.
  2:{ left. unfold_install Hmd. rewrite Hdb, Hty. read_stopped Hms Hmc.
      repeat split; try reflexivity; [now right|].
      right. split; [discriminate|]. exists [PkginfoGetType]. split; reflexivity. }
  destruct (g_strcmp0 (Some ty) (Some "rpk") =? 0)%Z eqn:Hcmp.
  2:{ left. unfold_install Hmd. rewrite Hdb, Hty, Hcmp. read_stopped Hms Hmc.
      repeat split; try reflexivity; [now left|].
      right. split; [discriminate|]. exists [PkginfoGetType]. split; reflexivity. }
  destruct (h_root_path handle) as [root_path|] eqn:Hroot.
  2:{ left. unfold_install Hmd. rewrite Hdb, Hty, Hcmp. cbv beta iota delta [negb].
      rewrite Hroot. read_stopped Hms Hmc.
      repeat split; try reflexivity; [now right|].
      right. split; [discriminate|].
      exists [PkginfoGetType; PkginfoGetRootPath]. split; reflexivity. }
  destruct (h_res_type handle) as [res_type|] eqn:Hrt.
  2:{ left. unfold_install Hmd. rewrite Hdb, Hty, Hcmp. cbv beta iota delta [negb].
      rewrite Hroot, Hrt. read_stopped Hms Hmc.
      repeat split; try reflexivity; [now right|].
      right. split; [discriminate|].
      exists [PkginfoGetType; PkginfoGetRootPath; PkginfoGetResType].
      split; reflexivity. }
  destruct (h_res_version handle) as [res_version|] eqn:Hrv.
  2:{ left. unfold_install Hmd. rewrite Hdb, Hty, Hcmp. cbv beta iota delta [negb].
      rewrite Hroot, Hrt, Hrv. read_stopped Hms Hmc.
      repeat split; try reflexivity; [now right|].
      right. split; [discriminate|].
      exists [PkginfoGetType; PkginfoGetRootPath; PkginfoGetResType; PkginfoGetResVersion].
      split; reflexivity. }
  right. exists handle, root_path, res_type, res_version.
  destruct (PluginParserSpec.install_resolved h pkgid appid metadata b handle ty
              root_path res_type res_version Hdb Hty
              (proj1 (PluginParserSpec.is_rpk_test ty) Hcmp) Hroot Hrt Hrv)
    as (R & S & C & T).
  repeat split; assumption || reflexivity.
Qed.

Lemma filter_destroy_steps (t : list event) :
  filter is_destroy t = filter is_destroy (steps t).
Proof.
  unfold steps. induction t as [|e t IH]; [reflexivity|].
  destruct e; cbn [filter is_step is_destroy]; now rewrite ?IH.
Qed.

(** X11: INSTALL releases the handle it got, once, and last.  Whatever
    the package database, the files and the manifest are, INSTALL returns
    0 or -1; when it gets no handle it never calls the release; when it
    gets one it calls the release exactly once, and that call is its last
    step, on the failure paths as on the successful ones. *)
Theorem install_releases_handle_once (h : host) (pkgid : string)
  (appid : option string) (metadata : list _metadata_s) (b : B) :
  let r := PKGMGR_MDPARSER_PLUGIN_INSTALL h pkgid appid metadata b in
  (result r = 0 \/ result r = -1)%Z /\
  match pkginfo_db h pkgid with
  | None => filter is_destroy (trace r) = []
  | Some _ =>
      filter is_destroy (trace r) = [PkginfoDestroy] /\
      exists before, steps (trace r) = before ++ [PkginfoDestroy]
  end.
Proof.
  cbv zeta.
  destruct (install_shape h pkgid appid metadata b)
    as [(_ & _ & Hres & Hsteps)
       |(handle & root_path & res_type & res_version & Hdb & _ & _ & _ & R & _ & _ & T)].
  - split; [exact Hres|]. rewrite filter_destroy_steps.
    destruct Hsteps as [[-> ->]|[Hsome (getters & -> & Hg)]]; [reflexivity|].
    destruct (pkginfo_db h pkgid); [|congruence].
    split; [|eexists; reflexivity].
    rewrite filter_app. cbn [filter is_destroy]. now rewrite Hg.
  - cbv zeta in R, T. rewrite Hdb. split.
    + rewrite R. destruct (result (_get_json_config h _ _ b)); [now left | now right].
    + rewrite filter_destroy_steps, T. split.
      * rewrite !filter_app, config_never_destroys. reflexivity.
      * eexists. rewrite app_assoc. reflexivity.
Qed.

Lemma entry_calls_carry (ty : mlsvc_json_type_e) (app_info : string)
  (es : list (option JsonObject)) :
  Forall (carries_app_info app_info) (flat_map (entry_calls ty (Some app_info)) es).
Proof.
  induction es as [|o es IH]; [constructor|].
  cbn [flat_map]. apply Forall_app. split; [|exact IH].
  destruct ty; cbn [entry_calls]; [| | |constructor].
  - unfold model_calls.
    destruct (json_object_get_string_member o "name"); [|constructor].
    destruct (json_object_get_string_member o "model"); repeat constructor.
  - unfold pipeline_calls.
    destruct (json_object_get_string_member o "name"); [|constructor].
    destruct (json_object_get_string_member o "pipeline"); repeat constructor.
  - unfold resource_calls.
    destruct (json_object_get_string_member o "name"); [|constructor].
    induction (paths_of (json_object_get_member o "path")); repeat constructor.
    assumption.
Qed.

Lemma outcome_carries (object : option JsonObject) (app_info : string)
  (names : list string) :
  Forall (carries_app_info app_info)
    (snd (members_outcome object (Some app_info) names)).
Proof.
  induction names as [|name names IH]; [constructor|].
  cbn [members_outcome]. destruct (category_of name) as [ty|]; [|constructor].
  destruct (members_outcome object (Some app_info) names) as [ok calls].
  cbn [snd] in *. apply Forall_app. split; [apply entry_calls_carry | exact IH].
Qed.

(** X12: One application context per install.  Every Register and
    AddResource call that INSTALL issues carries the same application
    context: the JSON text of the object with the members is_rpk = "T",
    pkg_id, app_id (the empty string when INSTALL was given no
    application id), res_type and res_version, in this order, built from
    the arguments and from what the package handle says. *)
Theorem install_calls_carry_one_context (h : host) (pkgid : string)
  (appid : option string) (metadata : list _metadata_s) (b : B) :
  let r := PKGMGR_MDPARSER_PLUGIN_INSTALL h pkgid appid metadata b in
  backend_calls (trace r) = [] \/
  exists handle res_type res_version,
    pkginfo_db h pkgid = Some handle /\
    h_res_type handle = Some res_type /\
    h_res_version handle = Some res_version /\
    Forall (carries_app_info
              (json_generator_to_data h
                 (JObject [ ("is_rpk", JString "T");
                            ("pkg_id", JString pkgid);
                            ("app_id", JString (match appid with
                                                | Some a => a
                                                | None => EmptyString
                                                end));
                            ("res_type", JString res_type);
                            ("res_version", JString res_version) ])))
      (backend_calls (trace r)).
Proof.
  cbv zeta.
  destruct (install_shape h pkgid appid metadata b)
    as [(Hnone & _)
       |(handle & root_path & res_type & res_version & Hdb & _ & Hrt & Hrv & _ & _ & C & _)].
  - now left.
  - right. exists handle, res_type, res_version. repeat split; try assumption.
    cbv zeta in C. rewrite C.
    rewrite (proj2 (get_json_config_outcome h _ _ b)).
    unfold config_outcome.
    repeat match goal with
    | |- context [if ?c then _ else _] => destruct c; [constructor|]
    | |- context [match ?c with Some _ => _ | None => _ end] =>
        destruct c; [|constructor]
    | |- context [match ?c with LoadError _ => _ | Loaded _ => _ end] =>
        destruct c; [constructor|]
    end.
    apply (outcome_carries _ (_make_pkg_info h pkgid appid res_type res_version)).
Qed.

(** X13: Nothing is ever unregistered.  UNINSTALL, RECOVERINSTALL, CLEAN
    and UNDO return 0 and do nothing but log: no backend call, no look at
    the package database or the file system, the backend left as it was.
    UPGRADE and RECOVERUNINSTALL do, apart from logging, what INSTALL
    does: the same steps, the same backend calls, the same backend
    afterwards; RECOVERUNINSTALL also returns what INSTALL returns.  So
    an upgrade registers the entries of the manifest again on top of what
    was registered before. *)
Theorem nothing_is_unregistered (h : host) (pkgid : string)
  (appid : option string) (metadata : list _metadata_s) (b : B) :
  let quiet (r : Z * B * list event) :=
    result r = 0%Z /\ state_of r = b /\ steps (trace r) = [] in
  let i := PKGMGR_MDPARSER_PLUGIN_INSTALL h pkgid appid metadata b in
  let like_install (r : Z * B * list event) :=
    state_of r = state_of i /\ steps (trace r) = steps (trace i) /\
    backend_calls (trace r) = backend_calls (trace i) in
  quiet (PKGMGR_MDPARSER_PLUGIN_UNINSTALL pkgid appid metadata b) /\
  quiet (PKGMGR_MDPARSER_PLUGIN_RECOVERINSTALL pkgid appid metadata b) /\
  quiet (PKGMGR_MDPARSER_PLUGIN_CLEAN pkgid appid metadata b) /\
  quiet (PKGMGR_MDPARSER_PLUGIN_UNDO pkgid appid metadata b) /\
  like_install (PKGMGR_MDPARSER_PLUGIN_UPGRADE h pkgid appid metadata b) /\
  like_install (PKGMGR_MDPARSER_PLUGIN_RECOVERUNINSTALL h pkgid appid metadata b) /\
  result (PKGMGR_MDPARSER_PLUGIN_RECOVERUNINSTALL h pkgid appid metadata b) = result i.
Proof.
  cbv beta zeta.
  split; [repeat split|]. split; [repeat split|]. split; [repeat split|].
  split; [repeat split|].
  unfold PKGMGR_MDPARSER_PLUGIN_UPGRADE, PKGMGR_MDPARSER_PLUGIN_RECOVERUNINSTALL,
    PKGMGR_MDPARSER_PLUGIN_UNINSTALL.
  rewrite !result_bind, !state_bind, !trace_bind.
  cbn [_I emit pure result state_of trace fst snd app].
  rewrite ?app_nil_r. unfold steps, backend_calls.
  cbn [filter is_step is_backend_call]. repeat split; reflexivity.
Qed.

End Install.

(** *** On the bench *)

Import Bench OddFiles.

Lemma parse_failure_is_logged_witness :
  ends_with_error "_get_json_config"
    (trace (_get_json_config bench_host "/opt/rpk.unknown/res/global/ai/rpk_config.json"
              None 0%nat)).
Proof.
  apply (@parse_failure_is_logged nat counting_agent bench_host
           "/opt/rpk.unknown/res/global/ai/rpk_config.json" None 0%nat).
  reflexivity.
Defined.

Lemma parse_fails_before_the_manifest_witness :
  let error := Dlog DLOG_ERROR "_get_json_config" in
  let tested p := FileTest p [G_FILE_TEST_EXISTS; G_FILE_TEST_IS_REGULAR] in
  _get_json_config odd_host "/opt/nothing" None 0%nat
  = (false, 0%nat,
     [tested "/opt/nothing";
      error "The parameter, json_path, is invalid. It should be a valid string." []]) /\
  _get_json_config odd_host "/opt/dir" None 0%nat
  = (false, 0%nat,
     [tested "/opt/dir"; FileGetContents "/opt/dir";
      error "Failed to read configuration file '%s'." [ArgStr (Some "/opt/dir")]]) /\
  _get_json_config odd_host "/opt/broken.json" None 0%nat
  = (false, 0%nat,
     [tested "/opt/broken.json"; FileGetContents "/opt/broken.json";
      error "Failed to parse configuration file, cannot load json string (%s)."
        [ArgStr (Some "unexpected end of input")]]) /\
  _get_json_config odd_host "/opt/empty.json" None 0%nat
  = (false, 0%nat,
     [tested "/opt/empty.json"; FileGetContents "/opt/empty.json";
      error "Failed to parse configuration file, cannot get the top node from json string."
        []]).
Proof.
  cbv zeta. split; [|split; [|split]].
  - destruct (@parse_fails_before_the_manifest nat counting_agent odd_host
                "/opt/nothing" None 0%nat) as (P & _).
    apply P; reflexivity.
  - destruct (@parse_fails_before_the_manifest nat counting_agent odd_host
                "/opt/dir" None 0%nat) as (_ & P & _).
    apply P; reflexivity.
  - destruct (@parse_fails_before_the_manifest nat counting_agent odd_host
                "/opt/broken.json" None 0%nat) as (_ & _ & P & _).
    apply (P "{" (Some "unexpected end of input")); reflexivity.
  - destruct (@parse_fails_before_the_manifest nat counting_agent odd_host
                "/opt/empty.json" None 0%nat) as (_ & _ & _ & P).
    apply (P EmptyString); reflexivity.
Defined.

Lemma values_without_objects_are_skipped_witness :
  (exists fmt args,
     _parse_json (Some (JString "mobilenet")) MLSVC_JSON_MODEL None 0%nat
     = (tt, 0%nat, [Dlog DLOG_ERROR "_parse_json" fmt args])) /\
  (let r := _parse_json (Some (JArray [JInt 1; JNull; JString "x"])) MLSVC_JSON_RESOURCE
              None 0%nat in
   state_of r = 0%nat /\ backend_calls (trace r) = [] /\
   List.length (trace r) = 3%nat).
Proof.
  destruct (@values_without_objects_are_skipped nat counting_agent MLSVC_JSON_MODEL
              None 0%nat) as (P1 & _ & _).
  destruct (@values_without_objects_are_skipped nat counting_agent MLSVC_JSON_RESOURCE
              None 0%nat) as (_ & _ & P3).
  split.
  - apply (P1 (JString "mobilenet")); reflexivity.
  - destruct (P3 [JInt 1; JNull; JString "x"]) as (S & C & _ & N).
    + repeat constructor.
    + cbv zeta. repeat split; assumption.
Defined.

Lemma pipeline_entries_are_set_witness :
  backend_calls
    (trace (_parse_json
              (Some (JArray [ JObject [ ("name", JString "p");
                                        ("pipeline", JString "videotestsrc ! fakesink") ];
                              JObject [ ("name", JString "q");
                                        ("pipeline", JString "fakesrc ! fakesink") ] ]))
              MLSVC_JSON_PIPELINE (Some "ctx") 0%nat))
  = [ SetPipelineDescription "p" "videotestsrc ! fakesink";
      SetPipelineDescription "q" "fakesrc ! fakesink" ].
Proof.
  apply (@pipeline_entries_are_set nat counting_agent
           [ [ ("name", JString "p"); ("pipeline", JString "videotestsrc ! fakesink") ];
             [ ("name", JString "q"); ("pipeline", JString "fakesrc ! fakesink") ] ]
           (Some "ctx") 0%nat).
  repeat (apply Forall_cons; [split; discriminate|]). apply Forall_nil.
Defined.

Lemma resource_with_one_path_witness :
  exists l,
    is_log l = true /\
    trace (_parse_json
             (Some (JArray [ JObject [ ("name", JString "labels");
                                       ("path", JString "/res/labels.txt") ] ]))
             MLSVC_JSON_RESOURCE None 0%nat)
    = [AddResource "labels" "/res/labels.txt" EmptyString EmptyString; l].
Proof.
  destruct (@resource_with_one_path nat counting_agent
              [ ("name", JString "labels"); ("path", JString "/res/labels.txt") ]
              "labels" "/res/labels.txt" None 0%nat eq_refl eq_refl) as (P & _).
  apply P. right. reflexivity.
Defined.

Lemma key_is_filed_under_its_category_witness :
  let value := JObject [("name", JString "p"); ("pipeline", JString "fakesrc ! fakesink")] in
  _get_json_config_members (Some [("PipeLines", value)]) None ["PipeLines"] 0%nat
  = bind (_parse_json (Some value) MLSVC_JSON_PIPELINE None)
      (fun _ => _get_json_config_members (Some [("PipeLines", value)]) None []) 0%nat.
Proof.
  cbv zeta.
  destruct (@key_is_filed_under_its_category nat counting_agent) as (_ & P).
  apply (P (Some [("PipeLines",
                   JObject [("name", JString "p");
                            ("pipeline", JString "fakesrc ! fakesink")])])
           None "PipeLines" [] MLSVC_JSON_PIPELINE 0%nat).
  right. reflexivity.
Defined.

Lemma calls_follow_member_order_witness :
  backend_calls
    (trace (_get_json_config bench_host "/opt/rpk.full/res/global/ai/rpk_config.json"
              (Some "ctx") 0%nat))
  = [ AddResource "r" "/r/1" EmptyString "ctx"; AddResource "r" "/r/2" EmptyString "ctx";
      SetPipelineDescription "p" "videotestsrc ! fakesink";
      Register "m" "/m.tflite" true EmptyString "ctx" ].
Proof.
  apply (@calls_follow_member_order nat counting_agent bench_host
           "/opt/rpk.full/res/global/ai/rpk_config.json"
           [ ("Resources",
              JObject [ ("name", JString "r");
                        ("path", JArray [JString "/r/1"; JInt 7; JString "/r/2"]) ]);
             ("pipeline",
              JObject [ ("name", JString "p");
                        ("pipeline", JString "videotestsrc ! fakesink") ]);
             ("MODEL",
              JObject [ ("name", JString "m"); ("model", JString "/m.tflite");
                        ("activate", JString "True") ]) ]
           (Some "ctx") 0%nat).
  - split; [reflexivity | split; [reflexivity | exists "full"; split; reflexivity]].
  - repeat (apply NoDup_cons; [cbn; intuition discriminate|]). apply NoDup_nil.
  - apply Forall_cons; [right; right; right; reflexivity|].
    apply Forall_cons; [right; left; left; reflexivity|].
    apply Forall_cons; [left; left; reflexivity|]. apply Forall_nil.
Defined.

Lemma every_entry_is_logged_witness :
  List.length
    (filter is_log
       (trace (_parse_json
                 (Some (JArray [ JObject [("name", JString "a"); ("model", JString "/a")];
                                 JObject [("name", JString "broken");
                                          ("model", JString "/b")];
                                 JObject [("name", JString "c")] ]))
                 MLSVC_JSON_MODEL None 0%nat)))
  = 3%nat.
Proof.
  apply (@every_entry_is_logged nat counting_agent
           (Some (JArray [ JObject [("name", JString "a"); ("model", JString "/a")];
                           JObject [("name", JString "broken"); ("model", JString "/b")];
                           JObject [("name", JString "c")] ]))
           MLSVC_JSON_MODEL None 0%nat).
  left. reflexivity.
Defined.

End PluginParserMore.

(* ===================================================================== *)
(** ** Further properties of the Model D-Bus module                       *)
(* ===================================================================== *)

Module ModelDBusMore.

Import Eff ModelDBus ObserveDBus.
Local Open Scope string_scope.
Local Open Scope list_scope.

Section Lifecycle.

Context {D : Type} `{ServiceDb D}.
Variable ifc : dbus_interface.

Lemma disconnect_null (infos : list (@gdbus_signal_info D)) :
  forall n, fst (gdbus_disconnect_signal None n infos) = None.
Proof.
  induction infos as [|info infos IH]; intros [|n]; try reflexivity.
  cbn [gdbus_disconnect_signal].
  destruct (0 <? handler_id info)%N; cbn [option_map];
    specialize (IH n); destruct (gdbus_disconnect_signal None n infos); exact IH.
Qed.

Lemma disconnect_zero_stays (infos : list (@gdbus_signal_info D)) :
  Forall (fun info => handler_id info = 0%N) infos ->
  forall n instance,
    Forall (fun info => handler_id info = 0%N)
      (snd (gdbus_disconnect_signal instance n infos)).
Proof.
  induction 1 as [|info infos Hz Hrest IH]; intros [|n] instance;
    cbn [gdbus_disconnect_signal snd]; try (constructor; assumption).
  match goal with
  | |- context [gdbus_disconnect_signal ?i n infos] =>
      specialize (IH n i); destruct (gdbus_disconnect_signal i n infos)
  end.
  cbn [snd] in *. constructor; [reflexivity | exact IH].
Qed.

Lemma disconnect_twice (infos : list (@gdbus_signal_info D)) :
  forall n i j,
    snd (gdbus_disconnect_signal j n (snd (gdbus_disconnect_signal i n infos)))
    = snd (gdbus_disconnect_signal i n infos).
Proof.
  induction infos as [|info infos IH]; intros [|n] i j; try reflexivity.
  cbn [gdbus_disconnect_signal].
  match goal with
  | |- context [gdbus_disconnect_signal ?i1 n infos] =>
      destruct (gdbus_disconnect_signal i1 n infos) as [i' r'] eqn:E1;
      pose proof (fun j1 => IH n i1 j1) as IH1; rewrite E1 in IH1
  end.
  cbn [snd gdbus_disconnect_signal] in *.
  match goal with
  | |- context [gdbus_disconnect_signal ?j1 n r'] =>
      specialize (IH1 j1); destruct (gdbus_disconnect_signal j1 n r') as [j' r'']
  end.
  cbn [snd] in *. now rewrite IH1.
Qed.

(** What [exit_model_module] does, from any state. *)
Lemma exit_run (st : module_state) :
  let n := List.length (handler_infos (D:=D) ifc) in
  exit_model_module ifc tt st
  = (tt,
     {| g_gdbus_instance := None;
        signal_infos := snd (gdbus_disconnect_signal (g_gdbus_instance st) n
                               (signal_infos st)) |},
     DisconnectSignal n
     :: match g_gdbus_instance st with
        | Some _ => [ObjectUnref]
        | None => []
        end).
Proof.
  cbv zeta. unfold exit_model_module, gdbus_put_model_instance, ARRAY_SIZE_handler_infos.
  cbv beta iota zeta delta [bind emit pure get put].
  destruct st as [[instance|] infos]; cbn [g_gdbus_instance signal_infos].
  - destruct (ModelDBusSpec.disconnect_keeps_instance infos
                (List.length (handler_infos (D:=D) ifc)) instance) as [i' Hi].
    destruct (gdbus_disconnect_signal (Some instance) _ infos) as [i'' t'].
    cbn [fst snd g_gdbus_instance signal_infos] in *. subst i''. reflexivity.
  - pose proof (disconnect_null infos (List.length (handler_infos (D:=D) ifc))) as Hn.
    destruct (gdbus_disconnect_signal None _ infos) as [i'' t'].
    cbn [fst snd g_gdbus_instance signal_infos] in *. subst i''. reflexivity.
Qed.

(** X14: Leaving twice releases once.  From any state of the module,
    [exit_model_module] leaves [g_gdbus_instance] NULL; it drops the
    reference to the service object exactly when there was one; and a
    second exit changes nothing and drops nothing, the pointer having
    been reset by the first. *)
Theorem exit_twice_releases_once (st : module_state) :
  let e1 := exit_model_module ifc tt st in
  let e2 := exit_model_module ifc tt (state_of e1) in
  g_gdbus_instance (state_of e1) = None /\
  filter is_unref (trace e1)
  = match g_gdbus_instance st with
    | Some _ => [ObjectUnref]
    | None => []
    end /\
  state_of e2 = state_of e1 /\
  filter is_unref (trace e2) = [].
Proof.
  cbv zeta. rewrite !exit_run. cbv zeta.
  cbn [state_of trace fst snd g_gdbus_instance signal_infos].
  repeat split.
  - now destruct (g_gdbus_instance st).
  - now rewrite disconnect_twice.
Qed.

Section Probe.

Variable g : gdbus.

(** X15: What probe acquires, exit gives back.  Run [probe_model_module]
    from the state the module starts in and then [exit_model_module],
    whatever the bus does: one service object is asked for; if it was
    obtained, its reference is dropped exactly once in the two hooks
    together (by probe when probe fails, by exit when probe succeeded),
    and never when it was not obtained; afterwards [g_gdbus_instance] is
    NULL and no handler of the table is attached. *)
Theorem probe_then_exit_gives_back :
  let p := probe_model_module ifc g tt (initial_state ifc) in
  let e := exit_model_module ifc tt (state_of p) in
  filter is_skeleton_new (trace p ++ trace e) = [SkeletonNew] /\
  filter is_unref (trace p ++ trace e)
  = (if skeleton_new_ok g then [ObjectUnref] else []) /\
  g_gdbus_instance (state_of e) = None /\
  no_handler_attached (state_of e).
Proof.
  cbv zeta. rewrite exit_run. cbv zeta. rewrite ModelDBusSpec.probe_run. cbv zeta.
  pose proof (ModelDBusSpec.initial_ids_zero (D:=D) ifc) as Hzero.
  destruct (skeleton_new_ok g).
  2:{ cbn [state_of trace fst snd g_gdbus_instance signal_infos].
      repeat split. apply disconnect_zero_stays. exact Hzero. }
  destruct (connect_each g _ (handler_infos ifc)) as [[instance infos]|] eqn:Hc.
  2:{ cbn [state_of trace fst snd g_gdbus_instance signal_infos].
      repeat split. apply disconnect_zero_stays. exact Hzero. }
  destruct (export_result g (DBUS_MODEL_PATH ifc) <? 0)%Z;
    cbn [state_of trace fst snd g_gdbus_instance signal_infos].
  - repeat split. apply disconnect_zero_stays.
    rewrite <- (ModelDBusSpec.connect_each_length _ _ _ _ _ Hc).
    apply ModelDBusSpec.disconnect_clears_ids.
  - repeat split.
    rewrite <- (ModelDBusSpec.connect_each_length _ _ _ _ _ Hc).
    apply ModelDBusSpec.disconnect_clears_ids.
Qed.

End Probe.

End Lifecycle.

End ModelDBusMore.
